(** * bank.py: a shallow embedding of the transaction pipeline

    The program reads bank statements into pandas data frames, maps them
    to one schema, cleans and categorises the rows, merges the sources
    and aggregates them.  This development embeds the functions of
    [bank.py] as Rocq functions over a small model of the Python values
    and of the data-frame operations they call, and states the
    properties of the specification about them.

    Conventions of the model:
    - a Python [str] is a [string]; each character is a code point below
      256, so the text operations are those of Python on Latin-1 text;
    - a number is an exact integer [Z] (pandas holds amounts as float64;
      rounding, infinities and NaN produced by arithmetic are outside
      the model); a missing value (NaN, None, NaT) is the absence of the
      cell from its row;
    - a raised exception is a value [Err] carrying the line of
      [bank.py] that raises it. *)

From Stdlib Require Import ZArith QArith Ascii String List Permutation Sorted Lia.
From stdpp Require Import base option list gmap strings pretty sorting.

Local Open Scope string_scope.
Local Open Scope Z_scope.

(** ** Exceptions and fallible computations *)

Inductive exn :=
| ValueError (msg : string)
| KeyError (key : string)
| TypeError
| AttributeError
| ParseError
| FileNotFoundError.

Record error := Raise { line : nat; exc : exn }.

Inductive result (A : Type) :=
| Ok (a : A)
| Err (e : error).
Arguments Ok {A} a.
Arguments Err {A} e.

Definition raise {A} (l : nat) (x : exn) : result A := Err (Raise l x).

#[global] Instance result_ret : MRet result := fun _ a => Ok a.
#[global] Instance result_bind : MBind result := fun _ _ f m =>
  match m with
  | Ok a => f a
  | Err e => Err e
  end.
#[global] Instance result_fmap : FMap result := fun _ _ f m =>
  match m with
  | Ok a => Ok (f a)
  | Err e => Err e
  end.

Definition is_ok {A} (m : result A) : bool :=
  match m with Ok _ => true | Err _ => false end.

(** [mapM] for [result]: the first failure aborts, as an exception
    raised inside a loop or inside [Series.apply] does. *)
Fixpoint traverse {A B} (f : A → result B) (l : list A) : result (list B) :=
  match l with
  | [] => Ok []
  | x :: l' => y ← f x; ys ← traverse f l'; Ok (y :: ys)
  end.

(** ** Python strings *)

Module PyStr.

Definition code (c : ascii) : N := N_of_ascii c.

Definition between (lo hi n : N) : bool := ((lo <=? n) && (n <=? hi))%N.

(** [str.isspace] on one character: the whitespace of [str.strip()]. *)
Definition isspace (c : ascii) : bool :=
  let n := code c in
  between 9 13 n || between 28 32 n || (n =? 133)%N || (n =? 160)%N.

(** [\d] of a [str] pattern: the decimal digits (below 256, only 0-9). *)
Definition isdigit (c : ascii) : bool := between 48 57 (code c).

(** [[A-Za-z]]. *)
Definition isletter (c : ascii) : bool :=
  let n := code c in between 65 90 n || between 97 122 n.

Definition isupper (c : ascii) : bool :=
  let n := code c in
  between 65 90 n || (between 192 222 n && negb (n =? 215)%N).

Definition lower_char (c : ascii) : ascii :=
  if isupper c then ascii_of_N (code c + 32) else c.

(** [str.lower()]. *)
Fixpoint lower (s : string) : string :=
  match s with
  | EmptyString => EmptyString
  | String c s' => String (lower_char c) (lower s')
  end.

Fixpoint lstrip (s : string) : string :=
  match s with
  | EmptyString => EmptyString
  | String c s' => if isspace c then lstrip s' else s
  end.

Fixpoint rstrip (s : string) : string :=
  match s with
  | EmptyString => EmptyString
  | String c s' =>
      match rstrip s' with
      | EmptyString => if isspace c then EmptyString else String c EmptyString
      | r => String c r
      end
  end.

(** [str.strip()]. *)
Definition strip (s : string) : string := lstrip (rstrip s).

(** [k in s] on strings: [k] occurs in [s] as a substring. *)
Fixpoint contains (k s : string) : bool :=
  String.prefix k s ||
  match s with
  | EmptyString => false
  | String _ s' => contains k s'
  end.

(** [s.endswith(k)]. *)
Definition endswith (s k : string) : bool :=
  let n := String.length s in
  let m := String.length k in
  (m <=? n)%nat && String.eqb (String.substring (n - m) m s) k.

(** *** The pattern [[A-Za-z]?\/\d{2}-\d{2}-\d{2}] *)

(** [s] starts with a slash and three two-digit groups joined by dashes. *)
Definition date_tail (s : string) : bool :=
  match s with
  | String c0 (String d1 (String d2 (String h1 (String d3 (String d4
      (String h2 (String d5 (String d6 _)))))))) =>
      Ascii.eqb c0 "/" && isdigit d1 && isdigit d2 &&
      Ascii.eqb h1 "-" && isdigit d3 && isdigit d4 &&
      Ascii.eqb h2 "-" && isdigit d5 && isdigit d6
  | _ => false
  end.

(** The length of the match of the pattern at the start of [s], if any.
    The optional letter is greedy; when the letter is taken and the rest
    fails, the engine retries without it, which needs a slash where the
    letter stands and fails too. *)
Definition match_len (s : string) : option nat :=
  match s with
  | EmptyString => None
  | String c s' =>
      if isletter c && date_tail s' then Some 10%nat
      else if date_tail s then Some 9%nat
      else None
  end.

(** [re.sub(regex, "", s)]: the scan goes left to right, removes the
    match found at the current position and resumes after it.  [skip]
    counts the characters of the current match still to be dropped. *)
Fixpoint re_sub_from (skip : nat) (s : string) : string :=
  match s with
  | EmptyString => EmptyString
  | String c s' =>
      match skip with
      | S k => re_sub_from k s'
      | O =>
          match match_len s with
          | Some n => re_sub_from (Nat.pred n) s'
          | None => String c (re_sub_from 0 s')
          end
      end
  end.

Definition re_sub (s : string) : string := re_sub_from 0 s.

(** Some position of [s] starts a match of the pattern. *)
Fixpoint has_match (s : string) : bool :=
  match s with
  | EmptyString => false
  | String _ s' => bool_decide (is_Some (match_len s)) || has_match s'
  end.

End PyStr.

(** ** The Cleaner's text normalisation (bank.py, lines 101-109) *)

(** What lines 101, 106 and 109 do to one string of the Text column:
    [.str.strip()], then [re.sub(regex, "", x).strip()], then
    [.str.lower()]. *)
Definition clean_text (x : string) : string :=
  PyStr.lower (PyStr.strip (PyStr.re_sub (PyStr.strip x))).

(** ** Calendar dates

    A cell of the Date column is a pandas [Timestamp]: a calendar date
    of the proleptic Gregorian calendar and a time of day in
    nanoseconds.  The functions below follow CPython's [datetime]
    module, which [.dt] and [strftime] go through. *)

Module Calendar.

Record Timestamp := mkTimestamp {
  year : Z;
  month : Z;
  day : Z;
  time : Z  (* nanoseconds since midnight *)
}.

Definition is_leap (y : Z) : bool :=
  (y mod 4 =? 0) && (negb (y mod 100 =? 0) || (y mod 400 =? 0)).

Definition days_in_month (y m : Z) : Z :=
  match m with
  | 2 => if is_leap y then 29 else 28
  | 4 | 6 | 9 | 11 => 30
  | _ => 31
  end.

(** Days before January 1st of year [y]. *)
Definition days_before_year (y : Z) : Z :=
  let y1 := y - 1 in y1 * 365 + y1 / 4 - y1 / 100 + y1 / 400.

(** Days of year [y] before the first day of month [m]. *)
Definition days_before_month (y m : Z) : Z :=
  match m with
  | 1 => 0 | 2 => 31 | 3 => 59 | 4 => 90 | 5 => 120 | 6 => 151
  | 7 => 181 | 8 => 212 | 9 => 243 | 10 => 273 | 11 => 304 | _ => 334
  end + (if (2 <? m) && is_leap y then 1 else 0).

(** [date.toordinal()]: January 1st of year 1 is day 1. *)
Definition ymd2ord (y m d : Z) : Z :=
  days_before_year y + days_before_month y m + d.

Definition toordinal (t : Timestamp) : Z := ymd2ord (year t) (month t) (day t).

(** The dates pandas can hold at nanosecond resolution lie in the years
    1677 to 2262; a valid timestamp names an existing day. *)
Definition valid (t : Timestamp) : Prop :=
  1677 <= year t <= 2262 ∧ 1 <= month t <= 12 ∧
  1 <= day t <= days_in_month (year t) (month t) ∧
  0 <= time t < 86400000000000.

(** [.dt.dayofweek]: Monday is 0, Sunday is 6. *)
Definition dayofweek (t : Timestamp) : Z := (toordinal t + 6) mod 7.

(** [.dt.quarter]. *)
Definition quarter (t : Timestamp) : Z := (month t - 1) / 3 + 1.

(** The ordinal of the Monday that starts ISO week 1 of year [y]. *)
Definition isoweek1monday (y : Z) : Z :=
  let firstday := ymd2ord y 1 1 in
  let firstweekday := (firstday + 6) mod 7 in
  let week1monday := firstday - firstweekday in
  if 3 <? firstweekday then week1monday + 7 else week1monday.

(** [date.isocalendar()]: ISO year, ISO week number and ISO weekday. *)
Definition isocalendar (t : Timestamp) : Z * Z * Z :=
  let y := year t in
  let today := toordinal t in
  let week := (today - isoweek1monday y) / 7 in
  let wday := (today - isoweek1monday y) mod 7 in
  if week <? 0 then
    let y' := y - 1 in
    ((y', (today - isoweek1monday y') / 7 + 1),
     (today - isoweek1monday y') mod 7 + 1)
  else if (52 <=? week) && (isoweek1monday (y + 1) <=? today) then
    ((y + 1, 1), wday + 1)
  else ((y, week + 1), wday + 1).

Definition iso_year (t : Timestamp) : Z := fst (fst (isocalendar t)).
Definition iso_week (t : Timestamp) : Z := snd (fst (isocalendar t)).

(** A number printed in at least two digits: [%m], [%V]. *)
Definition two_digits (n : Z) : string :=
  if n <? 10 then "0" ++ pretty n else pretty n.

(** [%B] and [%A] in the C locale. *)
Definition month_name (m : Z) : string :=
  match m with
  | 1 => "January" | 2 => "February" | 3 => "March" | 4 => "April"
  | 5 => "May" | 6 => "June" | 7 => "July" | 8 => "August"
  | 9 => "September" | 10 => "October" | 11 => "November" | _ => "December"
  end.

Definition day_name (wd : Z) : string :=
  match wd with
  | 0 => "Monday" | 1 => "Tuesday" | 2 => "Wednesday" | 3 => "Thursday"
  | 4 => "Friday" | 5 => "Saturday" | _ => "Sunday"
  end.

(** [strftime("%Y-%m")], [strftime("%G-W%V")]. *)
Definition strftime_Y_m (t : Timestamp) : string :=
  pretty (year t) ++ "-" ++ two_digits (month t).

Definition strftime_G_W_V (t : Timestamp) : string :=
  pretty (iso_year t) ++ "-W" ++ two_digits (iso_week t).

(** The position of a timestamp on the time line, the key it is sorted by. *)
Definition timeline (t : Timestamp) : Z :=
  toordinal t * 86400000000000 + time t.

(** *** ISO 8601 week dates, as the standard words them

    A week runs from Monday to Sunday and belongs to the year that holds
    its Thursday; weeks are numbered from 1 within that year.  These
    definitions search the year of the Thursday instead of computing
    it, and serve as the reference the program's derivation is compared
    with. *)

(** The ordinal of the Thursday of the week of [t]. *)
Definition thursday_of_week (t : Timestamp) : Z :=
  toordinal t - dayofweek t + 3.

(** Year [y] holds the day of ordinal [n]. *)
Definition year_holds (y n : Z) : Prop :=
  days_before_year y < n <= days_before_year (y + 1).

(** [(y, w)] is the ISO 8601 week of [t]. *)
Definition iso8601_week_of (t : Timestamp) (y w : Z) : Prop :=
  year_holds y (thursday_of_week t) ∧
  w = (thursday_of_week t - days_before_year y - 1) / 7 + 1.

End Calendar.

(** ** Data frames

    A row maps column names to cells; a column that the frame has and
    the row does not is a missing value (NaN, None, NaT) in that row.
    The frame keeps the list of its column names, since the program
    tests [c in data.columns].  Rows are identified by their position:
    the index labels of the frames of this program are unique (a
    [RangeIndex] from which rows are only ever dropped). *)

Inductive cell :=
| Str (s : string)
| Num (x : Z)
| Bool (b : bool)
| Date (t : Calendar.Timestamp).

Abbreviation row := (gmap string cell).

Record DataFrame := mkDataFrame {
  columns : list string;
  rows : list row
}.

Definition has_column (c : string) (data : DataFrame) : bool :=
  bool_decide (c ∈ columns data).

(** The column names after an assignment to column [c]: a new name goes
    last, an existing one keeps its place. *)
Definition add_column (c : string) (cols : list string) : list string :=
  if bool_decide (c ∈ cols) then cols else cols ++ [c].

(** Write a value, possibly missing, into a row. *)
Definition set_cell (c : string) (v : option cell) (r : row) : row :=
  match v with
  | Some x => <[c := x]> r
  | None => delete c r
  end.

(** [data[c] = data.apply(f, axis=1)] and the like: every row gets the
    value computed from it. *)
Definition assign (c : string) (f : row → option cell) (data : DataFrame)
  : DataFrame :=
  {| columns := add_column c (columns data);
     rows := (λ r, set_cell c (f r) r) <$> rows data |}.

(** The same when computing a value can raise ([l] is the line of the
    statement); the first exception aborts the assignment. *)
Definition assignM (c : string) (f : row → result (option cell))
    (data : DataFrame) : result DataFrame :=
  rs ← traverse (λ r, v ← f r; Ok (set_cell c v r)) (rows data);
  Ok {| columns := add_column c (columns data); rows := rs |}.

(** [data.dropna(subset=[c])], raised from line [l] when the column is
    not there. *)
Definition dropna (l : nat) (c : string) (data : DataFrame)
  : result DataFrame :=
  if has_column c data then
    Ok {| columns := columns data;
          rows := filter (λ r, is_Some (r !! c)) (rows data) |}
  else raise l (KeyError c).

(** [data[c] = data[c].fillna(v)]. *)
Definition fillna (l : nat) (c : string) (v : cell) (data : DataFrame)
  : result DataFrame :=
  if has_column c data then
    Ok (assign c (λ r, Some (default v (r !! c))) data)
  else raise l (KeyError c).

(** [data.at[index, c] = v]: writes one cell, and creates the column,
    missing in all other rows, when the frame does not have it. *)
Definition at_set (index : nat) (c : string) (v : cell) (data : DataFrame)
  : DataFrame :=
  {| columns := add_column c (columns data);
     rows := alter (insert c v) index (rows data) |}.

(** [data.loc[mask, c] = v] for a mask computed from each row. *)
Definition loc_set (mask : row → bool) (c : string) (v : cell)
    (data : DataFrame) : DataFrame :=
  {| columns := add_column c (columns data);
     rows := (λ r, if mask r then <[c := v]> r else r) <$> rows data |}.

(** [data[c] == s], row by row: a string cell equal to [s]. *)
Definition cell_is (c : string) (s : string) (r : row) : bool :=
  match r !! c with
  | Some (Str s') => String.eqb s' s
  | _ => false
  end.

(** [data.rename(columns=mapping)]: every column named by a key of
    [mapping] takes the mapped name.  A frame in which two columns end
    with one name is outside the model (the later column wins here). *)
Definition rename_label (mapping : gmap string string) (c : string) : string :=
  default c (mapping !! c).

Definition rename (mapping : gmap string string) (data : DataFrame)
  : DataFrame :=
  {| columns := remove_dups (rename_label mapping <$> columns data);
     rows := (λ r : row, kmap (M2 := gmap string) (rename_label mapping) r)
             <$> rows data |}.

(** [data.drop(columns=cs)]. *)
Definition drop (cs : list string) (data : DataFrame) : DataFrame :=
  {| columns := filter (λ c, c ∉ cs) (columns data);
     rows := (λ r : row, filter (λ kv, kv.1 ∉ cs) r) <$> rows data |}.

(** [pd.concat([a, b], ignore_index=True)]: the columns of both, the
    rows of [a] followed by those of [b]. *)
Definition concat (a b : DataFrame) : DataFrame :=
  {| columns := columns a ++ filter (λ c, c ∉ columns a) (columns b);
     rows := rows a ++ rows b |}.

(** ** Configuration *)

(** The value of a field of a source descriptor: a JSON scalar. *)
Inductive pyval :=
| PStr (s : string)
| PNum (x : Z)
| PBool (b : bool)
| PNone.

Abbreviation Source := (gmap string pyval).

(** An entry of [settings["sourceTypes"]]; [None] is an absent key. *)
Record SourceType := mkSourceType {
  st_columns : option (gmap string string);
  st_skipRows : option Z;
  st_minAmount : option pyval;
  st_maxAmount : option pyval
}.

(** [settings["categorizations"]]: a dict keeps the order of its keys,
    which are pairwise different. *)
Abbreviation Categorizations := (list (string * list string)).

Definition has_key {V} (k : string) (d : gmap string V) : bool :=
  bool_decide (is_Some (d !! k)).

(** ** Source Normalizer (bank.py, lines 38-53)

    The result is the completed descriptor together with the notices
    printed on the way. *)
Definition load_and_transform_data_from_source_enrich_source
    (original_source : Source) : result (Source * list string) :=
  let source := original_source in
  if negb (has_key "path" source) then
    raise 43 (ValueError "Source must have a path")
  else if negb (has_key "type" source) then
    raise 45 (ValueError "Source must have a type")
  else
    let '(source, out1) :=
      if negb (has_key "modifier" source)
      then (<["modifier" := PNum 1]> source,
            ["No modifier found, using default value 1.0"])
      else (source, []) in
    let '(source, out2) :=
      if negb (has_key "account" source)
      then (<["account" := PStr "Default"]> source,
            ["No account found, using default value Default"])
      else (source, []) in
    Ok (source, (out1 ++ out2)%list).

(** ** Calendar Enricher (bank.py, lines 55-76) *)

Definition date_of (r : row) : option Calendar.Timestamp :=
  match r !! "Date" with
  | Some (Date t) => Some t
  | _ => None
  end.

(** [.astype(str)] of a numeric cell.  A numeric column with a missing
    value is a float column, whose numbers print with a fraction. *)
Definition astype_str (float : bool) (c : option cell) : string :=
  match c with
  | Some (Num x) => if float then pretty x ++ ".0" else pretty x
  | Some (Str s) => s
  | Some (Bool b) => if b then "True" else "False"
  | Some (Date t) => Calendar.strftime_Y_m t
  | None => "nan"
  end.

Definition season_name (n : Z) : option cell :=
  match n with
  | 1 => Some (Str "Winter")
  | 2 => Some (Str "Spring")
  | 3 => Some (Str "Summer")
  | 4 => Some (Str "Autumn")
  | _ => None
  end.

Definition load_and_transform_data_from_source_add_additional_columns_from_date
    (original : DataFrame) : result DataFrame :=
  let data := original in
  if negb (has_column "Date" data) then Ok data
  else if bool_decide (Exists (λ r : row, is_Some (r !! "Date") ∧ date_of r = None)
                         (rows data))
  then raise 61 AttributeError  (* [.dt] on a column that holds no datetimes *)
  else
    let float := bool_decide (Exists (λ r : row, r !! "Date" = None) (rows data)) in
    let on_date (f : Calendar.Timestamp → cell) (r : row) := f <$> date_of r in
    let data := assign "Year" (on_date (λ t, Num (Calendar.year t))) data in
    let data := assign "QuarterNumber"
                  (on_date (λ t, Num (Calendar.quarter t))) data in
    let data := assign "Quarter"
                  (λ r, Some (Str (astype_str float (r !! "Year") ++ "-Q" ++
                                   astype_str float (r !! "QuarterNumber"))))
                  data in
    let data := assign "Season"
                  (on_date (λ t, Num ((Calendar.month t mod 12 + 3) / 3))) data in
    let data := assign "Season"
                  (λ r, match r !! "Season" with
                        | Some (Num n) => season_name n
                        | _ => None
                        end) data in
    let data := assign "Month" (on_date (λ t, Str (Calendar.strftime_Y_m t))) data in
    let data := assign "MonthName"
                  (on_date (λ t, Str (Calendar.month_name (Calendar.month t))))
                  data in
    let data := assign "DayOfMonth" (on_date (λ t, Num (Calendar.day t))) data in
    let data := assign "Week" (on_date (λ t, Str (Calendar.strftime_G_W_V t))) data in
    let data := assign "WeekNumber"
                  (on_date (λ t, Num (Calendar.iso_week t))) data in
    let data := assign "Weekday"
                  (on_date (λ t, Str (Calendar.day_name (Calendar.dayofweek t))))
                  data in
    let data := assign "IsWeekend"
                  (λ r, Some (Bool (match date_of r with
                                    | Some t => bool_decide (Calendar.dayofweek t = 5
                                                             ∨ Calendar.dayofweek t = 6)
                                    | None => false
                                    end))) data in
    Ok data.

(** ** Amount Classifier (bank.py, lines 78-86) *)

(** [x > 0] for the content of a cell; a missing value compares false,
    a string or a date cannot be compared with a number. *)
Definition gt_zero (l : nat) (c : option cell) : result bool :=
  match c with
  | None => Ok false
  | Some (Num x) => Ok (0 <? x)
  | Some (Bool b) => Ok b
  | Some (Str _) | Some (Date _) => raise l TypeError
  end.

Definition load_and_transform_data_from_source_add_additional_columns_from_amount
    (original : DataFrame) : result DataFrame :=
  let data := original in
  if negb (has_column "Amount" data) then Ok data
  else
    assignM "Type"
      (λ r, b ← gt_zero 84 (r !! "Amount");
            Ok (Some (Str (if b : bool then "Income" else "Expense"))))
      data.

(** ** Cleaner (bank.py, lines 88-111)

    A Text cell that holds no string makes [re.sub] raise. *)
Definition load_and_transform_data_from_source_clean_data
    (original : DataFrame) : result DataFrame :=
  let data := original in
  data ← dropna 94 "Date" data;
  data ← dropna 97 "Amount" data;
  if has_column "Text" data then
    assignM "Text"
      (λ r, match r !! "Text" with
            | Some (Str x) => Ok (Some (Str (clean_text x)))
            | _ => raise 106 TypeError
            end)
      data
  else Ok data.

(** ** The per-source pipeline (bank.py, lines 113-209) *)

(** [d[k]] on a dict with string keys. *)
Definition getitem {V} (l : nat) (d : gmap string V) (k : string) : result V :=
  match d !! k with
  | Some v => Ok v
  | None => raise l (KeyError k)
  end.

Definition repr (v : pyval) : string :=
  match v with
  | PStr s => s
  | PNum x => pretty x
  | PBool b => if b then "True" else "False"
  | PNone => "None"
  end.

(** [source_types[key]]: the keys of the registry are strings, so that
    no other value is found in it. *)
Definition registry_getitem (l : nat) (source_types : gmap string SourceType)
    (key : pyval) : result SourceType :=
  match key with
  | PStr k => getitem l source_types k
  | _ => raise l (KeyError (repr key))
  end.

(** [v[key]] for a string [key] on a scalar [v]: a string takes integer
    indices only, and a number, a boolean or [None] takes none. *)
Definition subscript (l : nat) (v : pyval) (key : string) : result pyval :=
  match v with
  | PStr _ => raise l TypeError
  | PNum _ | PBool _ | PNone => raise l TypeError
  end.

(** Line 153: [data['Amount'] = data['Amount'] * source['modifier']]. *)
Definition apply_modifier (source : Source) (data : DataFrame)
  : result DataFrame :=
  if negb (has_column "Amount" data) then raise 153 (KeyError "Amount")
  else
    modifier ← getitem 153 source "modifier";
    m ← match modifier with
        | PNum m => Ok m
        | PBool b => Ok (if b then 1 else 0)
        | PStr _ | PNone => raise 153 TypeError
        end;
    assignM "Amount"
      (λ r, match r !! "Amount" with
            | None => Ok None
            | Some (Num x) => Ok (Some (Num (x * m)))
            | Some (Bool b) => Ok (Some (Num ((if b then 1 else 0) * m)))
            | Some (Str _) | Some (Date _) => raise 153 TypeError
            end)
      data.

(** Lines 157-160.  The bound is looked up as
    [source_types[source['type']['minAmount']]]: the subscript
    ['minAmount'] is applied to the type name, not to the entry of the
    registry.  Were it to yield a key, the frame would be compared with
    an entry of the registry, a dict. *)
Definition filter_amounts (source : Source)
    (source_types : gmap string SourceType) (data : DataFrame)
  : result DataFrame :=
  ty ← getitem 157 source "type";
  source_type ← registry_getitem 157 source_types ty;
  data ← (if bool_decide (is_Some (st_minAmount source_type)) then
            key ← subscript 158 ty "minAmount";
            _ ← registry_getitem 158 source_types key;
            raise 158 TypeError
          else Ok data);
  ty ← getitem 159 source "type";
  source_type ← registry_getitem 159 source_types ty;
  if bool_decide (is_Some (st_maxAmount source_type)) then
    key ← subscript 160 ty "maxAmount";
    _ ← registry_getitem 160 source_types key;
    raise 160 TypeError
  else Ok data.

(** [keyword in row['Text']]. *)
Definition keyword_in (keyword : string) (text : option cell) : result bool :=
  match text with
  | Some (Str t) => Ok (PyStr.contains keyword t)
  | _ => raise 176 TypeError
  end.

(** Lines 174-179, the loop over the keywords of one category: the
    first keyword found in the text writes the category into the frame
    and ends the loop. *)
Fixpoint scan_keywords (index : nat) (r : row) (category : string)
    (keywords : list string) (data : DataFrame) : result DataFrame :=
  match keywords with
  | [] => Ok data
  | keyword :: keywords' =>
      found ← keyword_in keyword (r !! "Text");
      if found : bool then Ok (at_set index "Category" (Str category) data)
      else scan_keywords index r category keywords' data
  end.

(** Lines 172-182, the loop over the categories for one row.  [r] and
    [row_columns] are the row as [iterrows] handed it out: a copy, made
    from the values and the columns the frame had when the iteration
    began, which the writes into [data] do not reach.  The test of line
    181, ['Category' in row], asks whether that copy has a Category
    entry. *)
Fixpoint scan_categories (index : nat) (r : row) (row_columns : list string)
    (categorizations : Categorizations) (data : DataFrame) : result DataFrame :=
  match categorizations with
  | [] => Ok data
  | (category, keywords) :: rest =>
      data ← scan_keywords index r category keywords data;
      if bool_decide ("Category" ∈ row_columns) then Ok data
      else scan_categories index r row_columns rest data
  end.

(** Lines 170-182, the loop over the rows. *)
Fixpoint iterrows_loop (index : nat) (snapshot : list row)
    (row_columns : list string) (categorizations : Categorizations)
    (data : DataFrame) : result DataFrame :=
  match snapshot with
  | [] => Ok data
  | r :: snapshot' =>
      data ← scan_categories index r row_columns categorizations data;
      iterrows_loop (S index) snapshot' row_columns categorizations data
  end.

(** Lines 168-182. *)
Definition apply_categories (categorizations : Categorizations)
    (data : DataFrame) : result DataFrame :=
  if has_column "Text" data then
    iterrows_loop 0 (rows data) (columns data) categorizations data
  else Ok data.

(** Lines 189 and 193. *)
Definition reclassify (data : DataFrame) : DataFrame :=
  let data := loc_set (cell_is "Category" "Investments")
                "Type" (Str "Investment") data in
  loc_set (cell_is "Category" "Transfers") "Type" (Str "Transfer") data.

(** Lines 196-197. *)
Definition all_categories (categorizations : Categorizations) : list string :=
  categorizations.*1 ++ ["Uncategorized"].

Definition amount_column (category : string) : string := "Amount" ++ category.

(** Lines 205-207: one assignment per category, in order. *)
Definition add_category_amounts (categories : list string) (data : DataFrame)
  : DataFrame :=
  foldl (λ data category,
           assign (amount_column category)
             (λ x, if cell_is "Category" category x then x !! "Amount"
                   else Some (Num 0))
             data)
        data categories.

Section Pipeline.

(** The readers of the tabular files and the parser of dates belong to
    pandas; the pipeline takes them as given.  A reader gets the path
    and the number of rows to skip. *)
Context (read_csv read_excel : string → Z → result DataFrame).
Context (to_datetime : cell → option Calendar.Timestamp).

(** Lines 119-143: the source descriptor completed, and the table read
    and mapped to the canonical column names. *)
Definition load_mapped (source : Source)
    (source_types : gmap string SourceType) : result (Source * DataFrame) :=
  '(source, _) ← load_and_transform_data_from_source_enrich_source source;
  ty ← getitem 120 source "type";
  entry ← registry_getitem 120 source_types ty;
  let skiprows := default 0 (st_skipRows entry) in
  path ← getitem 126 source "path";
  data ← match path with
         | PStr p =>
             if PyStr.endswith p ".csv" then read_csv p skiprows
             else if PyStr.endswith p ".xlsx" then read_excel p skiprows
             else raise 131 (ValueError "Unsupported file format")
         | _ => raise 126 AttributeError
         end;
  source_type ← registry_getitem 134 source_types ty;
  mapping ← match st_columns source_type with
            | Some m => Ok m
            | None => raise 135 (KeyError "columns")
            end;
  let data := rename mapping data in
  let columns_to_drop :=
    filter (λ column, column ∉ (map_to_list mapping).*2) (columns data) in
  let data := drop columns_to_drop data in
  data ← (if has_column "Date" data then
            assignM "Date"
              (λ r, match r !! "Date" with
                    | None => Ok None
                    | Some c =>
                        match to_datetime c with
                        | Some t => Ok (Some (Date t))
                        | None => raise 143 ParseError
                        end
                    end)
              data
          else Ok data);
  Ok (source, data).

(** Lines 146-160: the derived columns, the cleaning, the modifier and
    the range filter. *)
Definition prepare (source : Source) (source_types : gmap string SourceType)
    (data : DataFrame) : result DataFrame :=
  data ← load_and_transform_data_from_source_add_additional_columns_from_date data;
  data ← load_and_transform_data_from_source_add_additional_columns_from_amount data;
  data ← load_and_transform_data_from_source_clean_data data;
  data ← apply_modifier source data;
  filter_amounts source source_types data.

(** Lines 168-209: categories, types and the per-category amounts. *)
Definition categorize (categorizations : Categorizations) (data : DataFrame)
  : result DataFrame :=
  data ← apply_categories categorizations data;
  data ← fillna 185 "Category" (Str "Uncategorized") data;
  let data := reclassify data in
  Ok (add_category_amounts (all_categories categorizations) data).

Definition load_and_transform_data_from_source (source : Source)
    (source_types : gmap string SourceType)
    (categorizations : Categorizations) : result DataFrame :=
  '(source, data) ← load_mapped source source_types;
  data ← prepare source source_types data;
  categorize categorizations data.

End Pipeline.

(** ** Sorting

    [sort_values] is called with its default [kind="quicksort"], which
    numpy documents as not stable.  The model fixes what every sort
    kind guarantees, that the result is a rearrangement of the input in
    descending order of the key, and nothing about the order of rows
    with equal keys. *)
Class SortKind := {
  sort_desc : ∀ {A : Type}, (A → Z) → list A → list A;
  sort_desc_perm : ∀ (A : Type) (key : A → Z) (l : list A),
    sort_desc key l ≡ₚ l;
  sort_desc_sorted : ∀ (A : Type) (key : A → Z) (l : list A),
    StronglySorted (λ a b, key b <= key a) (sort_desc key l)
}.

(** A stable sort in descending order (the [kind="mergesort"] that
    [nlargest] asks for): among equal keys the earlier element stays
    first. *)
Fixpoint insert_desc {A} (key : A → Z) (x : A) (l : list A) : list A :=
  match l with
  | [] => [x]
  | y :: l' => if key y <=? key x then x :: l else y :: insert_desc key x l'
  end.

Definition stable_sort_desc {A} (key : A → Z) (l : list A) : list A :=
  foldr (insert_desc key) [] l.

(** The position of a cell in the order of its column.  The columns the
    program sorts hold dates or numbers; a column of strings has the
    object dtype, which [nlargest] refuses, and is not sorted here. *)
Definition sort_key (c : cell) : option Z :=
  match c with
  | Num x => Some x
  | Bool b => Some (if b then 1 else 0)
  | Date t => Some (Calendar.timeline t)
  | Str _ => None
  end.

Definition key_of (c : string) (r : row) : Z :=
  default 0 (r !! c ≫= sort_key).

Definition notnull (c : string) (r : row) : bool := bool_decide (is_Some (r !! c)).

Definition holds_string (c : string) (r : row) : bool :=
  match r !! c with
  | Some (Str _) => true
  | _ => false
  end.

(** [data.sort_values(c, ascending=False)]: the rows with a value in
    descending order, then the rows without one. *)
Definition sort_values `{SortKind} (l : nat) (c : string) (data : DataFrame)
  : result DataFrame :=
  if negb (has_column c data) then raise l (KeyError c)
  else if existsb (holds_string c) (rows data) then raise l TypeError
  else Ok {| columns := columns data;
             rows := sort_desc (key_of c) (List.filter (notnull c) (rows data))
                     ++ List.filter (λ r, negb (notnull c r)) (rows data) |}.

(** [data.nlargest(n, c)], with the default [keep="first"]: when the
    frame has no more than [n] rows it is [sort_values] of the column,
    cut to [n] rows; otherwise the [n] first rows in the stable
    descending order, missing values last. *)
Definition nlargest `{SortKind} (l : nat) (n : nat) (c : string)
    (data : DataFrame) : result DataFrame :=
  if negb (has_column c data) then raise l (KeyError c)
  else if existsb (holds_string c) (rows data) then raise l TypeError
  else
    let present := List.filter (notnull c) (rows data) in
    let missing := List.filter (λ r, negb (notnull c r)) (rows data) in
    let sorted :=
      if (length (rows data) <=? n)%nat then sort_desc (key_of c) present
      else stable_sort_desc (key_of c) present in
    Ok {| columns := columns data; rows := take n (sorted ++ missing) |}.

(** Two sort kinds.  The stable sort is one; so is the sort that hands
    the rows to it in reverse, which leaves rows of equal keys in the
    reverse of their input order. *)
Definition stable_kind : SortKind.
Proof.
  refine {| sort_desc := @stable_sort_desc |}.
  - intros A key l. induction l as [|x l IH]; [reflexivity|].
    cbn [stable_sort_desc foldr].
    change (foldr (insert_desc key) [] l) with (stable_sort_desc key l).
    transitivity (x :: stable_sort_desc key l); [|now constructor].
    generalize (stable_sort_desc key l). clear IH l.
    intros l. induction l as [|y l IH]; [reflexivity|].
    cbn [insert_desc]. destruct (key y <=? key x); [reflexivity|].
    rewrite IH. apply Permutation_swap.
  - intros A key l. induction l as [|x l IH]; [constructor|].
    cbn [stable_sort_desc foldr].
    change (foldr (insert_desc key) [] l) with (stable_sort_desc key l).
    revert IH. generalize (stable_sort_desc key l). clear l.
    intros l. induction 1 as [|y l Hs IH Hy]; [repeat constructor|].
    cbn [insert_desc]. destruct (key y <=? key x) eqn:E.
    + apply Z.leb_le in E. constructor; [constructor; assumption|].
      constructor; [exact E|].
      eapply Forall_impl; [exact Hy|]. cbn. intros z Hz. lia.
    + apply Z.leb_gt in E. constructor; [exact IH|].
      assert (Hperm : insert_desc key x l ≡ₚ x :: l).
      { clear. induction l as [|z l IHl]; [reflexivity|].
        cbn [insert_desc]. destruct (key z <=? key x); [reflexivity|].
        rewrite IHl. apply Permutation_swap. }
      rewrite Hperm. constructor; [lia|exact Hy].
Defined.

Definition tie_reversing_kind : SortKind.
Proof.
  refine {| sort_desc := λ A key l, @stable_sort_desc A key (rev l) |}.
  - intros A key l. rewrite (@sort_desc_perm stable_kind A key (rev l)).
    symmetry. apply Permutation_rev.
  - intros A key l. apply (@sort_desc_sorted stable_kind).
Defined.

(** ** Source Merger (bank.py, lines 212-232) *)

Section Merger.

Context `{SortKind}.
Context (read_csv read_excel : string → Z → result DataFrame).
Context (to_datetime : cell → option Calendar.Timestamp).

(** Lines 219-227: [data] is [None] until the first source is loaded. *)
Fixpoint merge_loop (sources : list Source)
    (source_types : gmap string SourceType)
    (categorizations : Categorizations) (data : option DataFrame)
  : result (option DataFrame) :=
  match sources with
  | [] => Ok data
  | source :: sources' =>
      source_data ← load_and_transform_data_from_source
                      read_csv read_excel to_datetime
                      source source_types categorizations;
      merge_loop sources' source_types categorizations
        (Some (match data with
               | None => source_data
               | Some data => concat data source_data
               end))
  end.

(** With no source at all, line 230 calls [sort_values] on [None]. *)
Definition load_and_transform_data_from_sources (sources : list Source)
    (source_types : gmap string SourceType)
    (categorizations : Categorizations) : result DataFrame :=
  data ← merge_loop sources source_types categorizations None;
  match data with
  | None => raise 230 AttributeError
  | Some data => sort_values 230 "Date" data
  end.

End Merger.

(** ** Aggregator (bank.py, lines 234-275) *)

Section Aggregator.

Context `{SortKind}.

(** [data.groupby(by).agg(mappings).reset_index()] belongs to pandas
    and is taken as given: it yields the full aggregate, or raises. *)
Context (groupby_agg : DataFrame → string → gmap string string → result DataFrame).

(** The two tables the report writes: the full aggregate, which is also
    the value returned, and its 25 rows with the largest Amount.  The
    directories, the files and the chart are left out. *)
Definition aggregate_report (title by_column : string)
    (aggregation_mappings : gmap string string) (data : DataFrame)
  : result (DataFrame * DataFrame) :=
  let aggregation_mappings_without_groupby_column :=
    delete by_column aggregation_mappings in
  aggregated ← groupby_agg data by_column
                 aggregation_mappings_without_groupby_column;
  largest ← nlargest 255 25 "Amount" aggregated;
  top_25_amounts ← sort_values 255 "Amount" largest;
  Ok (aggregated, top_25_amounts).

End Aggregator.

(** ** Reference definitions for the statements

    The definitions below are not part of the program: they word what
    the specification says, or name what the loops of the program
    compute, so that the theorems can compare the two. *)

(** Some keyword of the list occurs in the text. *)
Definition keyword_hit (text : option cell) (keywords : list string) : bool :=
  match text with
  | Some (Str t) => existsb (λ keyword, PyStr.contains keyword t) keywords
  | _ => false
  end.

(** The specification's rule: the first category, in the order of the
    rule map, one of whose keywords occurs in the text. *)
Fixpoint first_match (text : string) (categorizations : Categorizations)
  : option string :=
  match categorizations with
  | [] => None
  | (category, keywords) :: rest =>
      if keyword_hit (Some (Str text)) keywords then Some category
      else first_match text rest
  end.

(** The last such category. *)
Fixpoint last_match (text : string) (categorizations : Categorizations)
  : option string :=
  match categorizations with
  | [] => None
  | (category, keywords) :: rest =>
      match last_match text rest with
      | Some c => Some c
      | None =>
          if keyword_hit (Some (Str text)) keywords then Some category
          else None
      end
  end.

(** The category the loop of lines 172-182 leaves in the frame for a
    row, if it writes one; [in_row] is the outcome of the test of line
    181. *)
Fixpoint written_category (in_row : bool) (text : option cell)
    (categorizations : Categorizations) : option string :=
  match categorizations with
  | [] => None
  | (category, keywords) :: rest =>
      let here := if keyword_hit text keywords then Some category else None in
      if in_row then here
      else match written_category in_row text rest with
           | Some c => Some c
           | None => here
           end
  end.

(** The number in a cell; a missing value counts for nothing in a sum,
    and neither does a cell that holds no number. *)
Definition num_of (c : option cell) : Z :=
  match c with
  | Some (Num x) => x
  | Some (Bool b) => if b then 1 else 0
  | _ => 0
  end.

(** The sum of the [Amount<Category>] columns of a row, each column
    counted once. *)
Definition category_amounts_sum (categories : list string) (r : row) : Z :=
  foldr (λ category acc, num_of (r !! amount_column category) + acc) 0
        (remove_dups categories).

(** The order of [sort_values(ascending=False)] on keys that may be
    missing: larger keys first, missing keys last. *)
Definition desc_order (c : string) (r1 r2 : row) : Prop :=
  match r1 !! c, r2 !! c with
  | Some _, Some _ => key_of c r2 <= key_of c r1
  | Some _, None => True
  | None, Some _ => False
  | None, None => True
  end.

(** What the stages of lines 168-207 do to one row. *)
Definition categorized_row (in_row : bool) (categorizations : Categorizations)
    (r : row) : row :=
  match written_category in_row (r !! "Text") categorizations with
  | Some category => <["Category" := Str category]> r
  | None => r
  end.

Definition filled_row (r : row) : row :=
  <["Category" := default (Str "Uncategorized") (r !! "Category")]> r.

Definition reclassified_row (r : row) : row :=
  let r := if cell_is "Category" "Investments" r
           then <["Type" := Str "Investment"]> r else r in
  if cell_is "Category" "Transfers" r then <["Type" := Str "Transfer"]> r else r.

Definition expanded_row (categories : list string) (r : row) : row :=
  foldl (λ (r : row) category,
           set_cell (amount_column category)
             (if cell_is "Category" category r then r !! "Amount"
              else Some (Num 0)) r)
        r categories.

(** Lines 168-207 on one row: [with_text] tells whether the frame has a
    Text column, [in_row] whether it has a Category column before the
    loop. *)
Definition categorize_row (with_text in_row : bool)
    (categorizations : Categorizations) (r : row) : row :=
  expanded_row (all_categories categorizations)
    (reclassified_row
       (filled_row
          (if with_text then categorized_row in_row categorizations r else r))).

(** The columns the Calendar Enricher derives. *)
Definition calendar_columns : list string :=
  ["Year"; "QuarterNumber"; "Quarter"; "Season"; "Month"; "MonthName";
   "DayOfMonth"; "Week"; "WeekNumber"; "Weekday"; "IsWeekend"].

(** The factor of line 153, as a number. *)
Definition modifier_of (source : Source) : Z :=
  match source !! "modifier" with
  | Some (PNum m) => m
  | Some (PBool true) => 1
  | _ => 0
  end.

(** The type the Amount Classifier derives from a number. *)
Definition type_by_sign (x : Z) : cell :=
  Str (if 0 <? x then "Income" else "Expense").

(** The value of [data] after the loop of lines 219-227 over the
    per-source tables. *)
Definition concat_all (tables : list DataFrame) (data : option DataFrame)
  : option DataFrame :=
  foldl (λ data source_data,
           Some (match data with
                 | None => source_data
                 | Some data => concat data source_data
                 end))
        data tables.

(** ** The figure size of a chart (bank.py, lines 9-24)

    The numbers are floats in the program and exact rationals here;
    [n] is [len(x_data)]. *)
Definition dynamic_figsize (n : nat)
    (base_width scaling_factor label_spacing max_width height : Q) : Q * Q :=
  let width := (base_width
                + inject_Z (Z.of_nat n) * scaling_factor * label_spacing)%Q in
  (if Qlt_le_dec max_width width then max_width else width, height).

(** The call of line 264, with the default arguments. *)
Definition default_figsize (n : nat) : Q * Q :=
  dynamic_figsize n 10 (15 # 100) (1 # 2) 50 6.

(** ** The files of a report (bank.py, lines 237-245 and 257-272) *)

(** [title.split('/')]: the segments between the slashes, at least one. *)
Fixpoint split_slash (s : string) : list string :=
  match s with
  | EmptyString => [EmptyString]
  | String c s' =>
      match split_slash s' with
      | [] => [EmptyString]
      | segment :: segments =>
          if Ascii.eqb c "/" then EmptyString :: segment :: segments
          else String c segment :: segments
      end
  end.

(** ['/'.join(segments)]. *)
Fixpoint join_slash (segments : list string) : string :=
  match segments with
  | [] => EmptyString
  | [segment] => segment
  | segment :: segments' => segment ++ "/" ++ join_slash segments'
  end.

(** [title.replace('/', '-')]. *)
Fixpoint replace_slash (s : string) : string :=
  match s with
  | EmptyString => EmptyString
  | String c s' =>
      String (if Ascii.eqb c "/" then "-"%char else c) (replace_slash s')
  end.

(** Lines 237-241: everything but the last segment, when the title has
    a slash. *)
Definition folder_path (title : string) : string :=
  if PyStr.contains "/" title
  then join_slash (removelast (split_slash title))
  else EmptyString.

(** Line 245. *)
Definition file_name (title : string) : string := replace_slash title.

(** Line 257. *)
Definition path_to (title : string) : string :=
  "output/" ++ folder_path title ++ "/" ++ file_name title.

(** The files lines 260, 261 and 272 write. *)
Definition report_files (title : string) : list string :=
  [path_to title ++ "-dataAll.csv"; path_to title ++ "-dataTop25.csv";
   path_to title ++ "-diagramBar.png"].

(** ** The reports (bank.py, lines 277-289) *)

(** [data.groupby(by).agg(mappings).reset_index()], as far as its
    columns go: [groupby] needs the grouping column, and the result has
    the grouping column followed by the aggregated ones.  The rows of
    the groups, and what [agg] raises, are left to [group_rows]. *)
Definition groupby_agg_frame
    (group_rows : DataFrame → string → gmap string string → result (list row))
    (data : DataFrame) (by_column : string) (mappings : gmap string string)
  : result DataFrame :=
  if negb (has_column by_column data) then raise 252 (KeyError by_column)
  else
    groups ← group_rows data by_column mappings;
    Ok {| columns := by_column :: (map_to_list mappings).*1;
          rows := groups |}.

Section Reports.

Context `{SortKind}.
Context (group_rows : DataFrame → string → gmap string string
                      → result (list row)).

(** The nine reports, each as the pair of tables it writes.  The first
    is made from the data, the other eight from the full aggregate of
    the first. *)
Definition generate_reports (data : DataFrame)
    (aggregation_mappings : gmap string string) (prefix : string)
  : result (list (DataFrame * DataFrame)) :=
  let report (title by_column : string) (data : DataFrame) :=
    aggregate_report (groupby_agg_frame group_rows) (prefix ++ title)
      by_column aggregation_mappings data in
  expenses_by_date ← report "a-byDate" "Date" data;
  expenses_by_weekday ← report "b-byWeekday" "Weekday" expenses_by_date.1;
  expenses_by_week ← report "c-byWeek" "Week" expenses_by_date.1;
  expenses_by_month ← report "d-byMonth" "Month" expenses_by_date.1;
  expenses_by_month_name ← report "e-byMonthName" "MonthName"
                             expenses_by_date.1;
  expenses_by_quarter ← report "f-byQuarter" "Quarter" expenses_by_date.1;
  expenses_by_season ← report "g-bySeason" "Season" expenses_by_date.1;
  expenses_by_year ← report "h-byYear" "Year" expenses_by_date.1;
  expenses_by_category ← report "i-byCategory" "Category" expenses_by_date.1;
  Ok [expenses_by_date; expenses_by_weekday; expenses_by_week;
      expenses_by_month; expenses_by_month_name; expenses_by_quarter;
      expenses_by_season; expenses_by_year; expenses_by_category].

End Reports.

(** ** The aggregation mapping of [main] (bank.py, lines 313-334)

    [all_categories] is the list of line 311.  The sort of line 318
    orders the insertions, not the content of the dict. *)
Definition main_aggregation_mappings (all_categories : list string)
  : gmap string string :=
  let columns_to_aggregate_by :=
    ((amount_column <$> all_categories) ++ ["Amount"])%list in
  let aggregation_mappings :=
    foldl (λ (m : gmap string string) column, <[column := "sum"]> m)
      ∅ columns_to_aggregate_by in
  foldl (λ (m : gmap string string) column, <[column := "first"]> m)
    aggregation_mappings
    ["Year"; "Quarter"; "Season"; "Month"; "MonthName"; "Week"; "WeekNumber";
     "Weekday"; "IsWeekend"; "DayOfMonth"].

(** The season of a month, as the specification lists them: December to
    February is winter, March to May spring, June to August summer,
    September to November autumn. *)
Definition season_of_month (m : Z) : string :=
  if (m =? 12) || (m =? 1) || (m =? 2) then "Winter"
  else if (3 <=? m) && (m <=? 5) then "Spring"
  else if (6 <=? m) && (m <=? 8) then "Summer"
  else "Autumn".

(** ** Sample inputs

    Small concrete inputs, on which the theorems are instantiated and
    the program is evaluated. *)

Module Samples.

Definition mk_row (cells : list (string * cell)) : row := list_to_map cells.

Definition on (y m d : Z) : cell := Date (Calendar.mkTimestamp y m d 0).

(** A frame with the single date 2024-12-31. *)
Definition new_years_eve : DataFrame :=
  {| columns := ["Date"];
     rows := [mk_row [("Date", on 2024 12 31)]] |}.

(** A date parser for the form [YYYY-MM-DD]. *)
Definition digit (c : ascii) : option Z :=
  if PyStr.isdigit c then Some (Z.of_N (N_of_ascii c) - 48) else None.

Fixpoint digits (s : string) (acc : Z) : option Z :=
  match s with
  | EmptyString => Some acc
  | String c s' => d ← digit c; digits s' (acc * 10 + d)
  end.

Definition parse_iso (s : string) : option Calendar.Timestamp :=
  if (String.length s =? 10)%nat && String.eqb (String.substring 4 1 s) "-"
     && String.eqb (String.substring 7 1 s) "-"
  then
    y ← digits (String.substring 0 4 s) 0;
    m ← digits (String.substring 5 2 s) 0;
    d ← digits (String.substring 8 2 s) 0;
    Some (Calendar.mkTimestamp y m d 0)
  else None.

Definition to_datetime (c : cell) : option Calendar.Timestamp :=
  match c with
  | Date t => Some t
  | Str s => parse_iso s
  | _ => None
  end.

(** The files. *)
Definition statement : DataFrame :=
  {| columns := ["Datum"; "Text"; "Belopp"; "Saldo"];
     rows :=
       [ mk_row [("Datum", Str "2024-05-05");
                 ("Text", Str "NETFLIX.COM M/24-05-05");
                 ("Belopp", Num (-109)); ("Saldo", Num 9891)];
         mk_row [("Datum", Str "2024-05-06"); ("Text", Str "  ICA Maxi ");
                 ("Belopp", Num (-250)); ("Saldo", Num 9641)];
         mk_row [("Datum", Str "2024-05-07"); ("Text", Str "Avanza Bank");
                 ("Belopp", Num 500); ("Saldo", Num 10141)];
         mk_row [("Datum", Str "2024-05-08"); ("Text", Str "Pending");
                 ("Saldo", Num 10141)];
         mk_row [("Datum", Str "2024-05-09"); ("Text", Str "Salary");
                 ("Belopp", Num 30000); ("Saldo", Num 40141)] ] |}.

Definition tagged : DataFrame :=
  {| columns := ["Datum"; "Text"; "Belopp"; "Kategori"];
     rows :=
       [ mk_row [("Datum", Str "2024-05-05"); ("Text", Str "Cinema");
                 ("Belopp", Num (-109)); ("Kategori", Str "Leisure")] ] |}.

Definition texts_only : DataFrame :=
  {| columns := ["Datum"; "Text"];
     rows :=
       [ mk_row [("Datum", Str "2024-05-05"); ("Text", Str "Cinema")] ] |}.

Definition card : DataFrame :=
  {| columns := ["Datum"; "Text"; "Belopp"];
     rows :=
       [ mk_row [("Datum", Str "2024-05-06"); ("Text", Str "Spotify");
                 ("Belopp", Num (-119))];
         mk_row [("Datum", Str "2024-05-10"); ("Text", Str "Bookshop");
                 ("Belopp", Num (-300))] ] |}.

Definition read_csv (path : string) (skiprows : Z) : result DataFrame :=
  if String.eqb path "statement.csv" then Ok statement
  else if String.eqb path "tagged.csv" then Ok tagged
  else if String.eqb path "texts.csv" then Ok texts_only
  else raise 127 FileNotFoundError.

Definition read_excel (path : string) (skiprows : Z) : result DataFrame :=
  if String.eqb path "card.xlsx" then Ok card
  else raise 129 FileNotFoundError.

(** The configuration. *)
Definition bank_columns : gmap string string :=
  list_to_map [("Datum", "Date"); ("Text", "Text"); ("Belopp", "Amount")].

Definition source_types : gmap string SourceType :=
  list_to_map
    [ ("bank", mkSourceType (Some bank_columns) None None None);
      ("bounded", mkSourceType (Some bank_columns) None
                    (Some (PNum (-1000))) None);
      ("tagged", mkSourceType
                   (Some (<["Kategori" := "Category"]> bank_columns))
                   None None None);
      ("texts", mkSourceType
                  (Some (list_to_map [("Datum", "Date"); ("Text", "Text")]))
                  None None None) ].

Definition source_of (path type : string) : Source :=
  list_to_map [("path", PStr path); ("type", PStr type)].

Definition rules : Categorizations :=
  [ ("Groceries", ["ica"; "coop"]);
    ("Subscriptions", ["netflix"; "spotify"]);
    ("Shopping", ["maxi"; "bookshop"]);
    ("Investments", ["avanza"]) ].

(** A rule map with an empty category name. *)
Definition rules_with_empty_key : Categorizations :=
  [ ("Groceries", ["ica"]); ("", ["misc"]) ].

(** The pipeline on the sample files. *)
Abbreviation run path type categorizations :=
  (load_and_transform_data_from_source read_csv read_excel to_datetime
     (source_of path type) source_types categorizations).

(** The cells of a column, row by row. *)
Definition column (c : string) (data : result DataFrame)
  : result (list (option cell)) :=
  data ← data; Ok ((λ r : row, r !! c) <$> rows data).

(** The merger on the two sample sources, under a sort kind. *)
Definition merged (kind : SortKind) : result DataFrame :=
  load_and_transform_data_from_sources (H := kind)
    read_csv read_excel to_datetime
    [source_of "statement.csv" "bank"; source_of "card.xlsx" "bank"]
    source_types rules.

(** A stand-in for [groupby(by).agg(...)] on a numeric key: one row per
    key, in ascending order of the key, with the sum of Amount. *)
Definition groupby_sum (data : DataFrame) (by_column : string)
    (mappings : gmap string string) : result DataFrame :=
  if negb (has_column by_column data) then raise 252 (KeyError by_column)
  else
    let key (r : row) := r !! by_column ≫= sort_key in
    let keys := rev (stable_sort_desc id (remove_dups (omap key (rows data)))) in
    Ok {| columns := [by_column; "Amount"];
          rows :=
            (λ k, mk_row
                    [(by_column, Num k);
                     ("Amount",
                      Num (foldr Z.add 0
                             ((λ r : row, num_of (r !! "Amount")) <$>
                              List.filter (λ r, bool_decide (key r = Some k))
                                (rows data))))])
            <$> keys |}.

(** The report by day of the month on the sample statement. *)
Definition report (kind : SortKind) : result (DataFrame * DataFrame) :=
  data ← run "statement.csv" "bank" rules;
  aggregate_report (H := kind) groupby_sum "a-byDay" "DayOfMonth"
    (list_to_map [("Amount", "sum")]) data.

(** The sum of the per-category amount columns, row by row. *)
Definition amount_sums (categorizations : Categorizations)
    (data : result DataFrame) : result (list Z) :=
  data ← data;
  Ok (category_amounts_sum (all_categories categorizations) <$> rows data).

(** A table with a Saturday and a row that has no date. *)
Definition with_gap : DataFrame :=
  {| columns := ["Date"; "Text"];
     rows := [ mk_row [("Date", on 2024 12 28); ("Text", Str "market")];
               mk_row [("Text", Str "pending")] ] |}.

(** Rules of which none matches a text of the statement. *)
Definition travel_rules : Categorizations := [ ("Travel", ["airline"]) ].

(** Two rules that both match the text [ica maxi]. *)
Definition overlapping_rules : Categorizations :=
  [ ("Groceries", ["ica"]); ("Shopping", ["maxi"]) ].

(** A stand-in for the rows of [groupby(by).agg(...)]: one row per
    value of the grouping column, in the order of first appearance,
    with the sum or the first value of each aggregated column. *)
Definition cell_eqb (a b : cell) : bool :=
  match a, b with
  | Str s, Str s' => String.eqb s s'
  | Num x, Num y => x =? y
  | Bool x, Bool y => Bool.eqb x y
  | Date t, Date t' =>
      (Calendar.toordinal t =? Calendar.toordinal t')
      && (Calendar.time t =? Calendar.time t')
  | _, _ => false
  end.

Definition distinct (l : list cell) : list cell :=
  foldr (λ c acc, c :: List.filter (λ c', negb (cell_eqb c c')) acc) [] l.

Definition group_rows (data : DataFrame) (by_column : string)
    (mappings : gmap string string) : result (list row) :=
  let group (k : cell) :=
    List.filter (λ r : row, from_option (cell_eqb k) false (r !! by_column))
      (rows data) in
  let aggregate (k : cell) (c how : string) : option cell :=
    if String.eqb how "sum"
    then Some (Num (foldr Z.add 0
                      ((λ r : row, num_of (r !! c)) <$> group k)))
    else head (group k) ≫= (λ r : row, r !! c) in
  Ok ((λ k, <[by_column := k]> (map_imap (aggregate k) mappings))
      <$> distinct (omap (λ r : row, r !! by_column) (rows data))).

(** The expenses of the sample statement, as [main] selects them. *)
Definition expenses : result DataFrame :=
  data ← run "statement.csv" "bank" rules;
  Ok {| columns := columns data;
        rows := List.filter (cell_is "Type" "Expense") (rows data) |}.

End Samples.

(** * Properties of the text normalisation *)

Section CleanTextFacts.
Import PyStr.

Example clean_text_netflix : clean_text "NETFLIX.COM M/24-05-05" = "netflix.com".
Proof. reflexivity. Qed.

Local Ltac by_cases_on_char c :=
  destruct c as [[] [] [] [] [] [] [] []]; reflexivity.

Lemma lower_char_idem c : lower_char (lower_char c) = lower_char c.
Proof. by_cases_on_char c. Qed.

Lemma isspace_lower_char c : isspace (lower_char c) = isspace c.
Proof. by_cases_on_char c. Qed.

Lemma lower_idem s : lower (lower s) = lower s.
Proof.
  induction s as [|c s IH]; simpl; [reflexivity|].
  now rewrite lower_char_idem, IH.
Qed.

Lemma lower_length s : String.length (lower s) = String.length s.
Proof. induction s as [|c s IH]; simpl; congruence. Qed.

Lemma lstrip_lower s : lstrip (lower s) = lower (lstrip s).
Proof.
  induction s as [|c s IH]; simpl; [reflexivity|].
  rewrite isspace_lower_char. now destruct (isspace c).
Qed.

Lemma rstrip_lower s : rstrip (lower s) = lower (rstrip s).
Proof.
  induction s as [|c s IH]; simpl; [reflexivity|].
  rewrite IH, isspace_lower_char.
  destruct (rstrip s); simpl; [now destruct (isspace c)|reflexivity].
Qed.

Lemma strip_lower s : strip (lower s) = lower (strip s).
Proof. unfold strip. now rewrite rstrip_lower, lstrip_lower. Qed.

Lemma lstrip_idem s : lstrip (lstrip s) = lstrip s.
Proof.
  induction s as [|c s IH]; simpl; [reflexivity|].
  destruct (isspace c) eqn:E; [exact IH|]. simpl. now rewrite E.
Qed.

Lemma rstrip_idem s : rstrip (rstrip s) = rstrip s.
Proof.
  induction s as [|c s IH]; simpl; [reflexivity|].
  destruct (rstrip s) as [|d r] eqn:E.
  - destruct (isspace c) eqn:Ec; simpl; [reflexivity|now rewrite Ec].
  - change (rstrip (String c (String d r))) with
      (match rstrip (String d r) with
       | EmptyString => if isspace c then EmptyString else String c EmptyString
       | String a b => String c (String a b)
       end).
    now rewrite IH.
Qed.

Lemma rstrip_lstrip s : rstrip (lstrip s) = lstrip (rstrip s).
Proof.
  induction s as [|c s IH]; [reflexivity|].
  cbn [lstrip]. destruct (isspace c) eqn:Ec.
  - rewrite IH. cbn [rstrip]. destruct (rstrip s) as [|d r].
    + now rewrite Ec.
    + cbn [lstrip]. now rewrite Ec.
  - cbn [rstrip]. destruct (rstrip s) as [|d r].
    + rewrite Ec. cbn [lstrip]. now rewrite Ec.
    + cbn [lstrip]. now rewrite Ec.
Qed.

Lemma strip_idem s : strip (strip s) = strip s.
Proof.
  unfold strip. now rewrite rstrip_lstrip, rstrip_idem, lstrip_idem.
Qed.

Lemma lstrip_length s : (String.length (lstrip s) <= String.length s)%nat.
Proof.
  induction s as [|c s IH]; simpl; [lia|]. destruct (isspace c); simpl; lia.
Qed.

Lemma rstrip_length s : (String.length (rstrip s) <= String.length s)%nat.
Proof.
  induction s as [|c s IH]; simpl; [lia|].
  destruct (rstrip s); [destruct (isspace c)|]; simpl in *; lia.
Qed.

Lemma strip_length s : (String.length (strip s) <= String.length s)%nat.
Proof.
  unfold strip. pose proof (lstrip_length (rstrip s)).
  pose proof (rstrip_length s). lia.
Qed.

Lemma re_sub_from_length k s :
  (String.length (re_sub_from k s) <= String.length s)%nat.
Proof.
  revert k. induction s as [|c s IH]; intros k; [simpl; lia|].
  cbn [re_sub_from]. destruct k as [|k].
  - destruct (match_len (String c s)) as [n|].
    + specialize (IH (Nat.pred n)). simpl. lia.
    + specialize (IH 0%nat). simpl. lia.
  - specialize (IH k). simpl. lia.
Qed.

(** A string without a match is left as it is by the substitution. *)
Lemma re_sub_no_match s : has_match s = false → re_sub s = s.
Proof.
  unfold re_sub. induction s as [|c s IH]; [reflexivity|].
  cbn [has_match re_sub_from]. intros H.
  apply orb_false_iff in H as [Hm Hs].
  destruct (match_len (String c s)) as [n|].
  - exfalso. apply bool_decide_eq_false in Hm. apply Hm. eauto.
  - now rewrite IH.
Qed.

(** A string with a match gets shorter. *)
Lemma re_sub_match_shorter s :
  has_match s = true → (String.length (re_sub s) < String.length s)%nat.
Proof.
  unfold re_sub. induction s as [|c s IH]; [discriminate|].
  cbn [has_match re_sub_from]. intros H.
  destruct (match_len (String c s)) as [n|].
  - pose proof (re_sub_from_length (Nat.pred n) s). simpl. lia.
  - apply orb_true_iff in H as [H|H].
    + apply bool_decide_eq_true in H. destruct H as [? H]. discriminate.
    + specialize (IH H). simpl. lia.
Qed.

(** The cleaned text is stripped and in lower case. *)
Lemma clean_text_stripped x : strip (clean_text x) = clean_text x.
Proof. unfold clean_text. now rewrite strip_lower, strip_idem. Qed.

Lemma clean_text_lower x : lower (clean_text x) = clean_text x.
Proof. unfold clean_text. now rewrite lower_idem. Qed.

End CleanTextFacts.

(** ** C4: the text normalisation and idempotence *)

(** C4, as amended.  For every string [x] whose cleaned form contains
    no match of the pattern, cleaning is idempotent on [x]:
    [clean(clean(x)) = clean(x)]. *)
Theorem clean_text_idempotent_without_match (x : string) :
  PyStr.has_match (clean_text x) = false →
  clean_text (clean_text x) = clean_text x.
Proof.
  intros Hno. unfold clean_text at 1.
  rewrite clean_text_stripped, (re_sub_no_match _ Hno).
  now rewrite clean_text_stripped, clean_text_lower.
Qed.

Lemma clean_text_idempotent_without_match_witness :
  PyStr.has_match (clean_text "NETFLIX.COM M/24-05-05") = false ∧
  clean_text (clean_text "NETFLIX.COM M/24-05-05")
  = clean_text "NETFLIX.COM M/24-05-05".
Proof.
  split; [reflexivity|].
  apply (clean_text_idempotent_without_match "NETFLIX.COM M/24-05-05").
  reflexivity.
Defined.

(** The condition is exact: when the cleaned form still contains a
    match, a second cleaning shortens it. *)
Lemma clean_text_not_idempotent_with_match (x : string) :
  PyStr.has_match (clean_text x) = true →
  clean_text (clean_text x) ≠ clean_text x.
Proof.
  intros Hm Heq.
  assert (Hlen : (String.length (clean_text (clean_text x))
                  < String.length (clean_text x))%nat).
  { unfold clean_text at 1. rewrite lower_length, clean_text_stripped.
    pose proof (strip_length (PyStr.re_sub (clean_text x))).
    pose proof (re_sub_match_shorter _ Hm). lia. }
  rewrite Heq in Hlen. lia.
Qed.

(** C4, counterexample.  Removing the match in the middle of
    ["/12-3/12-34-564-56"] joins its two ends into a new match, which a
    second cleaning removes. *)
Lemma clean_text_not_idempotent :
  clean_text "/12-3/12-34-564-56" = "/12-34-56" ∧
  clean_text (clean_text "/12-3/12-34-564-56") = "" ∧
  ¬ (∀ x, clean_text (clean_text x) = clean_text x).
Proof.
  split; [reflexivity|]. split; [reflexivity|].
  intros H. specialize (H "/12-3/12-34-564-56"). discriminate H.
Qed.

(** * Calendar facts *)

Section CalendarFacts.
Import Calendar.

Lemma year_length y :
  days_before_year (y + 1) - days_before_year y = 365 ∨
  days_before_year (y + 1) - days_before_year y = 366.
Proof.
  unfold days_before_year. replace (y + 1 - 1) with y by lia.
  Z.div_mod_to_equations. lia.
Qed.

Lemma year_length_leap y :
  days_before_year (y + 1) - days_before_year y
  = if is_leap y then 366 else 365.
Proof.
  unfold days_before_year, is_leap. replace (y + 1 - 1) with y by lia.
  destruct (y mod 4 =? 0) eqn:E4; destruct (y mod 100 =? 0) eqn:E100;
    destruct (y mod 400 =? 0) eqn:E400; simpl; Z.div_mod_to_equations; lia.
Qed.

Lemma days_before_year_mono y y' :
  y < y' → days_before_year y < days_before_year y'.
Proof.
  intros Hlt. unfold days_before_year. Z.div_mod_to_equations. lia.
Qed.

(** A valid day lies within its calendar year. *)
Lemma toordinal_in_year t : valid t → year_holds (year t) (toordinal t).
Proof.
  intros (Hy & Hm & Hd & _). unfold year_holds, toordinal, ymd2ord.
  pose proof (year_length_leap (year t)) as HL.
  assert (Hc : month t = 1 ∨ month t = 2 ∨ month t = 3 ∨ month t = 4 ∨
               month t = 5 ∨ month t = 6 ∨ month t = 7 ∨ month t = 8 ∨
               month t = 9 ∨ month t = 10 ∨ month t = 11 ∨ month t = 12)
    by lia.
  unfold days_before_month, days_in_month in *.
  destruct (is_leap (year t));
    repeat (destruct Hc as [Hc|Hc]; [rewrite Hc in *; simpl in *; lia|]);
    rewrite Hc in *; simpl in *; lia.
Qed.

(** The Monday of ISO week 1 is the Monday among December 29th to
    January 4th. *)
Lemma isoweek1monday_spec y :
  (isoweek1monday y + 6) mod 7 = 0 ∧
  days_before_year y - 2 <= isoweek1monday y <= days_before_year y + 4.
Proof.
  unfold isoweek1monday, ymd2ord. change (days_before_month _ 1) with 0.
  generalize (days_before_year y). intros d.
  destruct (3 <? (d + 0 + 1 + 6) mod 7) eqn:E; Z.div_mod_to_equations; lia.
Qed.

(** [isocalendar] computes the ISO 8601 week: the year of the Thursday
    of the week, and the number of that Thursday's week in its year. *)
Lemma isocalendar_iso8601 t :
  valid t → iso8601_week_of t (iso_year t) (iso_week t).
Proof.
  intros Hv. pose proof (toordinal_in_year t Hv) as Hin.
  pose proof (year_length (year t)) as H0.
  pose proof (year_length (year t - 1)) as Hm1.
  pose proof (year_length (year t + 1)) as Hp1.
  pose proof (isoweek1monday_spec (year t)) as M0.
  pose proof (isoweek1monday_spec (year t - 1)) as Mm.
  pose proof (isoweek1monday_spec (year t + 1)) as Mp.
  unfold iso8601_week_of, iso_year, iso_week, isocalendar, thursday_of_week,
    dayofweek, year_holds in *.
  replace (year t - 1 + 1) with (year t) in * by lia.
  generalize dependent (isoweek1monday (year t + 1)); intros m1.
  generalize dependent (isoweek1monday (year t)); intros m0.
  generalize dependent (isoweek1monday (year t - 1)); intros mm.
  intros.
  destruct (_ <? 0) eqn:E1; [|destruct (_ && _) eqn:E2]; cbn [fst snd];
    replace (year t - 1 + 1) with (year t) in * by lia;
    generalize dependent (toordinal t); intros n;
    generalize dependent (days_before_year (year t + 1 + 1)); intros d2;
    generalize dependent (days_before_year (year t + 1)); intros d1;
    generalize dependent (days_before_year (year t)); intros d0;
    generalize dependent (days_before_year (year t - 1)); intros dm;
    intros.
  - split; Z.div_mod_to_equations; lia.
  - apply andb_true_iff in E2 as [E2 E3]. split; Z.div_mod_to_equations; lia.
  - apply andb_false_iff in E2. split; Z.div_mod_to_equations; lia.
Qed.

(** A day has one ISO 8601 week. *)
Lemma iso8601_week_unique t y w y' w' :
  iso8601_week_of t y w → iso8601_week_of t y' w' → y = y' ∧ w = w'.
Proof.
  unfold iso8601_week_of, year_holds. intros [[H1 H2] ->] [[H3 H4] ->].
  assert (y = y') as ->; [|done].
  destruct (Z.lt_trichotomy y y') as [Hlt|[->|Hlt]]; [|done|].
  - assert (days_before_year (y + 1) <= days_before_year y').
    { destruct (decide (y + 1 = y')) as [->|]; [lia|].
      pose proof (days_before_year_mono (y + 1) y'). lia. }
    lia.
  - assert (days_before_year (y' + 1) <= days_before_year y).
    { destruct (decide (y' + 1 = y)) as [->|]; [lia|].
      pose proof (days_before_year_mono (y' + 1) y). lia. }
    lia.
Qed.

End CalendarFacts.

(** * Facts about fallible computations and data frames *)

Section FrameFacts.

Lemma bind_ok {A B} (m : result A) (f : A → result B) (b : B) :
  m ≫= f = Ok b → ∃ a, m = Ok a ∧ f a = Ok b.
Proof. destruct m as [a|e]; [eauto|discriminate]. Qed.

(** A computation that does not fail returns the value read off it. *)
Lemma ok_default {A} (m : result A) (d : A) :
  is_ok m = true → m = Ok (match m with Ok a => a | Err _ => d end).
Proof. destruct m; [reflexivity|discriminate]. Qed.

Lemma lookup_default_elem {A} (l : list A) (i : nat) (d : A) :
  (i <? length l)%nat = true → default d (l !! i) ∈ l.
Proof.
  intros H. apply Nat.ltb_lt in H.
  destruct (lookup_lt_is_Some_2 l i H) as [x Hx]. rewrite Hx. cbn.
  apply list_elem_of_lookup. eauto.
Qed.

Lemma traverse_ok {A B} (f : A → result B) (l : list A) (l' : list B) :
  traverse f l = Ok l' → Forall2 (λ x y, f x = Ok y) l l'.
Proof.
  revert l'. induction l as [|x l IH]; intros l' H; simpl in H.
  - injection H as <-. constructor.
  - apply bind_ok in H as (y & Hy & H). apply bind_ok in H as (ys & Hys & H).
    injection H as <-. constructor; auto.
Qed.

Lemma traverse_pure {A B} (f : A → result B) (g : A → B) (l : list A) :
  Forall (λ x, f x = Ok (g x)) l → traverse f l = Ok (g <$> l).
Proof.
  induction 1 as [|x l Hx _ IH]; simpl; [reflexivity|].
  rewrite Hx. simpl. rewrite IH. reflexivity.
Qed.

Lemma lookup_set_cell_eq c v (r : row) : set_cell c v r !! c = v.
Proof. destruct v; simpl; [apply lookup_insert_eq|apply lookup_delete_eq]. Qed.

Lemma lookup_set_cell_ne c k v (r : row) :
  c ≠ k → set_cell c v r !! k = r !! k.
Proof.
  intros. destruct v; simpl;
    [by apply lookup_insert_ne|by apply lookup_delete_ne].
Qed.

Lemma date_of_set_cell c v (r : row) :
  c ≠ "Date" → date_of (set_cell c v r) = date_of r.
Proof. intros. unfold date_of. by rewrite lookup_set_cell_ne. Qed.

Lemma rows_assign c f data :
  rows (assign c f data) = (λ r, set_cell c (f r) r) <$> rows data.
Proof. reflexivity. Qed.

Lemma columns_assign c f data :
  columns (assign c f data) = add_column c (columns data).
Proof. reflexivity. Qed.

Lemma elem_of_add_column k c cols :
  k ∈ add_column c cols ↔ k = c ∨ k ∈ cols.
Proof.
  unfold add_column. case_bool_decide as E.
  - split; [auto|]. intros [->|]; auto.
  - rewrite elem_of_app, list_elem_of_singleton. tauto.
Qed.

Lemma has_column_true c data : has_column c data = true ↔ c ∈ columns data.
Proof. unfold has_column. apply bool_decide_eq_true. Qed.

Lemma has_column_false c data : has_column c data = false ↔ c ∉ columns data.
Proof. unfold has_column. apply bool_decide_eq_false. Qed.

Lemma assignM_ok c f data out :
  assignM c f data = Ok out →
  columns out = add_column c (columns data) ∧
  Forall2 (λ r r', ∃ v, f r = Ok v ∧ r' = set_cell c v r) (rows data) (rows out).
Proof.
  unfold assignM. intros H. apply bind_ok in H as (rs & Hrs & H).
  injection H as <-. split; [reflexivity|]. simpl.
  apply traverse_ok in Hrs. eapply Forall2_impl; [exact Hrs|].
  intros r r' Hr. simpl in Hr. apply bind_ok in Hr as (v & Hv & Hr).
  injection Hr as <-. eauto.
Qed.

Lemma dropna_ok l c data out :
  dropna l c data = Ok out →
  c ∈ columns data ∧ columns out = columns data ∧
  rows out = filter (λ r : row, is_Some (r !! c)) (rows data).
Proof.
  unfold dropna. destruct (has_column c data) eqn:E; [|discriminate].
  intros H. injection H as <-. apply has_column_true in E. auto.
Qed.

End FrameFacts.

(** * C9: the Source Normalizer *)

(** C9.  The Source Normalizer fails exactly when the descriptor lacks
    [path] or lacks [type], and then with a [ValueError]; otherwise it
    returns the descriptor with [modifier] set to 1.0 and [account] set
    to ["Default"] where they were absent, every field that was present
    keeping its value and no other field being added. *)
Theorem enrich_source_spec (original_source : Source) :
  (is_ok (load_and_transform_data_from_source_enrich_source original_source)
   = false
   ↔ original_source !! "path" = None ∨ original_source !! "type" = None) ∧
  (∀ e, load_and_transform_data_from_source_enrich_source original_source
        = Err e → ∃ msg, exc e = ValueError msg) ∧
  (∀ source notices,
     load_and_transform_data_from_source_enrich_source original_source
     = Ok (source, notices) →
     source !! "modifier"
     = Some (default (PNum 1) (original_source !! "modifier")) ∧
     source !! "account"
     = Some (default (PStr "Default") (original_source !! "account")) ∧
     (∀ k v, original_source !! k = Some v → source !! k = Some v) ∧
     (∀ k, k ≠ "modifier" → k ≠ "account" →
           source !! k = original_source !! k)).
Proof.
  unfold load_and_transform_data_from_source_enrich_source, has_key.
  destruct (original_source !! "path") as [p|] eqn:Hp;
    [|split; [|split]; cbn; [naive_solver|intros e [= <-]; eauto|discriminate]].
  destruct (original_source !! "type") as [ty|] eqn:Hty;
    [|split; [|split]; cbn; [naive_solver|intros e [= <-]; eauto|discriminate]].
  rewrite !bool_decide_eq_true_2 by eauto. cbn [negb].
  destruct (original_source !! "modifier") as [m|] eqn:Hm;
    destruct (original_source !! "account") as [a|] eqn:Ha; cbn.
  all: rewrite ?lookup_insert_ne, ?Ha, ?Hm by done; cbn.
  all: (split; [|split]; [naive_solver|discriminate|]).
  all: intros source notices [= <- <-].
  all: repeat split; intros;
    rewrite ?lookup_insert_eq, ?lookup_insert_ne, ?lookup_insert_eq by done;
    try done.
  all: repeat match goal with
       | |- context [<[?i := _]> _ !! ?k] =>
           destruct (decide (i = k)) as [<-|];
           [congruence|rewrite lookup_insert_ne by done]
       end; done.
Qed.

(** * C8: the ISO week columns of the Calendar Enricher *)

(** The Calendar Enricher keeps the rows in place; a row with a date
    gets [Week] and [WeekNumber] from [strftime("%G-W%V")] and
    [isocalendar().week]. *)
Lemma enricher_week_columns (data out : DataFrame) (i : nat) (r : row)
    (t : Calendar.Timestamp) :
  load_and_transform_data_from_source_add_additional_columns_from_date data
  = Ok out →
  "Date" ∈ columns data →
  rows data !! i = Some r →
  r !! "Date" = Some (Date t) →
  ∃ r', rows out !! i = Some r' ∧
    r' !! "Week" = Some (Str (Calendar.strftime_G_W_V t)) ∧
    r' !! "WeekNumber" = Some (Num (Calendar.iso_week t)).
Proof.
  unfold load_and_transform_data_from_source_add_additional_columns_from_date.
  intros Hrun Hcol Hi Hd. apply has_column_true in Hcol.
  rewrite Hcol in Hrun. cbn [negb] in Hrun.
  case_bool_decide; [discriminate|].
  injection Hrun as <-.
  rewrite !rows_assign, !list_lookup_fmap, Hi.
  cbn [fmap option_fmap option_map].
  eexists; split; [reflexivity|].
  assert (Hdate : date_of r = Some t) by (unfold date_of; now rewrite Hd).
  split.
  - rewrite !lookup_set_cell_ne by done. rewrite lookup_set_cell_eq.
    rewrite !date_of_set_cell by done. now rewrite Hdate.
  - rewrite !lookup_set_cell_ne by done. rewrite lookup_set_cell_eq.
    rewrite !date_of_set_cell by done. now rewrite Hdate.
Qed.

(** C8.  For every row whose Date is a valid day, the Calendar Enricher
    sets [Week] to the ISO 8601 year-week identifier of that day, the
    year being the ISO week-based year, and [WeekNumber] to its ISO
    week number. *)
Theorem week_columns_iso8601 (data out : DataFrame) (i : nat) (r : row)
    (t : Calendar.Timestamp) :
  load_and_transform_data_from_source_add_additional_columns_from_date data
  = Ok out →
  "Date" ∈ columns data →
  rows data !! i = Some r →
  r !! "Date" = Some (Date t) →
  Calendar.valid t →
  ∃ r' y w,
    rows out !! i = Some r' ∧
    Calendar.iso8601_week_of t y w ∧
    r' !! "Week" = Some (Str (pretty y ++ "-W" ++ Calendar.two_digits w)) ∧
    r' !! "WeekNumber" = Some (Num w).
Proof.
  intros Hrun Hcol Hi Hd Hv.
  destruct (enricher_week_columns _ _ _ _ _ Hrun Hcol Hi Hd)
    as (r' & Hr' & Hweek & Hnum).
  exists r', (Calendar.iso_year t), (Calendar.iso_week t).
  split; [exact Hr'|]. split; [now apply isocalendar_iso8601|].
  split; [exact Hweek|exact Hnum].
Qed.

(** The instance of C8 at 2024-12-31, a Tuesday: the week is week 1 of
    the ISO year 2025. *)
Lemma week_columns_iso8601_witness :
  let t := Calendar.mkTimestamp 2024 12 31 0 in
  let out :=
    match load_and_transform_data_from_source_add_additional_columns_from_date
            Samples.new_years_eve with
    | Ok out => out
    | Err _ => Samples.new_years_eve
    end in
  load_and_transform_data_from_source_add_additional_columns_from_date
    Samples.new_years_eve = Ok out ∧
  "Date" ∈ columns Samples.new_years_eve ∧
  rows Samples.new_years_eve !! 0%nat = Some (Samples.mk_row [("Date", Date t)]) ∧
  Samples.mk_row [("Date", Date t)] !! "Date" = Some (Date t) ∧
  Calendar.valid t ∧
  Calendar.dayofweek t = 1 ∧
  (∃ r', rows out !! 0%nat = Some r' ∧
         r' !! "Week" = Some (Str "2025-W01") ∧
         r' !! "WeekNumber" = Some (Num 1)) ∧
  ∃ r' y w,
    rows out !! 0%nat = Some r' ∧
    Calendar.iso8601_week_of t y w ∧
    r' !! "Week" = Some (Str (pretty y ++ "-W" ++ Calendar.two_digits w)) ∧
    r' !! "WeekNumber" = Some (Num w).
Proof.
  intros t out.
  assert (Hrun : load_and_transform_data_from_source_add_additional_columns_from_date
                   Samples.new_years_eve = Ok out)
    by (apply ok_default; vm_compute; reflexivity).
  assert (Hcol : "Date" ∈ columns Samples.new_years_eve)
    by (apply has_column_true; vm_compute; reflexivity).
  assert (Hv : Calendar.valid t) by (vm_compute; intuition discriminate).
  split; [exact Hrun|]. split; [exact Hcol|].
  split; [vm_compute; reflexivity|]. split; [vm_compute; reflexivity|].
  split; [exact Hv|]. split; [vm_compute; reflexivity|].
  split.
  { exists (default ∅ (rows out !! 0%nat)).
    repeat split; vm_compute; reflexivity. }
  exact (week_columns_iso8601 Samples.new_years_eve out 0
           (Samples.mk_row [("Date", Date t)]) t
           Hrun Hcol ltac:(vm_compute; reflexivity)
           ltac:(vm_compute; reflexivity) Hv).
Defined.

(** * The Categorizer, row by row *)

Section CategorizerFacts.

Lemma at_set_at_set i c v v' data :
  at_set i c v (at_set i c v' data) = at_set i c v data.
Proof.
  unfold at_set. cbn [columns rows]. f_equal.
  - unfold add_column at 1. now rewrite bool_decide_eq_true_2
      by (apply elem_of_add_column; auto).
  - rewrite list_alter_alter_eq. apply list_alter_ext; [|reflexivity].
    intros r _. cbn. apply insert_insert_eq.
Qed.

(** The loop over the keywords writes the category when one of the
    keywords occurs in the text, and nothing otherwise. *)
Lemma scan_keywords_ok index (r : row) category keywords data data' :
  scan_keywords index r category keywords data = Ok data' →
  data' = if keyword_hit (r !! "Text") keywords
          then at_set index "Category" (Str category) data else data.
Proof.
  unfold keyword_hit.
  induction keywords as [|keyword keywords IH]; cbn [scan_keywords].
  - intros [= <-]. now destruct (r !! "Text") as [[]|].
  - intros H. apply bind_ok in H as (found & Hf & H).
    destruct (r !! "Text") as [[t| | |]|] eqn:Ht; try discriminate Hf.
    injection Hf as <-. cbn [existsb].
    destruct (PyStr.contains keyword t); cbn [orb].
    + now injection H as <-.
    + auto.
Qed.

Lemma scan_categories_ok index (r : row) row_columns categorizations data data' :
  scan_categories index r row_columns categorizations data = Ok data' →
  data' = match written_category (bool_decide ("Category" ∈ row_columns))
                  (r !! "Text") categorizations with
          | Some category => at_set index "Category" (Str category) data
          | None => data
          end.
Proof.
  revert data.
  induction categorizations as [|[category keywords] rest IH]; intros data;
    cbn [scan_categories written_category].
  - now intros [= <-].
  - intros H. apply bind_ok in H as (data1 & H1 & H).
    apply scan_keywords_ok in H1.
    destruct (bool_decide ("Category" ∈ row_columns)).
    + injection H as <-. rewrite H1. now destruct (keyword_hit _ _).
    + apply IH in H. rewrite H, H1.
      destruct (written_category false (r !! "Text") rest);
        destruct (keyword_hit _ _); try reflexivity.
      apply at_set_at_set.
Qed.

Lemma iterrows_loop_ok snapshot :
  ∀ index row_columns categorizations data data' (pre : list row),
  iterrows_loop index snapshot row_columns categorizations data = Ok data' →
  rows data = (pre ++ snapshot)%list → length pre = index →
  rows data'
  = (pre ++ (categorized_row (bool_decide ("Category" ∈ row_columns))
               categorizations <$> snapshot))%list ∧
  (∀ k, k ∈ columns data' → k = "Category" ∨ k ∈ columns data) ∧
  (∀ k, k ∈ columns data → k ∈ columns data') ∧
  (Exists (λ r : row, is_Some (written_category
                         (bool_decide ("Category" ∈ row_columns))
                         (r !! "Text") categorizations)) snapshot →
   "Category" ∈ columns data').
Proof.
  induction snapshot as [|r snapshot IH];
    intros index row_columns categorizations data data' pre;
    cbn [iterrows_loop].
  - intros [= <-] Hrows _. rewrite Hrows. cbn.
    split; [reflexivity|]. split; [auto|]. split; [auto|].
    intros H. inversion H.
  - intros H Hrows Hlen. apply bind_ok in H as (data1 & H1 & H).
    apply scan_categories_ok in H1.
    assert (Hrows1 : rows data1
                     = ((pre ++ [categorized_row
                                   (bool_decide ("Category" ∈ row_columns))
                                   categorizations r]) ++ snapshot)%list).
    { rewrite H1. unfold categorized_row.
      destruct (written_category _ _ _) as [c|].
      - cbn [at_set rows]. rewrite Hrows, <- Hlen.
        rewrite alter_app_r_alt by lia.
        rewrite Nat.sub_diag. cbn. now rewrite <- app_assoc.
      - rewrite Hrows. now rewrite <- app_assoc. }
    destruct (IH _ _ _ _ _ _ H Hrows1) as (Hr & Hc1 & Hc2 & Hex).
    { rewrite length_app. cbn. lia. }
    assert (Hcols : ∀ k, k ∈ columns data1 ↔
                         (k = "Category" ∧
                          is_Some (written_category
                                     (bool_decide ("Category" ∈ row_columns))
                                     (r !! "Text") categorizations))
                         ∨ k ∈ columns data).
    { intros k. rewrite H1. destruct (written_category _ _ _) as [c|].
      - cbn [at_set columns]. rewrite elem_of_add_column.
        split; [intros [->|]; eauto|intros [[-> _]|]; auto].
      - split; [auto|]. intros [[_ []]|]; [discriminate|auto]. }
    split; [rewrite Hr, <- app_assoc; reflexivity|].
    split; [|split].
    + intros k Hk. apply Hc1 in Hk as [->|Hk]; [auto|].
      apply Hcols in Hk as [[-> _]|]; auto.
    + intros k Hk. apply Hc2, Hcols. auto.
    + intros Hex'. apply Exists_cons in Hex' as [Hw|Hex'].
      * apply Hc2, Hcols. auto.
      * auto.
Qed.

End CategorizerFacts.

(** * The stage of lines 168-207, row by row *)

Section CategorizeFacts.

Lemma rows_add_category_amounts categories data :
  rows (add_category_amounts categories data)
  = expanded_row categories <$> rows data.
Proof.
  unfold add_category_amounts, expanded_row. revert data.
  induction categories as [|c cs IH]; intros data; cbn [foldl].
  - now rewrite list_fmap_id.
  - rewrite IH, rows_assign, <- list_fmap_compose. reflexivity.
Qed.

Lemma columns_add_category_amounts categories data k :
  k ∈ columns (add_category_amounts categories data) ↔
  k ∈ columns data ∨ ∃ c, c ∈ categories ∧ k = amount_column c.
Proof.
  unfold add_category_amounts. revert data.
  induction categories as [|c cs IH]; intros data; cbn [foldl].
  - split; [auto|]. intros [|(c & Hc & _)]; [auto|inversion Hc].
  - rewrite IH, columns_assign, elem_of_add_column. split.
    + intros [[->|]|(c' & Hc' & ->)]; [right; exists c|auto|right; exists c'];
        (split; [apply elem_of_cons; auto|reflexivity]).
    + intros [|(c' & Hc' & ->)]; [auto|].
      apply elem_of_cons in Hc' as [->|]; eauto.
Qed.

Lemma rows_reclassify data :
  rows (reclassify data) = reclassified_row <$> rows data.
Proof.
  unfold reclassify, loc_set. cbn [rows].
  now rewrite <- list_fmap_compose.
Qed.

Lemma fillna_ok l c v data out :
  fillna l c v data = Ok out →
  c ∈ columns data ∧ columns out = columns data ∧
  rows out = (λ r : row, <[c := default v (r !! c)]> r) <$> rows data.
Proof.
  unfold fillna. destruct (has_column c data) eqn:E; [|discriminate].
  intros [= <-]. apply has_column_true in E.
  split; [exact E|]. split; [|reflexivity].
  cbn. unfold add_column. now rewrite bool_decide_eq_true_2.
Qed.

Lemma apply_categories_ok categorizations data out :
  apply_categories categorizations data = Ok out →
  rows out
  = (λ r, if has_column "Text" data
          then categorized_row (bool_decide ("Category" ∈ columns data))
                 categorizations r
          else r) <$> rows data ∧
  (∀ k, k ∈ columns out → k = "Category" ∨ k ∈ columns data) ∧
  (∀ k, k ∈ columns data → k ∈ columns out).
Proof.
  unfold apply_categories. destruct (has_column "Text" data).
  - intros H.
    destruct (iterrows_loop_ok _ _ _ _ _ _ [] H eq_refl eq_refl)
      as (Hr & Hc1 & Hc2 & _).
    auto.
  - intros [= <-]. rewrite list_fmap_id. auto.
Qed.

(** The stage keeps the rows in place and turns each into
    [categorize_row] of it. *)
Lemma categorize_rows categorizations data out :
  categorize categorizations data = Ok out →
  rows out
  = categorize_row (has_column "Text" data)
      (bool_decide ("Category" ∈ columns data)) categorizations
    <$> rows data.
Proof.
  unfold categorize. intros H.
  apply bind_ok in H as (data1 & H1 & H).
  apply bind_ok in H as (data2 & H2 & H). injection H as <-.
  apply apply_categories_ok in H1 as (Hr1 & _).
  apply fillna_ok in H2 as (_ & _ & Hr2).
  rewrite rows_add_category_amounts, rows_reclassify, Hr2, Hr1.
  rewrite <- !list_fmap_compose. apply list_fmap_ext.
  intros i r _. unfold categorize_row. cbn.
  now destruct (has_column "Text" data).
Qed.

End CategorizeFacts.

(** * The per-category amount columns *)

Section ExpanderFacts.

Lemma amount_column_inj c c' : amount_column c = amount_column c' → c = c'.
Proof.
  unfold amount_column. intros H. cbv [String.append] in H. congruence.
Qed.

Lemma amount_column_is_amount c : amount_column c = "Amount" → c = "".
Proof.
  unfold amount_column. intros H. cbv [String.append] in H. congruence.
Qed.

Lemma amount_column_not_category c : amount_column c ≠ "Category".
Proof. unfold amount_column. cbv [String.append]. discriminate. Qed.

Lemma amount_column_not_type c : amount_column c ≠ "Type".
Proof. unfold amount_column. cbv [String.append]. discriminate. Qed.

Lemma cell_is_ext c s (r r' : row) :
  r !! c = r' !! c → cell_is c s r = cell_is c s r'.
Proof. unfold cell_is. now intros ->. Qed.

Lemma cell_is_true c s (r : row) :
  cell_is c s r = true ↔ r !! c = Some (Str s).
Proof.
  unfold cell_is. destruct (r !! c) as [[s'| | |]|]; try (split; discriminate).
  rewrite String.eqb_eq. split; congruence.
Qed.

(** A column that is not the amount column of a listed category is
    left alone. *)
Lemma expanded_row_lookup_other categories (r : row) k :
  (∀ c, c ∈ categories → k ≠ amount_column c) →
  expanded_row categories r !! k = r !! k.
Proof.
  unfold expanded_row. revert r.
  induction categories as [|c cs IH]; intros r Hk; cbn [foldl]; [reflexivity|].
  rewrite IH by (intros c' Hc'; apply Hk, elem_of_cons; auto).
  apply lookup_set_cell_ne. intros Heq. eapply Hk; [|symmetry; exact Heq].
  apply elem_of_cons; auto.
Qed.

Lemma expanded_row_amount categories (r : row) :
  "" ∉ categories → expanded_row categories r !! "Amount" = r !! "Amount".
Proof.
  intros Hne. apply expanded_row_lookup_other.
  intros c Hc Heq. symmetry in Heq. apply amount_column_is_amount in Heq.
  now subst.
Qed.

Lemma expanded_row_category categories (r : row) :
  expanded_row categories r !! "Category" = r !! "Category".
Proof.
  apply expanded_row_lookup_other. intros c _ Heq.
  now apply (amount_column_not_category c).
Qed.

Lemma expanded_row_type categories (r : row) :
  expanded_row categories r !! "Type" = r !! "Type".
Proof.
  apply expanded_row_lookup_other. intros c _ Heq.
  now apply (amount_column_not_type c).
Qed.

(** The amount column of a listed category holds the amount of the row
    when the row is of that category, and 0 otherwise. *)
Lemma expanded_row_amount_column categories (r : row) C :
  "" ∉ categories → C ∈ categories →
  expanded_row categories r !! amount_column C
  = if cell_is "Category" C r then r !! "Amount" else Some (Num 0).
Proof.
  revert r. induction categories as [|c cs IH]; intros r Hne HC.
  - inversion HC.
  - apply not_elem_of_cons in Hne as [Hc Hcs].
    change (expanded_row (c :: cs) r) with
      (expanded_row cs
         (set_cell (amount_column c)
            (if cell_is "Category" c r then r !! "Amount" else Some (Num 0))
            r)).
    set (r1 := set_cell _ _ r).
    assert (Hcat : r1 !! "Category" = r !! "Category").
    { apply lookup_set_cell_ne, amount_column_not_category. }
    assert (Hamt : r1 !! "Amount" = r !! "Amount").
    { apply lookup_set_cell_ne. intros Heq.
      apply amount_column_is_amount in Heq. now subst. }
    destruct (decide (C ∈ cs)) as [Hin|Hnin].
    + rewrite (IH r1 Hcs Hin), Hamt. now rewrite (cell_is_ext _ _ r1 r Hcat).
    + apply elem_of_cons in HC as [->|]; [|contradiction].
      rewrite expanded_row_lookup_other.
      * apply lookup_set_cell_eq.
      * intros c' Hc' Heq. apply amount_column_inj in Heq. now subst.
Qed.

(** In a sum over pairwise different categories, the one category of
    the row contributes the amount and the others contribute nothing. *)
Lemma sum_one_category (f : string → Z) (cat : string) (a : Z) (l : list string) :
  NoDup l → cat ∈ l → f cat = a → (∀ c, c ∈ l → c ≠ cat → f c = 0) →
  foldr (λ c acc, f c + acc) 0 l = a.
Proof.
  intros Hnd. induction Hnd as [|c l Hc Hnd IH]; intros Hin Hcat Hz.
  - inversion Hin.
  - cbn [foldr]. apply elem_of_cons in Hin as [<-|Hin].
    + assert (foldr (λ c acc, f c + acc) 0 l = 0) as ->; [|lia].
      clear IH. induction l as [|d l IHl]; [reflexivity|]. cbn [foldr].
      apply not_elem_of_cons in Hc as [Hd Hc]. apply NoDup_cons in Hnd as [_ Hnd].
      rewrite IHl; auto.
      * rewrite (Hz d); [lia| |congruence]. apply elem_of_cons. right.
        apply elem_of_cons. auto.
      * intros c Hcl Hne. apply Hz; [|exact Hne].
        apply elem_of_cons in Hcl as [->|Hcl]; [apply elem_of_cons; auto|].
        apply elem_of_cons. right. apply elem_of_cons. auto.
    + rewrite (Hz c); [|apply elem_of_cons; auto|intros ->; contradiction].
      rewrite IH; auto. intros d Hd. apply Hz, elem_of_cons. auto.
Qed.

End ExpanderFacts.

(** * C2: the partition of Amount over the category columns *)

Section PipelineShape.

Context (read_csv read_excel : string → Z → result DataFrame).
Context (to_datetime : cell → option Calendar.Timestamp).

(** A run of the pipeline that returns went through its three parts. *)
Lemma pipeline_ok source source_types categorizations out :
  load_and_transform_data_from_source read_csv read_excel to_datetime
    source source_types categorizations = Ok out →
  ∃ source' mapped prepared,
    load_mapped read_csv read_excel to_datetime source source_types
    = Ok (source', mapped) ∧
    prepare source' source_types mapped = Ok prepared ∧
    categorize categorizations prepared = Ok out.
Proof.
  unfold load_and_transform_data_from_source. intros H.
  apply bind_ok in H as ([source' mapped] & Hm & H).
  apply bind_ok in H as (prepared & Hp & H). eauto 6.
Qed.

End PipelineShape.

Lemma empty_not_category categorizations :
  "" ∉ categorizations.*1 → "" ∉ all_categories categorizations.
Proof.
  unfold all_categories. intros H Hin. apply elem_of_app in Hin as [Hin|Hin].
  - contradiction.
  - apply list_elem_of_singleton in Hin. discriminate.
Qed.

(** The statement of C2 for the rows that leave the stage of lines
    168-207, whatever table enters it. *)
Lemma categorize_amount_columns categorizations data out (r : row) :
  categorize categorizations data = Ok out →
  "" ∉ categorizations.*1 →
  r ∈ rows out →
  (∀ C, C ∈ all_categories categorizations →
        r !! amount_column C
        = if cell_is "Category" C r then r !! "Amount" else Some (Num 0)) ∧
  (∀ C C', C ∈ all_categories categorizations →
           C' ∈ all_categories categorizations →
           num_of (r !! amount_column C) ≠ 0 →
           num_of (r !! amount_column C') ≠ 0 → C = C') ∧
  (∀ c, r !! "Category" = Some (Str c) →
        c ∈ all_categories categorizations →
        category_amounts_sum (all_categories categorizations) r
        = num_of (r !! "Amount") ∧
        ((∀ C, C ∈ all_categories categorizations →
               num_of (r !! amount_column C) = 0) →
         num_of (r !! "Amount") = 0)).
Proof.
  intros Hrun Hne Hr. apply empty_not_category in Hne.
  apply categorize_rows in Hrun. rewrite Hrun in Hr.
  apply list_elem_of_fmap in Hr as (r0 & -> & _).
  unfold categorize_row.
  set (cs := all_categories categorizations) in *.
  set (r1 := reclassified_row _).
  assert (Hcol : ∀ C, C ∈ cs →
            expanded_row cs r1 !! amount_column C
            = if cell_is "Category" C (expanded_row cs r1)
              then expanded_row cs r1 !! "Amount" else Some (Num 0)).
  { intros C HC. rewrite expanded_row_amount_column by assumption.
    rewrite (expanded_row_amount cs r1 Hne).
    now rewrite (cell_is_ext "Category" C (expanded_row cs r1) r1
                   (expanded_row_category cs r1)). }
  assert (Hnz : ∀ C, C ∈ cs →
            num_of (expanded_row cs r1 !! amount_column C) ≠ 0 →
            expanded_row cs r1 !! "Category" = Some (Str C)).
  { intros C HC. rewrite (Hcol C HC).
    destruct (cell_is "Category" C (expanded_row cs r1)) eqn:E.
    - intros _. now apply cell_is_true.
    - cbn. congruence. }
  split; [exact Hcol|]. split.
  - intros C C' HC HC' H1 H2.
    apply Hnz in H1; [|exact HC]. apply Hnz in H2; [|exact HC'].
    congruence.
  - intros c Hcat Hc.
    assert (Hown : num_of (expanded_row cs r1 !! amount_column c)
                   = num_of (expanded_row cs r1 !! "Amount")).
    { rewrite (Hcol c Hc).
      now rewrite (proj2 (cell_is_true "Category" c _) Hcat). }
    split.
    + unfold category_amounts_sum.
      apply (sum_one_category
               (λ C, num_of (expanded_row cs r1 !! amount_column C)) c).
      * apply NoDup_remove_dups.
      * now apply elem_of_remove_dups.
      * exact Hown.
      * intros C HC Hdiff. apply (proj1 (elem_of_remove_dups _ _)) in HC.
        destruct (decide (num_of (expanded_row cs r1 !! amount_column C) = 0))
          as [|Hn]; [assumption|].
        apply Hnz in Hn; [|exact HC]. congruence.
    + intros Hall. rewrite <- Hown. now apply Hall.
Qed.

(** C2, as amended.  When no key of the rule map is the empty string:
    in every row of the table a source is transformed into, for every
    category [C] among the keys of the rule map and ["Uncategorized"],
    the column [Amount<C>] holds the row's Amount if the row's Category
    is [C] and 0 otherwise; at most one of these columns is non-zero;
    and when the row's Category is one of those categories, the columns
    sum to Amount and are all zero only if Amount is zero. *)
Theorem category_amounts_partition
    (read_csv read_excel : string → Z → result DataFrame)
    (to_datetime : cell → option Calendar.Timestamp)
    (source : Source) (source_types : gmap string SourceType)
    (categorizations : Categorizations) (out : DataFrame) (r : row) :
  load_and_transform_data_from_source read_csv read_excel to_datetime
    source source_types categorizations = Ok out →
  "" ∉ categorizations.*1 →
  r ∈ rows out →
  (∀ C, C ∈ all_categories categorizations →
        r !! amount_column C
        = if cell_is "Category" C r then r !! "Amount" else Some (Num 0)) ∧
  (∀ C C', C ∈ all_categories categorizations →
           C' ∈ all_categories categorizations →
           num_of (r !! amount_column C) ≠ 0 →
           num_of (r !! amount_column C') ≠ 0 → C = C') ∧
  (∀ c, r !! "Category" = Some (Str c) →
        c ∈ all_categories categorizations →
        category_amounts_sum (all_categories categorizations) r
        = num_of (r !! "Amount") ∧
        ((∀ C, C ∈ all_categories categorizations →
               num_of (r !! amount_column C) = 0) →
         num_of (r !! "Amount") = 0)).
Proof.
  intros Hrun Hne Hr.
  apply pipeline_ok in Hrun as (source' & mapped & prepared & _ & _ & Hc).
  exact (categorize_amount_columns _ _ _ _ Hc Hne Hr).
Qed.

(** When the table that enters the stage has no Category column, every
    row leaves it with one of the categories. *)
Lemma categorize_category_known categorizations data out (r : row) :
  categorize categorizations data = Ok out →
  "Category" ∉ columns data →
  (∀ r0 : row, r0 ∈ rows data → r0 !! "Category" = None) →
  r ∈ rows out →
  ∃ c, r !! "Category" = Some (Str c) ∧ c ∈ all_categories categorizations.
Proof.
  intros Hrun Hcol Hnone Hr. apply categorize_rows in Hrun.
  rewrite Hrun in Hr. apply list_elem_of_fmap in Hr as (r0 & -> & Hr0).
  specialize (Hnone r0 Hr0). unfold categorize_row.
  rewrite expanded_row_category.
  set (r1 := if has_column "Text" data then _ else r0).
  assert (H1 : r1 !! "Category" = None ∨
               ∃ c, r1 !! "Category" = Some (Str c) ∧ c ∈ categorizations.*1).
  { subst r1. destruct (has_column "Text" data); [|auto].
    unfold categorized_row. rewrite bool_decide_eq_false_2 by assumption.
    destruct (written_category false (r0 !! "Text") categorizations)
      as [c|] eqn:E; [|auto].
    right. exists c. split; [apply lookup_insert_eq|].
    clear -E. induction categorizations as [|[c' kws] rest IH];
      cbn in E; [discriminate|].
    destruct (written_category false (r0 !! "Text") rest) as [c''|].
    - injection E as ->. cbn. apply elem_of_cons. auto.
    - destruct (keyword_hit (r0 !! "Text") kws); [|discriminate].
      injection E as ->. cbn. apply elem_of_cons. auto. }
  assert (H2 : ∃ c, filled_row r1 !! "Category" = Some (Str c) ∧
                    c ∈ all_categories categorizations).
  { unfold filled_row. rewrite lookup_insert_eq. unfold all_categories.
    destruct H1 as [->|(c & -> & Hc)]; cbn.
    - exists "Uncategorized". split; [reflexivity|].
      apply elem_of_app. right. now apply list_elem_of_singleton.
    - exists c. split; [reflexivity|]. apply elem_of_app. auto. }
  destruct H2 as (c & Hc & Hin). exists c. split; [|exact Hin].
  unfold reclassified_row.
  repeat match goal with
         | |- context [if ?b then _ else _] => destruct b
         end;
    rewrite ?lookup_insert_ne by done; exact Hc.
Qed.

Lemma category_amounts_partition_witness :
  let out := match Samples.run "statement.csv" "bank" Samples.rules with
             | Ok out => out
             | Err _ => Samples.statement
             end in
  let r := default ∅ (rows out !! 1%nat) in
  Samples.run "statement.csv" "bank" Samples.rules = Ok out ∧
  ("" ∉ Samples.rules.*1) ∧
  r ∈ rows out ∧
  r !! "Category" = Some (Str "Shopping") ∧
  r !! "Amount" = Some (Num (-250)) ∧
  r !! "AmountShopping" = Some (Num (-250)) ∧
  r !! "AmountGroceries" = Some (Num 0) ∧
  (∀ C, C ∈ all_categories Samples.rules →
        r !! amount_column C
        = if cell_is "Category" C r then r !! "Amount" else Some (Num 0)) ∧
  (∀ C C', C ∈ all_categories Samples.rules →
           C' ∈ all_categories Samples.rules →
           num_of (r !! amount_column C) ≠ 0 →
           num_of (r !! amount_column C') ≠ 0 → C = C') ∧
  (∀ c, r !! "Category" = Some (Str c) →
        c ∈ all_categories Samples.rules →
        category_amounts_sum (all_categories Samples.rules) r
        = num_of (r !! "Amount") ∧
        ((∀ C, C ∈ all_categories Samples.rules →
               num_of (r !! amount_column C) = 0) →
         num_of (r !! "Amount") = 0)).
Proof.
  intros out r.
  assert (Hrun : Samples.run "statement.csv" "bank" Samples.rules = Ok out)
    by (apply ok_default; vm_compute; reflexivity).
  assert (Hne : "" ∉ Samples.rules.*1)
    by (apply (bool_decide_unpack _); vm_compute; exact I).
  assert (Hr : r ∈ rows out)
    by (apply lookup_default_elem; vm_compute; reflexivity).
  split; [exact Hrun|]. split; [exact Hne|]. split; [exact Hr|].
  do 4 (split; [vm_compute; reflexivity|]).
  exact (category_amounts_partition Samples.read_csv Samples.read_excel
           Samples.to_datetime (Samples.source_of "statement.csv" "bank")
           Samples.source_types Samples.rules out r Hrun Hne Hr).
Defined.

(** C2, counterexamples.  With a rule map that has the empty string
    among its keys, [Amount<"">] is the Amount column: the expander
    overwrites Amount with 0 in the row categorised as Groceries, whose
    [AmountGroceries] stays -250.  And with a source type that maps a
    raw column to Category, a row keeps a category outside the rule
    map, and all its [Amount<C>] columns are 0 beside an Amount of
    -109. *)
Lemma category_amounts_counterexample :
  let out := Samples.run "statement.csv" "bank" Samples.rules_with_empty_key in
  let out' := Samples.run "tagged.csv" "tagged" Samples.rules in
  (Samples.column "Category" out
   = Ok [Some (Str "Uncategorized"); Some (Str "Groceries");
         Some (Str "Uncategorized"); Some (Str "Uncategorized")] ∧
   Samples.column "AmountGroceries" out
   = Ok [Some (Num 0); Some (Num (-250)); Some (Num 0); Some (Num 0)] ∧
   Samples.column "Amount" out
   = Ok [Some (Num 0); Some (Num 0); Some (Num 0); Some (Num 0)]) ∧
  (Samples.column "Category" out' = Ok [Some (Str "Leisure")] ∧
   Samples.column "Amount" out' = Ok [Some (Num (-109))] ∧
   Samples.amount_sums Samples.rules out' = Ok [0]) ∧
  ¬ (∀ read_csv read_excel to_datetime source source_types categorizations
       out (r : row),
       load_and_transform_data_from_source read_csv read_excel to_datetime
         source source_types categorizations = Ok out →
       r ∈ rows out →
       (∀ C, C ∈ all_categories categorizations →
             r !! amount_column C
             = if cell_is "Category" C r then r !! "Amount"
               else Some (Num 0)) ∧
       category_amounts_sum (all_categories categorizations) r
       = num_of (r !! "Amount")).
Proof.
  intros out out'.
  split; [repeat split; vm_compute; reflexivity|].
  split; [repeat split; vm_compute; reflexivity|].
  intros H.
  set (o := match Samples.run "statement.csv" "bank"
                    Samples.rules_with_empty_key with
            | Ok o => o
            | Err _ => Samples.statement
            end).
  assert (Hrun : Samples.run "statement.csv" "bank"
                   Samples.rules_with_empty_key = Ok o)
    by (apply ok_default; vm_compute; reflexivity).
  assert (Hr : default ∅ (rows o !! 1%nat) ∈ rows o)
    by (apply lookup_default_elem; vm_compute; reflexivity).
  destruct (H _ _ _ _ _ _ o _ Hrun Hr) as [Hcol _].
  specialize (Hcol "Groceries" ltac:(apply elem_of_cons; auto)).
  vm_compute in Hcol. discriminate Hcol.
Qed.

(** * C6: the Type Reclassifier *)

Section ReclassifierFacts.

Lemma cell_is_insert_other c k s v (r : row) :
  k ≠ c → cell_is c s (<[k := v]> r) = cell_is c s r.
Proof. intros. apply cell_is_ext. now apply lookup_insert_ne. Qed.

(** Lines 189 and 193 on one row. *)
Lemma reclassified_row_spec (r : row) :
  reclassified_row r !! "Category" = r !! "Category" ∧
  (r !! "Category" = Some (Str "Investments") →
   reclassified_row r !! "Type" = Some (Str "Investment")) ∧
  (r !! "Category" = Some (Str "Transfers") →
   reclassified_row r !! "Type" = Some (Str "Transfer")) ∧
  (r !! "Category" ≠ Some (Str "Investments") →
   r !! "Category" ≠ Some (Str "Transfers") →
   reclassified_row r !! "Type" = r !! "Type").
Proof.
  unfold reclassified_row.
  destruct (cell_is "Category" "Investments" r) eqn:EI.
  - apply cell_is_true in EI.
    rewrite cell_is_insert_other by done.
    assert (cell_is "Category" "Transfers" r = false) as ->.
    { unfold cell_is. now rewrite EI. }
    rewrite lookup_insert_ne by done. rewrite lookup_insert_eq.
    repeat split; congruence.
  - destruct (cell_is "Category" "Transfers" r) eqn:ET.
    + apply cell_is_true in ET.
      rewrite lookup_insert_ne by done. rewrite lookup_insert_eq.
      repeat split; congruence.
    + repeat split; try reflexivity.
      * intros H. apply cell_is_true in H. congruence.
      * intros H. apply cell_is_true in H. congruence.
Qed.

(** The row that leaves the stage of lines 168-207 has the Type the
    Reclassifier gives it. *)
Lemma categorize_row_type with_text in_row categorizations (r : row) :
  let r' := categorize_row with_text in_row categorizations r in
  (r' !! "Category" = Some (Str "Investments") →
   r' !! "Type" = Some (Str "Investment")) ∧
  (r' !! "Category" = Some (Str "Transfers") →
   r' !! "Type" = Some (Str "Transfer")) ∧
  (r' !! "Category" ≠ Some (Str "Investments") →
   r' !! "Category" ≠ Some (Str "Transfers") →
   r' !! "Type" = r !! "Type").
Proof.
  unfold categorize_row. cbn zeta.
  rewrite expanded_row_category, expanded_row_type.
  set (r1 := if with_text then _ else r).
  assert (H1 : r1 !! "Type" = r !! "Type").
  { subst r1. destruct with_text; [|reflexivity]. unfold categorized_row.
    destruct (written_category _ _ _); [|reflexivity].
    now apply lookup_insert_ne. }
  assert (H2 : filled_row r1 !! "Type" = r !! "Type").
  { unfold filled_row. now rewrite lookup_insert_ne by done. }
  destruct (reclassified_row_spec (filled_row r1)) as (Hc & Hi & Ht & Ho).
  rewrite Hc. repeat split; [auto|auto|].
  intros. rewrite <- H2. auto.
Qed.

End ReclassifierFacts.

(** * The stages of lines 146-160, row by row *)

Section PrepareFacts.

Lemma Forall2_elem_r {A B} (P : A → B → Prop) (l : list A) (k : list B) (y : B) :
  Forall2 P l k → y ∈ k → ∃ x, x ∈ l ∧ P x y.
Proof.
  intros HF Hy. apply list_elem_of_lookup in Hy as [i Hi].
  destruct (Forall2_lookup_r _ _ _ _ _ HF Hi) as (x & Hx & HP).
  exists x. split; [|exact HP]. apply list_elem_of_lookup. eauto.
Qed.

Local Ltac other_column Hk :=
  let E := fresh in
  intros E; apply Hk; rewrite <- E; unfold calendar_columns;
  repeat (first [apply list_elem_of_here | apply list_elem_of_further]).

(** The Calendar Enricher adds its columns and leaves the others as
    they are. *)
Lemma enricher_ok data out :
  load_and_transform_data_from_source_add_additional_columns_from_date data
  = Ok out →
  (∀ k, k ∈ columns out → k ∈ columns data ∨ k ∈ calendar_columns) ∧
  (∀ k, k ∈ columns data → k ∈ columns out) ∧
  Forall2 (λ r r' : row, ∀ k, k ∉ calendar_columns → r' !! k = r !! k)
    (rows data) (rows out).
Proof.
  unfold load_and_transform_data_from_source_add_additional_columns_from_date.
  destruct (has_column "Date" data); cbn [negb].
  2:{ intros [= <-]. split; [auto|]. split; [auto|].
      apply Forall2_same_length_lookup. split; [reflexivity|]. congruence. }
  case_bool_decide; [discriminate|]. intros [= <-].
  split; [|split].
  - intros k. rewrite !columns_assign, !elem_of_add_column.
    unfold calendar_columns. rewrite !elem_of_cons.
    intuition auto.
  - intros k Hk. rewrite !columns_assign, !elem_of_add_column. auto 20.
  - rewrite !rows_assign, <- !list_fmap_compose.
    apply Forall2_fmap_r, Forall_Forall2_diag, Forall_forall.
    intros r _ k Hk. unfold compose. cbv beta.
    rewrite !lookup_set_cell_ne; [reflexivity|other_column Hk..].
Qed.

(** The Amount Classifier sets Type, from the sign of the amount. *)
Lemma classifier_ok data out :
  load_and_transform_data_from_source_add_additional_columns_from_amount data
  = Ok out →
  "Amount" ∈ columns data →
  columns out = add_column "Type" (columns data) ∧
  Forall2 (λ r r' : row,
             ∃ v, r' = <["Type" := v]> r ∧
                  (is_Some (r !! "Amount") →
                   v = type_by_sign (num_of (r !! "Amount"))))
    (rows data) (rows out).
Proof.
  unfold load_and_transform_data_from_source_add_additional_columns_from_amount.
  intros H Hcol. apply has_column_true in Hcol. rewrite Hcol in H.
  cbn [negb] in H. apply assignM_ok in H as [Hc Hr].
  split; [exact Hc|]. eapply Forall2_impl; [exact Hr|].
  intros r r' (v & Hv & ->). apply bind_ok in Hv as (b & Hb & Hv).
  injection Hv as <-. eexists. split; [reflexivity|].
  intros [c Hsome]. rewrite Hsome in *. unfold type_by_sign.
  destruct c as [s|x|[]|t]; cbn in Hb |- *; try discriminate Hb;
    injection Hb as <-; reflexivity.
Qed.

(** The Cleaner keeps the rows that have a date and an amount, and
    changes their Text only. *)
Lemma cleaner_ok data out :
  load_and_transform_data_from_source_clean_data data = Ok out →
  "Date" ∈ columns data ∧ "Amount" ∈ columns data ∧
  (∀ k, k ∈ columns out ↔ k ∈ columns data) ∧
  ∀ r' : row, r' ∈ rows out →
    ∃ r : row, r ∈ rows data ∧ is_Some (r !! "Date") ∧
               is_Some (r !! "Amount") ∧
               ∀ k, k ≠ "Text" → r' !! k = r !! k.
Proof.
  unfold load_and_transform_data_from_source_clean_data. intros H.
  apply bind_ok in H as (d1 & H1 & H). apply bind_ok in H as (d2 & H2 & H).
  apply dropna_ok in H1 as (Hdate & Hc1 & Hr1).
  apply dropna_ok in H2 as (Hamount & Hc2 & Hr2).
  rewrite Hc1 in Hamount.
  assert (Hrows : ∀ r : row, r ∈ rows d2 →
            r ∈ rows data ∧ is_Some (r !! "Date") ∧ is_Some (r !! "Amount")).
  { intros r Hr. rewrite Hr2 in Hr. apply list_elem_of_filter in Hr as [Ha Hr].
    rewrite Hr1 in Hr. apply list_elem_of_filter in Hr as [Hd Hr]. auto. }
  split; [exact Hdate|]. split; [exact Hamount|].
  destruct (has_column "Text" d2) eqn:Etext.
  - apply assignM_ok in H as [Hc Hr]. split.
    + intros k. rewrite Hc, elem_of_add_column, Hc2, Hc1.
      apply has_column_true in Etext. rewrite Hc2, Hc1 in Etext.
      split; [intros [->|]; auto|auto].
    + intros r' Hr'. destruct (Forall2_elem_r _ _ _ _ Hr Hr')
        as (r & Hin & v & _ & ->).
      destruct (Hrows r Hin) as (? & ? & ?). exists r.
      repeat split; try assumption.
      intros k Hk. now apply lookup_set_cell_ne.
  - injection H as <-. split; [intros k; now rewrite Hc2, Hc1|].
    intros r' Hr'. destruct (Hrows r' Hr') as (? & ? & ?). eauto 6.
Qed.

(** Line 153 multiplies the amounts by the modifier. *)
Lemma apply_modifier_ok source data out :
  apply_modifier source data = Ok out →
  (∀ k, k ∈ columns out ↔ k ∈ columns data) ∧
  Forall2 (λ r r' : row,
             is_Some (r !! "Amount") →
             r' = <["Amount" := Num (num_of (r !! "Amount")
                                     * modifier_of source)]> r)
    (rows data) (rows out).
Proof.
  unfold apply_modifier. destruct (has_column "Amount" data) eqn:E;
    [|discriminate]. cbn [negb]. intros H.
  apply bind_ok in H as (modifier & Hmod & H).
  apply bind_ok in H as (m & Hm & H).
  apply assignM_ok in H as [Hc Hr]. split.
  - intros k. rewrite Hc, elem_of_add_column. apply has_column_true in E.
    split; [intros [->|]; auto|auto].
  - assert (Hmof : modifier_of source = m).
    { unfold getitem in Hmod. unfold modifier_of.
      destruct (source !! "modifier") as [v|]; [|discriminate Hmod].
      injection Hmod as ->.
      destruct modifier as [s|x|[]|]; cbn in Hm; try discriminate Hm;
        injection Hm as <-; reflexivity. }
    eapply Forall2_impl; [exact Hr|].
    intros r r' (v & Hv & ->) [c Hc']. rewrite Hc' in *. rewrite Hmof.
    destruct c as [s|x|[]|t]; cbn in Hv |- *; try discriminate Hv;
      injection Hv as <-; reflexivity.
Qed.

(** The range filter returns only when the source type configures no
    bound, and then returns the table it was given. *)
Lemma filter_amounts_ok source source_types data out :
  filter_amounts source source_types data = Ok out →
  out = data ∧
  ∃ ty source_type,
    source !! "type" = Some (PStr ty) ∧
    source_types !! ty = Some source_type ∧
    st_minAmount source_type = None ∧ st_maxAmount source_type = None.
Proof.
  unfold filter_amounts. intros H.
  apply bind_ok in H as (ty & Hty & H).
  apply bind_ok in H as (st & Hst & H).
  apply bind_ok in H as (data1 & H1 & H).
  apply bind_ok in H as (ty' & Hty' & H).
  apply bind_ok in H as (st' & Hst' & H).
  unfold getitem in Hty, Hty'.
  destruct (source !! "type") as [v|] eqn:Ev; [|discriminate Hty].
  injection Hty as ->. injection Hty' as <-.
  destruct ty as [ty| | |]; try discriminate Hst.
  unfold registry_getitem, getitem in Hst, Hst'.
  destruct (source_types !! ty) as [st0|] eqn:Est; [|discriminate Hst].
  injection Hst as ->. injection Hst' as <-.
  destruct (bool_decide (is_Some (st_minAmount st))) eqn:Emin;
    [cbn in H1; discriminate H1|]. injection H1 as <-.
  destruct (bool_decide (is_Some (st_maxAmount st))) eqn:Emax;
    [cbn in H; discriminate H|]. injection H as <-.
  apply bool_decide_eq_false in Emin, Emax.
  split; [reflexivity|]. exists ty, st.
  split; [reflexivity|]. split; [exact Est|]. split.
  - destruct (st_minAmount st); [exfalso; eauto|reflexivity].
  - destruct (st_maxAmount st); [exfalso; eauto|reflexivity].
Qed.

Lemma not_calendar_column k :
  k ∈ ["Date"; "Amount"; "Text"; "Type"; "Category"] → k ∉ calendar_columns.
Proof.
  rewrite !elem_of_cons.
  intros [->|[->|[->|[->|[->|H]]]]]; [..|now apply elem_of_nil in H];
    apply (bool_decide_unpack _); vm_compute; exact I.
Qed.

(** Lines 146-160 together: every row that leaves them comes from a
    row of the mapped table that has a date and an amount, carries that
    amount times the modifier, and has the Type of the sign of the
    amount as it was before the modifier. *)
Lemma prepare_ok source source_types mapped prepared :
  prepare source source_types mapped = Ok prepared →
  "Date" ∈ columns mapped ∧ "Amount" ∈ columns mapped ∧
  (∀ k, k ∈ columns prepared →
        k ∈ columns mapped ∨ k ∈ calendar_columns ∨ k = "Type") ∧
  (∀ k, k ∈ columns mapped → k ∈ columns prepared) ∧
  ∀ r : row, r ∈ rows prepared →
    ∃ r0 : row, r0 ∈ rows mapped ∧
      is_Some (r0 !! "Date") ∧ is_Some (r0 !! "Amount") ∧
      r !! "Date" = r0 !! "Date" ∧
      r !! "Amount"
      = Some (Num (num_of (r0 !! "Amount") * modifier_of source)) ∧
      r !! "Type" = Some (type_by_sign (num_of (r0 !! "Amount"))) ∧
      (∀ k, k ∉ calendar_columns → k ≠ "Type" → k ≠ "Text" →
            k ≠ "Amount" → r !! k = r0 !! k).
Proof.
  unfold prepare. intros H.
  apply bind_ok in H as (d1 & H1 & H). apply bind_ok in H as (d2 & H2 & H).
  apply bind_ok in H as (d3 & H3 & H). apply bind_ok in H as (d4 & H4 & H).
  apply filter_amounts_ok in H as [-> _].
  apply enricher_ok in H1 as (Hc1 & Hc1' & Hr1).
  apply cleaner_ok in H3 as (Hdate & Hamount & Hc3 & Hr3).
  assert (Hamount1 : "Amount" ∈ columns d1).
  { destruct (decide ("Amount" ∈ columns d1)) as [|Hn]; [assumption|].
    exfalso. apply Hn. revert H2 Hamount.
    unfold load_and_transform_data_from_source_add_additional_columns_from_amount.
    rewrite (proj2 (has_column_false _ _) Hn). cbn. now intros [= <-]. }
  apply classifier_ok in H2 as [Hc2 Hr2]; [|exact Hamount1].
  apply apply_modifier_ok in H4 as [Hc4 Hr4].
  assert (Hdate1 : "Date" ∈ columns d1).
  { rewrite Hc2 in Hdate. apply elem_of_add_column in Hdate as [|]; [discriminate|assumption]. }
  split; [|split; [|split; [|split]]].
  - apply Hc1 in Hdate1 as [|Hd]; [assumption|].
    exfalso. revert Hd. apply not_calendar_column, elem_of_cons. auto.
  - apply Hc1 in Hamount1 as [|Hd]; [assumption|].
    exfalso. revert Hd. apply not_calendar_column. rewrite !elem_of_cons. auto.
  - intros k Hk. apply Hc4, Hc3 in Hk. rewrite Hc2 in Hk.
    apply elem_of_add_column in Hk as [->|Hk]; [auto|].
    apply Hc1 in Hk as [|]; auto.
  - intros k Hk. apply Hc4, Hc3. rewrite Hc2. apply elem_of_add_column.
    right. auto.
  - intros r Hr.
    destruct (Forall2_elem_r _ _ _ _ Hr4 Hr) as (r3 & Hin3 & Hrel4).
    destruct (Hr3 r3 Hin3) as (r2 & Hin2 & Hd2 & Ha2 & Hrel3).
    destruct (Forall2_elem_r _ _ _ _ Hr2 Hin2) as (r1 & Hin1 & v & -> & Hv).
    destruct (Forall2_elem_r _ _ _ _ Hr1 Hin1) as (r0 & Hin0 & Hrel1).
    assert (Ha0 : r1 !! "Amount" = r0 !! "Amount").
    { apply Hrel1, not_calendar_column. rewrite !elem_of_cons. auto. }
    assert (Hd0 : r1 !! "Date" = r0 !! "Date").
    { apply Hrel1, not_calendar_column. rewrite !elem_of_cons. auto. }
    rewrite lookup_insert_ne in Hd2, Ha2 by done.
    rewrite Hv in * by assumption.
    assert (Ha3 : r3 !! "Amount" = r0 !! "Amount").
    { rewrite Hrel3 by done. rewrite lookup_insert_ne by done. exact Ha0. }
    rewrite Hrel4 by (rewrite Ha3, <- Ha0; assumption).
    exists r0. split; [exact Hin0|].
    split; [now rewrite <- Hd0|]. split; [now rewrite <- Ha0|].
    split; [|split; [|split]].
    + rewrite lookup_insert_ne by done. rewrite Hrel3 by done.
      rewrite lookup_insert_ne by done. exact Hd0.
    + rewrite lookup_insert_eq, Ha3. reflexivity.
    + rewrite lookup_insert_ne by done. rewrite Hrel3 by done.
      rewrite lookup_insert_eq, Ha0. reflexivity.
    + intros k Hk1 Hk2 Hk3 Hk4. rewrite lookup_insert_ne by done.
      rewrite Hrel3 by done. rewrite lookup_insert_ne by done.
      now apply Hrel1.
Qed.

End PrepareFacts.

(** C6.  In the table a source is transformed into, every row whose
    Category is ["Investments"] has the Type ["Investment"] and every
    row whose Category is ["Transfers"] has the Type ["Transfer"],
    whatever the sign of its amount; every other row keeps the Type the
    Amount Classifier gave it, which is ["Income"] if the amount before
    the modifier is positive and ["Expense"] otherwise.  The rows of
    the result stand, in order, for the rows that enter the
    categorisation. *)
Theorem reclassifier_overrides
    (read_csv read_excel : string → Z → result DataFrame)
    (to_datetime : cell → option Calendar.Timestamp)
    (source : Source) (source_types : gmap string SourceType)
    (categorizations : Categorizations) (out : DataFrame) :
  load_and_transform_data_from_source read_csv read_excel to_datetime
    source source_types categorizations = Ok out →
  ∃ source' mapped prepared,
    load_mapped read_csv read_excel to_datetime source source_types
    = Ok (source', mapped) ∧
    prepare source' source_types mapped = Ok prepared ∧
    Forall2
      (λ r r' : row,
         (r' !! "Category" = Some (Str "Investments") →
          r' !! "Type" = Some (Str "Investment")) ∧
         (r' !! "Category" = Some (Str "Transfers") →
          r' !! "Type" = Some (Str "Transfer")) ∧
         (r' !! "Category" ≠ Some (Str "Investments") →
          r' !! "Category" ≠ Some (Str "Transfers") →
          r' !! "Type" = r !! "Type" ∧
          ∃ a, r !! "Amount" = Some (Num (a * modifier_of source')) ∧
               r' !! "Type" = Some (type_by_sign a)))
      (rows prepared) (rows out).
Proof.
  intros Hrun.
  apply pipeline_ok in Hrun as (source' & mapped & prepared & Hm & Hp & Hc).
  exists source', mapped, prepared. split; [exact Hm|]. split; [exact Hp|].
  apply categorize_rows in Hc. rewrite Hc.
  apply Forall2_fmap_r, Forall_Forall2_diag, Forall_forall. intros r Hr.
  destruct (categorize_row_type (has_column "Text" prepared)
              (bool_decide ("Category" ∈ columns prepared)) categorizations r)
    as (Hi & Ht & Ho).
  split; [exact Hi|]. split; [exact Ht|]. intros H1 H2.
  specialize (Ho H1 H2). split; [exact Ho|].
  apply prepare_ok in Hp as (_ & _ & _ & _ & Hrows).
  destruct (Hrows r Hr) as (r0 & _ & _ & _ & _ & Ha & Hty & _).
  exists (num_of (r0 !! "Amount")). split; [exact Ha|]. now rewrite Ho.
Qed.

Lemma reclassifier_overrides_witness :
  let out := match Samples.run "statement.csv" "bank" Samples.rules with
             | Ok out => out
             | Err _ => Samples.statement
             end in
  Samples.run "statement.csv" "bank" Samples.rules = Ok out ∧
  Samples.column "Category" (Ok out)
  = Ok [Some (Str "Subscriptions"); Some (Str "Shopping");
        Some (Str "Investments"); Some (Str "Uncategorized")] ∧
  Samples.column "Amount" (Ok out)
  = Ok [Some (Num (-109)); Some (Num (-250)); Some (Num 500);
        Some (Num 30000)] ∧
  Samples.column "Type" (Ok out)
  = Ok [Some (Str "Expense"); Some (Str "Expense");
        Some (Str "Investment"); Some (Str "Income")] ∧
  ∃ source' mapped prepared,
    load_mapped Samples.read_csv Samples.read_excel Samples.to_datetime
      (Samples.source_of "statement.csv" "bank") Samples.source_types
    = Ok (source', mapped) ∧
    prepare source' Samples.source_types mapped = Ok prepared ∧
    Forall2
      (λ r r' : row,
         (r' !! "Category" = Some (Str "Investments") →
          r' !! "Type" = Some (Str "Investment")) ∧
         (r' !! "Category" = Some (Str "Transfers") →
          r' !! "Type" = Some (Str "Transfer")) ∧
         (r' !! "Category" ≠ Some (Str "Investments") →
          r' !! "Category" ≠ Some (Str "Transfers") →
          r' !! "Type" = r !! "Type" ∧
          ∃ a, r !! "Amount" = Some (Num (a * modifier_of source')) ∧
               r' !! "Type" = Some (type_by_sign a)))
      (rows prepared) (rows out).
Proof.
  intros out.
  assert (Hrun : Samples.run "statement.csv" "bank" Samples.rules = Ok out)
    by (apply ok_default; vm_compute; reflexivity).
  split; [exact Hrun|].
  do 3 (split; [vm_compute; reflexivity|]).
  exact (reclassifier_overrides Samples.read_csv Samples.read_excel
           Samples.to_datetime (Samples.source_of "statement.csv" "bank")
           Samples.source_types Samples.rules out Hrun).
Defined.

(** * The mapping stage, lines 119-143 *)

Section LoadFacts.

Context (read_csv read_excel : string → Z → result DataFrame).
Context (to_datetime : cell → option Calendar.Timestamp).

(** The mapped table comes with the descriptor the Source Normalizer
    returns, and its Date column, when it has one, holds dates. *)
Lemma load_mapped_ok source source_types source' mapped :
  load_mapped read_csv read_excel to_datetime source source_types
  = Ok (source', mapped) →
  (∃ notices,
     load_and_transform_data_from_source_enrich_source source
     = Ok (source', notices)) ∧
  ("Date" ∈ columns mapped →
   ∀ r : row, r ∈ rows mapped →
     r !! "Date" = None ∨ ∃ t, r !! "Date" = Some (Date t)).
Proof.
  unfold load_mapped. intros H.
  apply bind_ok in H as ([s notices] & He & H).
  apply bind_ok in H as (ty & _ & H). apply bind_ok in H as (entry & _ & H).
  apply bind_ok in H as (path & _ & H). apply bind_ok in H as (d0 & _ & H).
  apply bind_ok in H as (st & _ & H). apply bind_ok in H as (mapping & _ & H).
  apply bind_ok in H as (d1 & H1 & H). injection H as <- <-.
  split; [eauto|]. intros Hdate r Hr.
  match type of H1 with
  | (if has_column "Date" ?d then _ else _) = _ =>
      destruct (has_column "Date" d) eqn:E
  end.
  - apply assignM_ok in H1 as [_ HF].
    destruct (Forall2_elem_r _ _ _ _ HF Hr) as (r0 & _ & v & Hv & ->).
    rewrite lookup_set_cell_eq.
    destruct (r0 !! "Date") as [c|]; [|injection Hv as <-; auto].
    destruct (to_datetime c) as [t|]; [|discriminate Hv].
    injection Hv as <-. eauto.
  - injection H1 as <-. apply has_column_false in E. contradiction.
Qed.

End LoadFacts.

(** The Calendar Enricher does not fail on a table whose Date column
    holds dates. *)
Lemma enricher_total data :
  ("Date" ∈ columns data →
   ∀ r : row, r ∈ rows data →
     r !! "Date" = None ∨ ∃ t, r !! "Date" = Some (Date t)) →
  ∃ out,
    load_and_transform_data_from_source_add_additional_columns_from_date data
    = Ok out.
Proof.
  intros Hdates.
  unfold load_and_transform_data_from_source_add_additional_columns_from_date.
  destruct (has_column "Date" data) eqn:E; cbn [negb]; [|eauto].
  apply has_column_true in E. rewrite bool_decide_eq_false_2; [eauto|].
  intros Hex. apply Exists_exists in Hex as (r & Hr & Hsome & Hnone).
  destruct (Hdates E r Hr) as [Hn|[t Ht]].
  - rewrite Hn in Hsome. now destruct Hsome.
  - unfold date_of in Hnone. rewrite Ht in Hnone. discriminate.
Qed.

(** * C3: the range filter *)

(** With no bound configured, the range filter returns the table as it
    is. *)
Lemma filter_amounts_without_bounds source source_types data ty source_type :
  source !! "type" = Some (PStr ty) →
  source_types !! ty = Some source_type →
  st_minAmount source_type = None → st_maxAmount source_type = None →
  filter_amounts source source_types data = Ok data.
Proof.
  intros Hty Hst Hmin Hmax. unfold filter_amounts, getitem.
  rewrite Hty. cbn. unfold getitem. rewrite Hst. cbn.
  rewrite Hmin, Hmax. reflexivity.
Qed.

(** What an accepted descriptor looks like: [path] and [type] were
    given, [modifier] and [account] are set, and every field that was
    given keeps its value. *)
Lemma enrich_source_inv (source source' : Source) (notices : list string) :
  load_and_transform_data_from_source_enrich_source source
  = Ok (source', notices) →
  is_Some (source !! "path") ∧ is_Some (source !! "type") ∧
  is_Some (source' !! "modifier") ∧ is_Some (source' !! "account") ∧
  (∀ k v, source !! k = Some v → source' !! k = Some v).
Proof.
  unfold load_and_transform_data_from_source_enrich_source, has_key.
  destruct (source !! "path") as [p|] eqn:Hp; [|discriminate].
  destruct (source !! "type") as [ty|] eqn:Hty; [|discriminate].
  rewrite !bool_decide_eq_true_2 by eauto. cbn [negb].
  destruct (source !! "modifier") as [m|] eqn:Hm;
    destruct (source !! "account") as [a|] eqn:Ha; cbn.
  all: rewrite ?lookup_insert_ne, ?Ha, ?Hm by done; cbn.
  all: intros [= <- <-].
  all: repeat split; eauto.
  all: rewrite ?lookup_insert_eq, ?lookup_insert_ne, ?lookup_insert_eq by done;
    eauto.
  all: intros k v Hk.
  all: repeat match goal with
       | |- context [<[?i := _]> _ !! ?k] =>
           destruct (decide (i = k)) as [<-|];
           [congruence|rewrite lookup_insert_ne by done]
       end; done.
Qed.

(** With a bound configured, the pipeline never returns: what does not
    fail earlier fails in the range filter. *)
Lemma bounded_source_type_fails
    (read_csv read_excel : string → Z → result DataFrame)
    (to_datetime : cell → option Calendar.Timestamp)
    (source : Source) (source_types : gmap string SourceType)
    (categorizations : Categorizations) ty source_type :
  source !! "type" = Some (PStr ty) →
  source_types !! ty = Some source_type →
  is_Some (st_minAmount source_type) ∨ is_Some (st_maxAmount source_type) →
  is_ok (load_and_transform_data_from_source read_csv read_excel to_datetime
           source source_types categorizations) = false.
Proof.
  intros Hty Hst Hbound.
  destruct (load_and_transform_data_from_source _ _ _ _ _ _) as [out|e] eqn:E;
    [|reflexivity]. exfalso.
  apply pipeline_ok in E as (source' & mapped & prepared & Hm & Hp & _).
  apply load_mapped_ok in Hm as [[notices He] _].
  destruct (enrich_source_inv _ _ _ He) as (_ & _ & _ & _ & Hkeep).
  specialize (Hkeep _ _ Hty).
  unfold prepare in Hp.
  apply bind_ok in Hp as (d1 & _ & Hp). apply bind_ok in Hp as (d2 & _ & Hp).
  apply bind_ok in Hp as (d3 & _ & Hp). apply bind_ok in Hp as (d4 & _ & Hp).
  apply filter_amounts_ok in Hp as (_ & ty' & st' & Hty' & Hst' & Hmin & Hmax).
  rewrite Hkeep in Hty'. injection Hty' as <-.
  rewrite Hst in Hst'. injection Hst' as <-.
  rewrite Hmin, Hmax in Hbound. destruct Hbound as [[? H]|[? H]]; discriminate.
Qed.

(** C3.  The code raises where the claim has it filter.  The sample
    source type ["bounded"] configures [minAmount = -1000]; no amount of
    the statement is below the bound, yet the pipeline ends with a
    [TypeError] raised from line 158, where the subscript
    [['minAmount']] is applied to the name of the type.  The same holds
    of every source whose type configures a bound; with no bound, the
    filter leaves the table as it is. *)
Theorem range_filter_raises :
  Samples.run "statement.csv" "bounded" Samples.rules
  = Err (Raise 158 TypeError) ∧
  is_ok (Samples.run "statement.csv" "bank" Samples.rules) = true ∧
  (∀ read_csv read_excel to_datetime source source_types categorizations
     ty source_type,
     source !! "type" = Some (PStr ty) →
     source_types !! ty = Some source_type →
     is_Some (st_minAmount source_type) ∨ is_Some (st_maxAmount source_type) →
     is_ok (load_and_transform_data_from_source read_csv read_excel
              to_datetime source source_types categorizations) = false) ∧
  (∀ source source_types data ty source_type,
     source !! "type" = Some (PStr ty) →
     source_types !! ty = Some source_type →
     st_minAmount source_type = None → st_maxAmount source_type = None →
     filter_amounts source source_types data = Ok data).
Proof.
  split; [vm_compute; reflexivity|]. split; [vm_compute; reflexivity|].
  split.
  - intros. eapply bounded_source_type_fails; eassumption.
  - intros. eapply filter_amounts_without_bounds; eassumption.
Qed.

(** * C10: a mapped table without an Amount column *)

(** C10, as amended.  When the mapped table of a source has no Amount
    column, the pipeline fails in the Cleaner, before the modifier is
    applied: with [KeyError('Amount')] from line 97 when the table has a
    Date column, and with [KeyError('Date')] from line 94 when it has
    none.  Completing the pipeline thus requires an Amount column. *)
Theorem missing_amount_fails_in_cleaner
    (read_csv read_excel : string → Z → result DataFrame)
    (to_datetime : cell → option Calendar.Timestamp)
    (source : Source) (source_types : gmap string SourceType)
    (categorizations : Categorizations) (source' : Source)
    (mapped : DataFrame) :
  load_mapped read_csv read_excel to_datetime source source_types
  = Ok (source', mapped) →
  "Amount" ∉ columns mapped →
  load_and_transform_data_from_source read_csv read_excel to_datetime
    source source_types categorizations
  = if bool_decide ("Date" ∈ columns mapped)
    then raise 97 (KeyError "Amount")
    else raise 94 (KeyError "Date").
Proof.
  intros Hload Hno. unfold load_and_transform_data_from_source.
  rewrite Hload. cbn [mbind result_bind].
  apply load_mapped_ok in Hload as [_ Hdates].
  destruct (enricher_total mapped Hdates) as [d1 H1].
  unfold prepare. rewrite H1. cbn [mbind result_bind].
  apply enricher_ok in H1 as (Hc1 & Hc1' & _).
  assert (Hno1 : "Amount" ∉ columns d1).
  { intros Hin. apply Hc1 in Hin as [|Hin]; [contradiction|].
    revert Hin. apply not_calendar_column. rewrite !elem_of_cons. auto. }
  unfold load_and_transform_data_from_source_add_additional_columns_from_amount.
  rewrite (proj2 (has_column_false _ _) Hno1). cbn [negb mbind result_bind].
  unfold load_and_transform_data_from_source_clean_data, dropna.
  case_bool_decide as Hdate.
  - rewrite (proj2 (has_column_true _ _) (Hc1' _ Hdate)).
    cbn [mbind result_bind]. unfold has_column. cbn [columns].
    rewrite bool_decide_eq_false_2 by assumption. reflexivity.
  - assert (Hno2 : "Date" ∉ columns d1).
    { intros Hin. apply Hc1 in Hin as [|Hin]; [contradiction|].
      revert Hin. apply not_calendar_column. rewrite !elem_of_cons. auto. }
    rewrite (proj2 (has_column_false _ _) Hno2). reflexivity.
Qed.

Lemma missing_amount_fails_in_cleaner_witness :
  let source := Samples.source_of "texts.csv" "texts" in
  let loaded :=
    match load_mapped Samples.read_csv Samples.read_excel Samples.to_datetime
            source Samples.source_types with
    | Ok loaded => loaded
    | Err _ => (source, Samples.texts_only)
    end in
  load_mapped Samples.read_csv Samples.read_excel Samples.to_datetime
    source Samples.source_types = Ok (loaded.1, loaded.2) ∧
  columns loaded.2 = ["Date"; "Text"] ∧
  ("Amount" ∉ columns loaded.2) ∧
  Samples.run "texts.csv" "texts" Samples.rules
  = if bool_decide ("Date" ∈ columns loaded.2)
    then raise 97 (KeyError "Amount")
    else raise 94 (KeyError "Date").
Proof.
  intros source loaded.
  assert (Hload : load_mapped Samples.read_csv Samples.read_excel
                    Samples.to_datetime source Samples.source_types
                  = Ok (loaded.1, loaded.2)).
  { rewrite <- surjective_pairing. apply ok_default.
    vm_compute. reflexivity. }
  assert (Hno : "Amount" ∉ columns loaded.2)
    by (apply (bool_decide_unpack _); vm_compute; exact I).
  split; [exact Hload|]. split; [vm_compute; reflexivity|].
  split; [exact Hno|].
  exact (missing_amount_fails_in_cleaner Samples.read_csv Samples.read_excel
           Samples.to_datetime source Samples.source_types Samples.rules
           loaded.1 loaded.2 Hload Hno).
Defined.

(** C10, counterexample.  The sample file [texts.csv] maps to a table
    with the columns Date and Text.  The pipeline does fail on it, yet
    not at the modifier of line 153: the Cleaner's [dropna] of line 97
    raises first. *)
Lemma missing_amount_counterexample :
  Samples.run "texts.csv" "texts" Samples.rules
  = Err (Raise 97 (KeyError "Amount")) ∧
  ¬ (∀ read_csv read_excel to_datetime source source_types categorizations
       source' mapped,
       load_mapped read_csv read_excel to_datetime source source_types
       = Ok (source', mapped) →
       "Amount" ∉ columns mapped →
       ∃ e, load_and_transform_data_from_source read_csv read_excel
              to_datetime source source_types categorizations = Err e ∧
            line e = 153%nat).
Proof.
  assert (Hrun : Samples.run "texts.csv" "texts" Samples.rules
                 = Err (Raise 97 (KeyError "Amount")))
    by (vm_compute; reflexivity).
  split; [exact Hrun|]. intros H.
  set (loaded :=
         match load_mapped Samples.read_csv Samples.read_excel
                 Samples.to_datetime (Samples.source_of "texts.csv" "texts")
                 Samples.source_types with
         | Ok loaded => loaded
         | Err _ => (Samples.source_of "texts.csv" "texts", Samples.texts_only)
         end).
  assert (Hload : load_mapped Samples.read_csv Samples.read_excel
                    Samples.to_datetime (Samples.source_of "texts.csv" "texts")
                    Samples.source_types
                  = Ok (loaded.1, loaded.2)).
  { rewrite <- surjective_pairing. apply ok_default.
    vm_compute. reflexivity. }
  assert (Hno : "Amount" ∉ columns loaded.2)
    by (apply (bool_decide_unpack _); vm_compute; exact I).
  destruct (H _ _ _ _ _ Samples.rules _ _ Hload Hno) as (e & He & Hline).
  rewrite Hrun in He. injection He as <-. discriminate Hline.
Qed.

(** * C1: the category the Categorizer assigns *)

Lemma written_category_last_match (t : string) categorizations :
  written_category false (Some (Str t)) categorizations
  = last_match t categorizations.
Proof.
  induction categorizations as [|[category keywords] rest IH];
    [reflexivity|].
  cbn [written_category last_match]. rewrite IH. reflexivity.
Qed.

(** With the test of line 181 always false, the loop does not stop at
    the first category that matches: each later match overwrites the
    category, and the row ends with the last one. *)
Lemma categorize_last_match categorizations data out (i : nat) (r : row)
    (t : string) :
  categorize categorizations data = Ok out →
  "Text" ∈ columns data → "Category" ∉ columns data →
  rows data !! i = Some r →
  r !! "Text" = Some (Str t) → r !! "Category" = None →
  ∃ r' : row,
    rows out !! i = Some r' ∧
    r' !! "Category"
    = Some (Str (default "Uncategorized" (last_match t categorizations))).
Proof.
  intros Hrun Htext Hcat Hi Ht Hc. apply categorize_rows in Hrun.
  rewrite Hrun, list_lookup_fmap, Hi. cbn [fmap option_fmap option_map].
  eexists. split; [reflexivity|].
  unfold categorize_row. rewrite expanded_row_category.
  destruct (reclassified_row_spec
              (filled_row
                 (if has_column "Text" data
                  then categorized_row (bool_decide ("Category" ∈ columns data))
                         categorizations r
                  else r))) as [-> _].
  rewrite (proj2 (has_column_true _ _) Htext).
  rewrite bool_decide_eq_false_2 by assumption.
  unfold filled_row, categorized_row. rewrite lookup_insert_eq, Ht.
  rewrite written_category_last_match.
  destruct (last_match t categorizations) as [c|]; cbn.
  - now rewrite lookup_insert_eq.
  - now rewrite Hc.
Qed.

(** The two rules agree on a text that no two categories match. *)
Lemma first_match_last_match (t : string) categorizations :
  (∀ c, last_match t categorizations = Some c →
        first_match t categorizations = Some c) →
  first_match t categorizations = last_match t categorizations.
Proof.
  intros H. destruct (last_match t categorizations) as [c|] eqn:E; [auto|].
  clear H. induction categorizations as [|[category keywords] rest IH];
    [reflexivity|].
  cbn [first_match last_match] in *.
  destruct (last_match t rest); [discriminate|].
  destruct (keyword_hit (Some (Str t)) keywords); [discriminate|auto].
Qed.

(** C1.  The code does not keep the first match.  In the sample
    statement the text ["  ICA Maxi "] is cleaned to ["ica maxi"]; the
    first category of the rule map with a keyword in it is Groceries
    (keyword [ica]), and the row ends in Shopping (keyword [maxi]), the
    last such category.  A row without a match ends Uncategorized as
    long as some row of the table has one; when no row has, the
    Category column is never created and line 185 raises a KeyError. *)
Theorem categorizer_keeps_last_match :
  Samples.column "Text" (Samples.run "statement.csv" "bank" Samples.rules)
  = Ok [Some (Str "netflix.com"); Some (Str "ica maxi");
        Some (Str "avanza bank"); Some (Str "salary")] ∧
  first_match "ica maxi" Samples.rules = Some "Groceries" ∧
  last_match "ica maxi" Samples.rules = Some "Shopping" ∧
  Samples.column "Category" (Samples.run "statement.csv" "bank" Samples.rules)
  = Ok [Some (Str "Subscriptions"); Some (Str "Shopping");
        Some (Str "Investments"); Some (Str "Uncategorized")] ∧
  Samples.run "statement.csv" "bank" [("Food", ["pizza"])]
  = Err (Raise 185 (KeyError "Category")).
Proof. repeat split; vm_compute; reflexivity. Qed.

(** * Sorting a frame *)

Section SortFacts.

Context `{SortKind}.

Lemma filter_split {A} (f : A → bool) (l : list A) :
  (List.filter f l ++ List.filter (λ x, negb (f x)) l)%list ≡ₚ l.
Proof.
  induction l as [|x l IH]; [reflexivity|]. cbn [List.filter].
  destruct (f x); cbn [negb].
  - cbn. now rewrite IH.
  - rewrite <- Permutation_middle. now rewrite IH.
Qed.

Lemma StronglySorted_weaken {A} (R R' : relation A) (l : list A) :
  (∀ x y, x ∈ l → y ∈ l → R x y → R' x y) →
  StronglySorted R l → StronglySorted R' l.
Proof.
  intros Himp Hs. induction Hs as [|x l Hs IH Hx]; [constructor|].
  constructor.
  - apply IH. intros a b Ha Hb. apply Himp; now apply elem_of_cons; right.
  - apply Forall_forall. intros y Hy. apply Himp.
    + apply elem_of_cons. auto.
    + apply elem_of_cons. auto.
    + rewrite Forall_forall in Hx. auto.
Qed.

Lemma StronglySorted_all {A} (R : relation A) (l : list A) :
  (∀ x y, x ∈ l → y ∈ l → R x y) → StronglySorted R l.
Proof.
  intros HR. induction l as [|x l IH]; [constructor|]. constructor.
  - apply IH. intros a b Ha Hb. apply HR; now apply elem_of_cons; right.
  - apply Forall_forall. intros y Hy.
    apply HR; apply elem_of_cons; auto.
Qed.

Lemma elem_of_filter_bool {A} (f : A → bool) (l : list A) (x : A) :
  x ∈ List.filter f l ↔ x ∈ l ∧ f x = true.
Proof. rewrite !list_elem_of_In. apply filter_In. Qed.

(** Rows with a value, in descending order of their keys, followed by
    the rows without one, are in the order of [sort_values]. *)
Lemma desc_order_app c (l sorted : list row) :
  sorted ≡ₚ List.filter (notnull c) l →
  StronglySorted (λ a b, key_of c b <= key_of c a) sorted →
  (sorted ++ List.filter (λ r, negb (notnull c r)) l)%list ≡ₚ l ∧
  StronglySorted (desc_order c)
    (sorted ++ List.filter (λ r, negb (notnull c r)) l).
Proof.
  intros Hperm Hsorted.
  assert (Hpresent : ∀ r : row, r ∈ sorted → is_Some (r !! c)).
  { intros r Hr. rewrite Hperm in Hr. apply elem_of_filter_bool in Hr as [_ Hr].
    now apply bool_decide_eq_true in Hr. }
  assert (Hmissing : ∀ r : row,
            r ∈ List.filter (λ r, negb (notnull c r)) l → r !! c = None).
  { intros r Hr. apply elem_of_filter_bool in Hr as [_ Hr].
    apply negb_true_iff, bool_decide_eq_false in Hr.
    destruct (r !! c); [exfalso; eauto|reflexivity]. }
  split.
  - rewrite Hperm. apply filter_split.
  - apply StronglySorted_app_2.
    + intros x1 x2 H1 H2. unfold desc_order.
      destruct (Hpresent x1 H1) as [v ->]. now rewrite (Hmissing x2 H2).
    + eapply StronglySorted_weaken; [|exact Hsorted].
      intros x y Hx Hy Hle. unfold desc_order.
      destruct (Hpresent x Hx) as [v ->]. destruct (Hpresent y Hy) as [w ->].
      exact Hle.
    + apply StronglySorted_all. intros x y Hx Hy. unfold desc_order.
      now rewrite (Hmissing x Hx), (Hmissing y Hy).
Qed.

Lemma sort_values_ok l c data out :
  sort_values l c data = Ok out →
  c ∈ columns data ∧ columns out = columns data ∧
  rows out ≡ₚ rows data ∧ StronglySorted (desc_order c) (rows out).
Proof.
  unfold sort_values. destruct (has_column c data) eqn:E; [|discriminate].
  cbn [negb]. destruct (existsb _ _); [discriminate|]. intros [= <-].
  apply has_column_true in E. split; [exact E|]. split; [reflexivity|].
  cbn [rows]. apply desc_order_app.
  - apply sort_desc_perm.
  - apply sort_desc_sorted.
Qed.

Lemma sort_values_total l c data :
  c ∈ columns data →
  (∀ r : row, r ∈ rows data → holds_string c r = false) →
  ∃ out, sort_values l c data = Ok out.
Proof.
  intros Hc Hno. unfold sort_values.
  rewrite (proj2 (has_column_true _ _) Hc). cbn [negb].
  destruct (existsb (holds_string c) (rows data)) eqn:E; [|eauto].
  apply existsb_exists in E as (r & Hr & Hs).
  apply (proj2 (list_elem_of_In _ _)) in Hr. rewrite (Hno r Hr) in Hs. discriminate.
Qed.

Lemma nlargest_ok l n c data out :
  nlargest l n c data = Ok out →
  columns out = columns data ∧
  rows out ⊆+ rows data ∧
  length (rows out) = Nat.min n (length (rows data)) ∧
  StronglySorted (desc_order c) (rows out).
Proof.
  unfold nlargest. destruct (has_column c data); [|discriminate].
  cbn [negb]. destruct (existsb _ _); [discriminate|]. intros [= <-].
  split; [reflexivity|]. cbn [rows].
  set (sorted := if (length (rows data) <=? n)%nat then _ else _).
  assert (Hs : sorted ≡ₚ List.filter (notnull c) (rows data) ∧
               StronglySorted (λ a b, key_of c b <= key_of c a) sorted).
  { subst sorted. destruct (length (rows data) <=? n)%nat.
    - split; [apply sort_desc_perm|apply sort_desc_sorted].
    - split; [apply (@sort_desc_perm stable_kind)
             |apply (@sort_desc_sorted stable_kind)]. }
  destruct Hs as [Hperm Hsorted].
  destruct (desc_order_app c (rows data) sorted Hperm Hsorted) as [Hp Hso].
  split; [|split].
  - rewrite <- Hp at 2. apply submseteq_take.
  - rewrite length_take. now rewrite (Permutation_length Hp).
  - rewrite <- (take_drop n) in Hso. now apply StronglySorted_app_1_l in Hso.
Qed.

End SortFacts.

(** * C7: the top 25 of an aggregate *)

(** C7.  Whenever the Aggregator returns, its top-25 table is made of
    rows of the full aggregate, each taken at most as often as it
    occurs there; it has 25 rows, or as many as the aggregate has when
    those are fewer; and it is in descending order of Amount. *)
Theorem top25_spec `{SortKind}
    (groupby_agg : DataFrame → string → gmap string string → result DataFrame)
    (title by_column : string) (aggregation_mappings : gmap string string)
    (data aggregated top_25_amounts : DataFrame) :
  aggregate_report groupby_agg title by_column aggregation_mappings data
  = Ok (aggregated, top_25_amounts) →
  rows top_25_amounts ⊆+ rows aggregated ∧
  (∀ r : row, r ∈ rows top_25_amounts → r ∈ rows aggregated) ∧
  length (rows top_25_amounts) = Nat.min 25 (length (rows aggregated)) ∧
  (length (rows top_25_amounts) <= 25)%nat ∧
  StronglySorted (desc_order "Amount") (rows top_25_amounts).
Proof.
  unfold aggregate_report. intros Hrun.
  apply bind_ok in Hrun as (agg & _ & Hrun).
  apply bind_ok in Hrun as (largest & Hl & Hrun).
  apply bind_ok in Hrun as (top & Ht & Hrun). injection Hrun as <- <-.
  apply nlargest_ok in Hl as (_ & Hsub & Hlen & _).
  apply sort_values_ok in Ht as (_ & _ & Hperm & Hsorted).
  assert (Hsub' : rows top ⊆+ rows agg) by now rewrite Hperm.
  split; [exact Hsub'|]. split; [|split; [|split]].
  - intros r Hr. eapply elem_of_submseteq; eassumption.
  - now rewrite (Permutation_length Hperm).
  - rewrite (Permutation_length Hperm), Hlen. lia.
  - exact Hsorted.
Qed.

Lemma top25_spec_witness :
  let report := match Samples.report stable_kind with
                | Ok report => report
                | Err _ => (Samples.statement, Samples.statement)
                end in
  aggregate_report (H := stable_kind) Samples.groupby_sum "a-byDay"
    "DayOfMonth" (list_to_map [("Amount", "sum")])
    (match Samples.run "statement.csv" "bank" Samples.rules with
     | Ok data => data
     | Err _ => Samples.statement
     end)
  = Ok (report.1, report.2) ∧
  Samples.column "Amount" (Ok report.1)
  = Ok [Some (Num (-109)); Some (Num (-250)); Some (Num 500);
        Some (Num 30000)] ∧
  Samples.column "Amount" (Ok report.2)
  = Ok [Some (Num 30000); Some (Num 500); Some (Num (-109));
        Some (Num (-250))] ∧
  rows report.2 ⊆+ rows report.1 ∧
  (∀ r : row, r ∈ rows report.2 → r ∈ rows report.1) ∧
  length (rows report.2) = Nat.min 25 (length (rows report.1)) ∧
  (length (rows report.2) <= 25)%nat ∧
  StronglySorted (desc_order "Amount") (rows report.2).
Proof.
  intros report.
  assert (Hrun : aggregate_report (H := stable_kind) Samples.groupby_sum
                   "a-byDay" "DayOfMonth" (list_to_map [("Amount", "sum")])
                   (match Samples.run "statement.csv" "bank" Samples.rules with
                    | Ok data => data
                    | Err _ => Samples.statement
                    end)
                 = Ok (report.1, report.2)).
  { rewrite <- surjective_pairing.
    transitivity (Samples.report stable_kind).
    - vm_compute. reflexivity.
    - apply ok_default. vm_compute. reflexivity. }
  split; [exact Hrun|]. do 2 (split; [vm_compute; reflexivity|]).
  exact (top25_spec (H := stable_kind) Samples.groupby_sum "a-byDay"
           "DayOfMonth" (list_to_map [("Amount", "sum")])
           (match Samples.run "statement.csv" "bank" Samples.rules with
            | Ok data => data
            | Err _ => Samples.statement
            end) report.1 report.2 Hrun).
Defined.

(** * C5: the Source Merger *)

Section MergerFacts.

Context `{SortKind}.
Context (read_csv read_excel : string → Z → result DataFrame).
Context (to_datetime : cell → option Calendar.Timestamp).

Lemma amount_column_not_date c : amount_column c ≠ "Date".
Proof. unfold amount_column. cbv [String.append]. discriminate. Qed.

(** The stage of lines 168-207 touches Category, Type and the amount
    columns of the categories only. *)
Lemma categorize_row_other with_text in_row categorizations (r : row) k :
  k ≠ "Category" → k ≠ "Type" → (∀ c, k ≠ amount_column c) →
  categorize_row with_text in_row categorizations r !! k = r !! k.
Proof.
  intros Hc Ht Ha. unfold categorize_row.
  rewrite expanded_row_lookup_other by auto.
  unfold reclassified_row.
  repeat match goal with
         | |- context [if cell_is ?a ?b ?x then _ else _] =>
             destruct (cell_is a b x)
         end; rewrite ?lookup_insert_ne by done;
    unfold filled_row; rewrite lookup_insert_ne by done;
    (destruct with_text; [|reflexivity]); unfold categorized_row;
    (destruct (written_category _ _ _); [|reflexivity]);
    now rewrite lookup_insert_ne by done.
Qed.

Lemma categorize_columns categorizations data out k :
  categorize categorizations data = Ok out →
  k ∈ columns data → k ∈ columns out.
Proof.
  unfold categorize. intros Hrun Hk.
  apply bind_ok in Hrun as (d1 & H1 & Hrun).
  apply bind_ok in Hrun as (d2 & H2 & Hrun). injection Hrun as <-.
  apply apply_categories_ok in H1 as (_ & _ & Hc1).
  apply fillna_ok in H2 as (_ & Hc2 & _).
  apply columns_add_category_amounts. left.
  unfold reclassify, loc_set. cbn [columns].
  rewrite !elem_of_add_column, Hc2. auto.
Qed.

(** Every row of a transformed table has a date. *)
Lemma pipeline_dates source source_types categorizations out :
  load_and_transform_data_from_source read_csv read_excel to_datetime
    source source_types categorizations = Ok out →
  "Date" ∈ columns out ∧
  ∀ r : row, r ∈ rows out → ∃ t, r !! "Date" = Some (Date t).
Proof.
  intros Hrun.
  apply pipeline_ok in Hrun as (source' & mapped & prepared & Hm & Hp & Hc).
  apply load_mapped_ok in Hm as [_ Hdates].
  apply prepare_ok in Hp as (Hdate & _ & _ & Hcols & Hrows).
  split.
  - eapply categorize_columns; [exact Hc|]. auto.
  - intros r Hr. apply categorize_rows in Hc. rewrite Hc in Hr.
    apply list_elem_of_fmap in Hr as (rp & -> & Hrp).
    rewrite categorize_row_other
      by (try discriminate; intros c E; symmetry in E;
          now apply amount_column_not_date in E).
    destruct (Hrows rp Hrp) as (r0 & Hr0 & Hsome & _ & Heq & _).
    rewrite Heq. destruct (Hdates Hdate r0 Hr0) as [Hn|Ht]; [|exact Ht].
    rewrite Hn in Hsome. now destruct Hsome.
Qed.

Lemma merge_loop_ok sources source_types categorizations tables data :
  Forall2 (λ source table,
             load_and_transform_data_from_source read_csv read_excel
               to_datetime source source_types categorizations = Ok table)
    sources tables →
  merge_loop read_csv read_excel to_datetime sources source_types
    categorizations data
  = Ok (concat_all tables data).
Proof.
  intros HF. revert data.
  induction HF as [|source table sources tables Hrun _ IH]; intros data.
  - reflexivity.
  - cbn [merge_loop]. rewrite Hrun. cbn [mbind result_bind]. apply IH.
Qed.

Lemma concat_all_spec tables data :
  match concat_all tables data with
  | Some merged =>
      rows merged
      = (from_option rows [] data ++ List.concat (rows <$> tables))%list ∧
      (∀ k, k ∈ columns merged ↔
            k ∈ from_option columns [] data ∨
            ∃ t, t ∈ tables ∧ k ∈ columns t)
  | None => data = None ∧ tables = []
  end.
Proof.
  revert data. induction tables as [|t tables IH]; intros data.
  - cbn. destruct data as [d|]; [|auto]. cbn. rewrite app_nil_r.
    split; [reflexivity|]. intros k. split; [auto|].
    intros [|(t & Ht & _)]; [assumption|]. now apply elem_of_nil in Ht.
  - cbn [concat_all foldl].
    change (foldl _ ?a tables) with (concat_all tables a).
    specialize (IH (Some match data with
                         | Some d => concat d t
                         | None => t
                         end)).
    destruct (concat_all tables _) as [merged|]; [|now destruct IH].
    destruct IH as [Hr Hc]. split.
    + rewrite Hr. destruct data as [d|]; cbn; [|reflexivity].
      now rewrite <- app_assoc.
    + intros k. rewrite Hc. destruct data as [d|]; cbn.
      * rewrite elem_of_app, list_elem_of_filter. split.
        -- intros [[|[_ ?]]|(t' & Ht' & ?)]; [auto| |].
           ++ right. exists t. split; [apply elem_of_cons; auto|assumption].
           ++ right. exists t'. split; [apply elem_of_cons; auto|assumption].
        -- intros [|(t' & Ht' & Hk)]; [auto|].
           apply elem_of_cons in Ht' as [->|Ht']; [|eauto].
           left. destruct (decide (k ∈ columns d)); auto.
      * split.
        -- intros [|(t' & Ht' & ?)].
           ++ right. exists t. split; [apply elem_of_cons; auto|assumption].
           ++ right. exists t'. split; [apply elem_of_cons; auto|assumption].
        -- intros [Hk|(t' & Ht' & Hk)]; [now apply elem_of_nil in Hk|].
           apply elem_of_cons in Ht' as [->|Ht']; eauto.
Qed.

End MergerFacts.

(** C5, as amended.  For every non-empty list of sources whose
    pipelines return, and for every sort kind, the Source Merger
    returns a table whose rows are those of the per-source tables,
    every row as often as it occurs in them, in descending order of
    Date, and whose columns are those of the tables together. *)
Theorem merger_sorted_permutation `{SortKind}
    (read_csv read_excel : string → Z → result DataFrame)
    (to_datetime : cell → option Calendar.Timestamp)
    (sources : list Source) (source_types : gmap string SourceType)
    (categorizations : Categorizations) (tables : list DataFrame) :
  sources ≠ [] →
  Forall2 (λ source table,
             load_and_transform_data_from_source read_csv read_excel
               to_datetime source source_types categorizations = Ok table)
    sources tables →
  ∃ out,
    load_and_transform_data_from_sources read_csv read_excel to_datetime
      sources source_types categorizations = Ok out ∧
    rows out ≡ₚ List.concat (rows <$> tables) ∧
    StronglySorted (desc_order "Date") (rows out) ∧
    (∀ k, k ∈ columns out ↔ ∃ t, t ∈ tables ∧ k ∈ columns t).
Proof.
  intros Hne HF. unfold load_and_transform_data_from_sources.
  rewrite (merge_loop_ok _ _ _ _ _ _ tables None HF).
  cbn [mbind result_bind].
  pose proof (concat_all_spec tables None) as Hspec.
  destruct (concat_all tables None) as [merged|].
  2:{ destruct Hspec as [_ ->]. inversion HF. congruence. }
  destruct Hspec as [Hrows Hcols]. cbn in Hrows.
  assert (Hdates : ∀ r : row, r ∈ rows merged →
                     ∃ t, r !! "Date" = Some (Date t)).
  { intros r Hr. rewrite Hrows in Hr.
    apply (proj1 (list_elem_of_In _ _)), in_concat in Hr as (l & Hl & Hr).
    apply (proj2 (list_elem_of_In _ _)), list_elem_of_fmap in Hl
      as (t & -> & Ht).
    apply (proj2 (list_elem_of_In _ _)) in Hr.
    destruct (Forall2_elem_r _ _ _ _ HF Ht) as (source & _ & Hrun).
    apply pipeline_dates in Hrun as [_ Hd]. auto. }
  assert (Hdate : "Date" ∈ columns merged).
  { apply Hcols. right. destruct HF as [|source table ? ? Hrun _];
      [congruence|].
    exists table. split; [apply elem_of_cons; auto|].
    now apply pipeline_dates in Hrun as [? _]. }
  destruct (sort_values_total 230 "Date" merged Hdate) as [out Hout].
  { intros r Hr. destruct (Hdates r Hr) as [t Ht].
    unfold holds_string. now rewrite Ht. }
  exists out. split; [exact Hout|].
  apply sort_values_ok in Hout as (_ & Hc & Hperm & Hsorted).
  split; [now rewrite Hperm, Hrows|]. split; [exact Hsorted|].
  intros k. rewrite Hc, Hcols. cbn. split.
  - intros [Hk|]; [now apply elem_of_nil in Hk|assumption].
  - auto.
Qed.

Lemma merger_sorted_permutation_witness :
  let sources := [Samples.source_of "statement.csv" "bank";
                  Samples.source_of "card.xlsx" "bank"] in
  let t1 := match Samples.run "statement.csv" "bank" Samples.rules with
            | Ok t => t
            | Err _ => Samples.statement
            end in
  let t2 := match Samples.run "card.xlsx" "bank" Samples.rules with
            | Ok t => t
            | Err _ => Samples.card
            end in
  sources ≠ [] ∧
  Forall2 (λ source table,
             load_and_transform_data_from_source Samples.read_csv
               Samples.read_excel Samples.to_datetime source
               Samples.source_types Samples.rules = Ok table)
    sources [t1; t2] ∧
  (length (rows t1) = 4%nat ∧ length (rows t2) = 2%nat) ∧
  Samples.column "Text" (Samples.merged stable_kind)
  = Ok [Some (Str "bookshop"); Some (Str "salary"); Some (Str "avanza bank");
        Some (Str "ica maxi"); Some (Str "spotify");
        Some (Str "netflix.com")] ∧
  ∃ out,
    load_and_transform_data_from_sources (H := stable_kind) Samples.read_csv
      Samples.read_excel Samples.to_datetime sources Samples.source_types
      Samples.rules = Ok out ∧
    rows out ≡ₚ List.concat (rows <$> [t1; t2]) ∧
    StronglySorted (desc_order "Date") (rows out) ∧
    (∀ k, k ∈ columns out ↔ ∃ t, t ∈ [t1; t2] ∧ k ∈ columns t).
Proof.
  intros sources t1 t2.
  assert (Hne : sources ≠ []) by discriminate.
  assert (HF : Forall2 (λ source table,
                 load_and_transform_data_from_source Samples.read_csv
                   Samples.read_excel Samples.to_datetime source
                   Samples.source_types Samples.rules = Ok table)
                 sources [t1; t2]).
  { constructor; [apply ok_default; vm_compute; reflexivity|].
    constructor; [apply ok_default; vm_compute; reflexivity|].
    constructor. }
  split; [exact Hne|]. split; [exact HF|].
  split; [split; vm_compute; reflexivity|].
  split; [vm_compute; reflexivity|].
  exact (merger_sorted_permutation (H := stable_kind) Samples.read_csv
           Samples.read_excel Samples.to_datetime sources
           Samples.source_types Samples.rules [t1; t2] Hne HF).
Defined.

(** C5, counterexamples.  With no source at all the merger does not
    return the empty concatenation: line 230 calls [sort_values] on
    [None] and raises.  And the order of rows of equal Date is not the
    input order under every sort kind: the statement's ["ica maxi"] and
    the card's ["spotify"] are both dated 2024-05-06, the statement
    comes first, and the sort kind that reverses ties puts ["spotify"]
    first. *)
Lemma merger_counterexample :
  (∀ (kind : SortKind) read_csv read_excel to_datetime source_types
     categorizations,
     load_and_transform_data_from_sources (H := kind) read_csv read_excel
       to_datetime [] source_types categorizations
     = Err (Raise 230 AttributeError)) ∧
  Samples.column "Text" (Samples.merged tie_reversing_kind)
  = Ok [Some (Str "bookshop"); Some (Str "salary"); Some (Str "avanza bank");
        Some (Str "spotify"); Some (Str "ica maxi");
        Some (Str "netflix.com")] ∧
  ¬ (∀ (kind : SortKind) read_csv read_excel to_datetime sources source_types
       categorizations tables,
       Forall2 (λ source table,
                  load_and_transform_data_from_source read_csv read_excel
                    to_datetime source source_types categorizations
                  = Ok table)
         sources tables →
       ∃ out,
         load_and_transform_data_from_sources (H := kind) read_csv read_excel
           to_datetime sources source_types categorizations = Ok out ∧
         rows out
         = stable_sort_desc (key_of "Date") (List.concat (rows <$> tables))).
Proof.
  split; [intros; reflexivity|]. split; [vm_compute; reflexivity|].
  intros H.
  destruct (H stable_kind Samples.read_csv Samples.read_excel
              Samples.to_datetime [] Samples.source_types Samples.rules []
              (List.Forall2_nil _)) as (out & Hout & _).
  discriminate Hout.
Qed.

(** * Further properties of bank.py *)

(** ** The Source Normalizer and the mapping stage *)

(** X1.  Normalizing a normalized descriptor changes nothing and prints
    no notice. *)
Theorem enrich_source_idempotent (source source' : Source)
    (notices : list string) :
  load_and_transform_data_from_source_enrich_source source
  = Ok (source', notices) →
  load_and_transform_data_from_source_enrich_source source'
  = Ok (source', []).
Proof.
  intros Hrun.
  destruct (enrich_source_inv _ _ _ Hrun)
    as ([p Hp] & [ty Hty] & Hm & Ha & Hkeep).
  unfold load_and_transform_data_from_source_enrich_source, has_key.
  rewrite (bool_decide_eq_true_2 (is_Some (source' !! "path"))) by eauto.
  rewrite (bool_decide_eq_true_2 (is_Some (source' !! "type"))) by eauto.
  rewrite (bool_decide_eq_true_2 (is_Some (source' !! "modifier"))) by eauto.
  cbn [negb].
  rewrite (bool_decide_eq_true_2 (is_Some (source' !! "account"))) by eauto.
  reflexivity.
Qed.

Lemma enrich_source_idempotent_witness :
  let source := Samples.source_of "statement.csv" "bank" in
  let source' := <["account" := PStr "Default"]> (<["modifier" := PNum 1]> source) in
  load_and_transform_data_from_source_enrich_source source
  = Ok (source', ["No modifier found, using default value 1.0";
                  "No account found, using default value Default"]) ∧
  load_and_transform_data_from_source_enrich_source source'
  = Ok (source', []).
Proof.
  intros source source'.
  assert (Hrun : load_and_transform_data_from_source_enrich_source source
                 = Ok (source', ["No modifier found, using default value 1.0";
                                 "No account found, using default value Default"]))
    by (vm_compute; reflexivity).
  split; [exact Hrun|].
  exact (enrich_source_idempotent source source' _ Hrun).
Defined.

(** A descriptor with a path and a type is accepted, and keeps them. *)
Lemma enrich_source_accepts (source : Source) p ty :
  source !! "path" = Some p → source !! "type" = Some ty →
  ∃ source' notices,
    load_and_transform_data_from_source_enrich_source source
    = Ok (source', notices) ∧
    source' !! "path" = Some p ∧ source' !! "type" = Some ty.
Proof.
  intros Hp Hty.
  destruct (load_and_transform_data_from_source_enrich_source source)
    as [[source' notices]|e] eqn:E.
  - destruct (enrich_source_inv _ _ _ E) as (_ & _ & _ & _ & Hkeep).
    exists source', notices. split; [reflexivity|]. split; apply Hkeep; assumption.
  - exfalso. revert E.
    unfold load_and_transform_data_from_source_enrich_source, has_key.
    rewrite !bool_decide_eq_true_2 by eauto. cbn [negb].
    repeat match goal with |- context [if ?b then _ else _] => destruct b end;
      discriminate.
Qed.

Lemma bind_of_ok {A B} (m : result A) (f : A → result B) (a : A) :
  m = Ok a → m ≫= f = f a.
Proof. now intros ->. Qed.

Lemma bind_of_err {A B} (m : result A) (f : A → result B) (e : error) :
  m = Err e → m ≫= f = Err e.
Proof. now intros ->. Qed.

Section LoadErrors.

Context (read_csv read_excel : string → Z → result DataFrame).
Context (to_datetime : cell → option Calendar.Timestamp).

(** X2.  A source whose type is not in the registry fails with a
    [KeyError] at line 120, before any file is read. *)
Theorem unknown_source_type (source : Source)
    (source_types : gmap string SourceType)
    (categorizations : Categorizations) (p : pyval) (ty : string) :
  source !! "path" = Some p → source !! "type" = Some (PStr ty) →
  source_types !! ty = None →
  load_and_transform_data_from_source read_csv read_excel to_datetime
    source source_types categorizations
  = raise 120 (KeyError ty).
Proof.
  intros Hp Hty Hnone.
  destruct (enrich_source_accepts source _ _ Hp Hty)
    as (source' & notices & He & _ & Hty').
  unfold load_and_transform_data_from_source.
  apply bind_of_err. unfold load_mapped.
  rewrite (bind_of_ok _ _ _ He). cbv beta iota.
  rewrite (bind_of_ok (getitem 120 source' "type") _ (PStr ty))
    by (unfold getitem; now rewrite Hty').
  apply bind_of_err. unfold registry_getitem, getitem. now rewrite Hnone.
Qed.

(** X3.  A path that ends neither in [.csv] nor in [.xlsx] fails with
    [ValueError("Unsupported file format")] at line 131; no reader is
    called.  The test is on the exact suffix. *)
Theorem unsupported_file_format (source : Source)
    (source_types : gmap string SourceType)
    (categorizations : Categorizations) (p ty : string)
    (source_type : SourceType) :
  source !! "path" = Some (PStr p) → source !! "type" = Some (PStr ty) →
  source_types !! ty = Some source_type →
  PyStr.endswith p ".csv" = false → PyStr.endswith p ".xlsx" = false →
  load_and_transform_data_from_source read_csv read_excel to_datetime
    source source_types categorizations
  = raise 131 (ValueError "Unsupported file format").
Proof.
  intros Hp Hty Hst Hcsv Hxlsx.
  destruct (enrich_source_accepts source _ _ Hp Hty)
    as (source' & notices & He & Hp' & Hty').
  unfold load_and_transform_data_from_source.
  apply bind_of_err. unfold load_mapped.
  rewrite (bind_of_ok _ _ _ He). cbv beta iota.
  rewrite (bind_of_ok (getitem 120 source' "type") _ (PStr ty))
    by (unfold getitem; now rewrite Hty').
  rewrite (bind_of_ok (registry_getitem 120 source_types (PStr ty)) _
             source_type)
    by (unfold registry_getitem, getitem; now rewrite Hst).
  rewrite (bind_of_ok (getitem 126 source' "path") _ (PStr p))
    by (unfold getitem; now rewrite Hp').
  rewrite Hcsv, Hxlsx. reflexivity.
Qed.

(** X4.  Every column of the mapped table is a target name of the
    column mapping of the source type. *)
Theorem mapped_columns_are_targets (source : Source)
    (source_types : gmap string SourceType) (source' : Source)
    (mapped : DataFrame) (ty : string) (source_type : SourceType)
    (mapping : gmap string string) (c : string) :
  load_mapped read_csv read_excel to_datetime source source_types
  = Ok (source', mapped) →
  source !! "type" = Some (PStr ty) →
  source_types !! ty = Some source_type →
  st_columns source_type = Some mapping →
  c ∈ columns mapped →
  ∃ raw, mapping !! raw = Some c.
Proof.
  intros Hload Hty Hst Hmap Hc.
  pose proof Hload as Hload'.
  apply load_mapped_ok in Hload' as [[notices He] _].
  destruct (enrich_source_inv _ _ _ He) as (_ & _ & _ & _ & Hkeep).
  specialize (Hkeep _ _ Hty).
  unfold load_mapped in Hload.
  rewrite (bind_of_ok _ _ _ He) in Hload. cbv beta iota in Hload.
  rewrite (bind_of_ok (getitem 120 source' "type") _ (PStr ty)) in Hload
    by (unfold getitem; now rewrite Hkeep).
  rewrite (bind_of_ok (registry_getitem 120 source_types (PStr ty)) _
             source_type) in Hload
    by (unfold registry_getitem, getitem; now rewrite Hst).
  apply bind_ok in Hload as (path & _ & Hload).
  apply bind_ok in Hload as (d0 & _ & Hload).
  rewrite (bind_of_ok (registry_getitem 134 source_types (PStr ty)) _
             source_type) in Hload
    by (unfold registry_getitem, getitem; now rewrite Hst).
  rewrite Hmap in Hload.
  rewrite (bind_of_ok (Ok mapping) _ mapping) in Hload by reflexivity.
  apply bind_ok in Hload as (d1 & H1 & Hload). injection Hload as <-.
  assert (Hin : c ∈ columns
                  (drop (filter (λ column, column ∉ (map_to_list mapping).*2)
                                (columns (rename mapping d0)))
                        (rename mapping d0))).
  { match type of H1 with
    | (if has_column "Date" ?d then _ else _) = _ =>
        destruct (has_column "Date" d) eqn:E
    end.
    - apply assignM_ok in H1 as [Hcols _]. rewrite Hcols in Hc.
      apply elem_of_add_column in Hc as [->|Hc]; [|exact Hc].
      now apply has_column_true.
    - now injection H1 as <-. }
  unfold drop in Hin. cbn [columns] in Hin.
  apply list_elem_of_filter in Hin as [Hnot Hin].
  assert (Hval : c ∈ (map_to_list mapping).*2).
  { destruct (decide (c ∈ (map_to_list mapping).*2)) as [|Hn]; [assumption|].
    exfalso. apply Hnot. apply list_elem_of_filter. auto. }
  apply list_elem_of_fmap in Hval as ([raw v] & -> & Hval).
  apply elem_of_map_to_list in Hval. eauto.
Qed.

End LoadErrors.

Lemma unknown_source_type_witness :
  let source := Samples.source_of "statement.csv" "savings" in
  source !! "path" = Some (PStr "statement.csv") ∧
  source !! "type" = Some (PStr "savings") ∧
  Samples.source_types !! "savings" = None ∧
  load_and_transform_data_from_source Samples.read_csv Samples.read_excel
    Samples.to_datetime source Samples.source_types Samples.rules
  = raise 120 (KeyError "savings").
Proof.
  intros source.
  assert (Hp : source !! "path" = Some (PStr "statement.csv"))
    by (vm_compute; reflexivity).
  assert (Hty : source !! "type" = Some (PStr "savings"))
    by (vm_compute; reflexivity).
  assert (Hno : Samples.source_types !! "savings" = None)
    by (vm_compute; reflexivity).
  split; [exact Hp|]. split; [exact Hty|]. split; [exact Hno|].
  exact (unknown_source_type Samples.read_csv Samples.read_excel
           Samples.to_datetime source Samples.source_types Samples.rules
           _ _ Hp Hty Hno).
Defined.

Lemma unsupported_file_format_witness :
  let source := Samples.source_of "STATEMENT.CSV" "bank" in
  let source_type := mkSourceType (Some Samples.bank_columns) None None None in
  source !! "path" = Some (PStr "STATEMENT.CSV") ∧
  source !! "type" = Some (PStr "bank") ∧
  Samples.source_types !! "bank" = Some source_type ∧
  PyStr.endswith "STATEMENT.CSV" ".csv" = false ∧
  PyStr.endswith "STATEMENT.CSV" ".xlsx" = false ∧
  load_and_transform_data_from_source Samples.read_csv Samples.read_excel
    Samples.to_datetime source Samples.source_types Samples.rules
  = raise 131 (ValueError "Unsupported file format").
Proof.
  intros source source_type.
  assert (Hp : source !! "path" = Some (PStr "STATEMENT.CSV"))
    by (vm_compute; reflexivity).
  assert (Hty : source !! "type" = Some (PStr "bank"))
    by (vm_compute; reflexivity).
  assert (Hst : Samples.source_types !! "bank" = Some source_type)
    by (vm_compute; reflexivity).
  assert (H1 : PyStr.endswith "STATEMENT.CSV" ".csv" = false)
    by (vm_compute; reflexivity).
  assert (H2 : PyStr.endswith "STATEMENT.CSV" ".xlsx" = false)
    by (vm_compute; reflexivity).
  repeat (split; [assumption|]).
  exact (unsupported_file_format Samples.read_csv Samples.read_excel
           Samples.to_datetime source Samples.source_types Samples.rules
           _ _ source_type Hp Hty Hst H1 H2).
Defined.

Lemma mapped_columns_are_targets_witness :
  let source := Samples.source_of "statement.csv" "bank" in
  let source_type := mkSourceType (Some Samples.bank_columns) None None None in
  let loaded :=
    match load_mapped Samples.read_csv Samples.read_excel Samples.to_datetime
            source Samples.source_types with
    | Ok loaded => loaded
    | Err _ => (source, Samples.statement)
    end in
  load_mapped Samples.read_csv Samples.read_excel Samples.to_datetime
    source Samples.source_types = Ok (loaded.1, loaded.2) ∧
  "Amount" ∈ columns loaded.2 ∧ ("Saldo" ∉ columns loaded.2) ∧
  ∃ raw, Samples.bank_columns !! raw = Some "Amount".
Proof.
  intros source source_type loaded.
  assert (Hload : load_mapped Samples.read_csv Samples.read_excel
                    Samples.to_datetime source Samples.source_types
                  = Ok (loaded.1, loaded.2)).
  { rewrite <- surjective_pairing. apply ok_default.
    vm_compute. reflexivity. }
  assert (Hin : "Amount" ∈ columns loaded.2)
    by (apply (bool_decide_unpack _); vm_compute; exact I).
  split; [exact Hload|]. split; [exact Hin|].
  split; [apply (bool_decide_unpack _); vm_compute; exact I|].
  exact (mapped_columns_are_targets Samples.read_csv Samples.read_excel
           Samples.to_datetime source Samples.source_types loaded.1 loaded.2
           "bank" source_type Samples.bank_columns "Amount" Hload
           ltac:(vm_compute; reflexivity) ltac:(vm_compute; reflexivity)
           ltac:(reflexivity) Hin).
Defined.

(** ** The Calendar Enricher *)

(** The row the Calendar Enricher makes of a row, when the table has a
    Date column that holds dates or nothing. *)
Lemma enricher_row (data out : DataFrame) (i : nat) (r : row) :
  load_and_transform_data_from_source_add_additional_columns_from_date data
  = Ok out →
  "Date" ∈ columns data →
  rows data !! i = Some r →
  ∃ r' : row, rows out !! i = Some r' ∧
    r' !! "Season"
    = (date_of r ≫= λ t,
         season_name ((Calendar.month t mod 12 + 3) / 3)) ∧
    r' !! "Weekday"
    = ((λ t, Str (Calendar.day_name (Calendar.dayofweek t))) <$> date_of r) ∧
    r' !! "IsWeekend"
    = Some (Bool (match date_of r with
                  | Some t => bool_decide (Calendar.dayofweek t = 5
                                           ∨ Calendar.dayofweek t = 6)
                  | None => false
                  end)) ∧
    r' !! "Year" = ((λ t, Num (Calendar.year t)) <$> date_of r) ∧
    r' !! "QuarterNumber" = ((λ t, Num (Calendar.quarter t)) <$> date_of r) ∧
    r' !! "Quarter"
    = (let float := bool_decide (Exists (λ r : row, r !! "Date" = None)
                                   (rows data)) in
       Some (Str (astype_str float
                    ((λ t, Num (Calendar.year t)) <$> date_of r) ++ "-Q" ++
                  astype_str float
                    ((λ t, Num (Calendar.quarter t)) <$> date_of r)))).
Proof.
  unfold load_and_transform_data_from_source_add_additional_columns_from_date.
  intros Hrun Hcol Hi. apply has_column_true in Hcol.
  rewrite Hcol in Hrun. cbn [negb] in Hrun.
  case_bool_decide; [discriminate|].
  injection Hrun as <-.
  rewrite !rows_assign, !list_lookup_fmap, Hi.
  cbn [fmap option_fmap option_map].
  eexists; split; [reflexivity|].
  split; [|split; [|split; [|split; [|split]]]].
  - rewrite !lookup_set_cell_ne by done. rewrite lookup_set_cell_eq.
    rewrite lookup_set_cell_eq. rewrite !date_of_set_cell by done.
    destruct (date_of r) as [t|]; reflexivity.
  - rewrite !lookup_set_cell_ne by done. rewrite lookup_set_cell_eq.
    rewrite !date_of_set_cell by done. reflexivity.
  - rewrite lookup_set_cell_eq. rewrite !date_of_set_cell by done.
    reflexivity.
  - rewrite !lookup_set_cell_ne by done. rewrite lookup_set_cell_eq.
    reflexivity.
  - rewrite !lookup_set_cell_ne by done. rewrite lookup_set_cell_eq.
    rewrite !date_of_set_cell by done. reflexivity.
  - rewrite !lookup_set_cell_ne by done. rewrite lookup_set_cell_eq.
    rewrite lookup_set_cell_eq. rewrite lookup_set_cell_ne by done.
    rewrite lookup_set_cell_eq. rewrite !date_of_set_cell by done.
    reflexivity.
Qed.

(** X5.  The Season of a dated row is the season of its month:
    December to February is winter, March to May spring, June to August
    summer, September to November autumn. *)
Theorem enricher_season (data out : DataFrame) (i : nat) (r : row)
    (t : Calendar.Timestamp) :
  load_and_transform_data_from_source_add_additional_columns_from_date data
  = Ok out →
  "Date" ∈ columns data →
  rows data !! i = Some r →
  r !! "Date" = Some (Date t) →
  1 <= Calendar.month t <= 12 →
  ∃ r' : row, rows out !! i = Some r' ∧
    r' !! "Season" = Some (Str (season_of_month (Calendar.month t))).
Proof.
  intros Hrun Hcol Hi Hd Hm.
  destruct (enricher_row _ _ _ _ Hrun Hcol Hi) as (r' & Hr' & Hs & _).
  exists r'. split; [exact Hr'|]. rewrite Hs.
  unfold date_of. rewrite Hd. cbn [mbind option_bind].
  assert (Hcases : Calendar.month t = 1 ∨ Calendar.month t = 2 ∨
                   Calendar.month t = 3 ∨ Calendar.month t = 4 ∨
                   Calendar.month t = 5 ∨ Calendar.month t = 6 ∨
                   Calendar.month t = 7 ∨ Calendar.month t = 8 ∨
                   Calendar.month t = 9 ∨ Calendar.month t = 10 ∨
                   Calendar.month t = 11 ∨ Calendar.month t = 12) by lia.
  repeat destruct Hcases as [->|Hcases]; try rewrite Hcases; reflexivity.
Qed.

(** X6.  On a dated row, [IsWeekend] is true exactly when [Weekday] is
    Saturday or Sunday. *)
Theorem enricher_weekend (data out : DataFrame) (i : nat) (r : row)
    (t : Calendar.Timestamp) :
  load_and_transform_data_from_source_add_additional_columns_from_date data
  = Ok out →
  "Date" ∈ columns data →
  rows data !! i = Some r →
  r !! "Date" = Some (Date t) →
  ∃ (r' : row) (weekday : string) (weekend : bool),
    rows out !! i = Some r' ∧
    r' !! "Weekday" = Some (Str weekday) ∧
    r' !! "IsWeekend" = Some (Bool weekend) ∧
    (weekend = true ↔ weekday = "Saturday" ∨ weekday = "Sunday").
Proof.
  intros Hrun Hcol Hi Hd.
  destruct (enricher_row _ _ _ _ Hrun Hcol Hi) as (r' & Hr' & _ & Hw & He & _).
  assert (Hdate : date_of r = Some t) by (unfold date_of; now rewrite Hd).
  rewrite Hdate in Hw, He. cbn in Hw.
  eexists r', _, _. split; [exact Hr'|]. split; [exact Hw|].
  split; [exact He|].
  assert (Hrange : 0 <= Calendar.dayofweek t < 7)
    by (unfold Calendar.dayofweek; apply Z.mod_pos_bound; lia).
  remember (Calendar.dayofweek t) as d eqn:Ed. clear Ed.
  rewrite bool_decide_eq_true.
  assert (Hcases : d = 0 ∨ d = 1 ∨ d = 2 ∨ d = 3 ∨ d = 4 ∨ d = 5 ∨ d = 6)
    by lia.
  repeat destruct Hcases as [->|Hcases]; try subst d; cbn;
    (split; [intros [?|?]; first [lia|auto] | intros [?|?]; first [discriminate|lia]]).
Qed.

(** X7.  The week number of a valid day lies between 1 and 53, and the
    ISO year differs from the calendar year by at most one. *)
Theorem week_number_range (data out : DataFrame) (i : nat) (r : row)
    (t : Calendar.Timestamp) :
  load_and_transform_data_from_source_add_additional_columns_from_date data
  = Ok out →
  "Date" ∈ columns data →
  rows data !! i = Some r →
  r !! "Date" = Some (Date t) →
  Calendar.valid t →
  ∃ (r' : row) (w : Z),
    rows out !! i = Some r' ∧ r' !! "WeekNumber" = Some (Num w) ∧
    1 <= w <= 53 ∧
    Calendar.year t - 1 <= Calendar.iso_year t <= Calendar.year t + 1.
Proof.
  intros Hrun Hcol Hi Hd Hv.
  destruct (enricher_week_columns _ _ _ _ _ Hrun Hcol Hi Hd)
    as (r' & Hr' & _ & Hnum).
  exists r', (Calendar.iso_week t). split; [exact Hr'|]. split; [exact Hnum|].
  split.
  - destruct (isocalendar_iso8601 t Hv) as [[Hlo Hhi] Hw].
    pose proof (year_length (Calendar.iso_year t)) as Hlen.
    rewrite Hw. clear Hw.
    remember (Calendar.thursday_of_week t) as thu.
    remember (Calendar.days_before_year (Calendar.iso_year t)) as d0.
    remember (Calendar.days_before_year (Calendar.iso_year t + 1)) as d1.
    Z.div_mod_to_equations. lia.
  - unfold Calendar.iso_year, Calendar.isocalendar.
    repeat match goal with
           | |- context [if ?b then _ else _] => destruct b
           end; cbn [fst snd]; lia.
Qed.

(** X8.  The [Quarter] label is made of the year and the quarter as
    pandas prints them: as integers when every row has a date, and as
    floats, for every row, as soon as one row has none. *)
Theorem enricher_quarter_label (data out : DataFrame) (i : nat) (r : row)
    (t : Calendar.Timestamp) :
  load_and_transform_data_from_source_add_additional_columns_from_date data
  = Ok out →
  "Date" ∈ columns data →
  rows data !! i = Some r →
  r !! "Date" = Some (Date t) →
  ∃ r' : row, rows out !! i = Some r' ∧
    ((∀ r0 : row, r0 ∈ rows data → is_Some (r0 !! "Date")) →
     r' !! "Quarter"
     = Some (Str (pretty (Calendar.year t) ++ "-Q" ++
                  pretty (Calendar.quarter t)))) ∧
    ((∃ r0 : row, r0 ∈ rows data ∧ r0 !! "Date" = None) →
     r' !! "Quarter"
     = Some (Str ((pretty (Calendar.year t) ++ ".0") ++ "-Q" ++
                  (pretty (Calendar.quarter t) ++ ".0")))).
Proof.
  intros Hrun Hcol Hi Hd.
  destruct (enricher_row _ _ _ _ Hrun Hcol Hi)
    as (r' & Hr' & _ & _ & _ & _ & _ & Hq).
  assert (Hdate : date_of r = Some t) by (unfold date_of; now rewrite Hd).
  rewrite Hdate in Hq. cbn [fmap option_fmap option_map] in Hq.
  exists r'. split; [exact Hr'|]. split.
  - intros Hall. rewrite Hq. cbv zeta.
    rewrite bool_decide_eq_false_2; [reflexivity|].
    intros Hex. apply Exists_exists in Hex as (r0 & Hin & Hnone).
    destruct (Hall r0 Hin) as [c Hc]. congruence.
  - intros (r0 & Hin & Hnone). rewrite Hq. cbv zeta.
    rewrite bool_decide_eq_true_2; [reflexivity|].
    apply Exists_exists. eauto.
Qed.

(** X9.  A row without a date gets the Quarter label [nan-Qnan] and
    [IsWeekend = False], and no season and no weekday. *)
Theorem enricher_missing_date (data out : DataFrame) (i : nat) (r : row) :
  load_and_transform_data_from_source_add_additional_columns_from_date data
  = Ok out →
  "Date" ∈ columns data →
  rows data !! i = Some r →
  r !! "Date" = None →
  ∃ r' : row, rows out !! i = Some r' ∧
    r' !! "Quarter" = Some (Str "nan-Qnan") ∧
    r' !! "IsWeekend" = Some (Bool false) ∧
    r' !! "Season" = None ∧ r' !! "Weekday" = None ∧ r' !! "Year" = None.
Proof.
  intros Hrun Hcol Hi Hd.
  destruct (enricher_row _ _ _ _ Hrun Hcol Hi)
    as (r' & Hr' & Hs & Hw & He & Hy & _ & Hq).
  assert (Hdate : date_of r = None) by (unfold date_of; now rewrite Hd).
  rewrite Hdate in *. exists r'. repeat split; assumption.
Qed.

Lemma enricher_season_witness :
  let t := Calendar.mkTimestamp 2024 12 28 0 in
  let r := Samples.mk_row [("Date", Date t); ("Text", Str "market")] in
  let out :=
    match load_and_transform_data_from_source_add_additional_columns_from_date
            Samples.with_gap with
    | Ok out => out
    | Err _ => Samples.with_gap
    end in
  load_and_transform_data_from_source_add_additional_columns_from_date
    Samples.with_gap = Ok out ∧
  "Date" ∈ columns Samples.with_gap ∧
  rows Samples.with_gap !! 0%nat = Some r ∧
  r !! "Date" = Some (Date t) ∧
  1 <= Calendar.month t <= 12 ∧
  season_of_month (Calendar.month t) = "Winter" ∧
  ∃ r' : row, rows out !! 0%nat = Some r' ∧
    r' !! "Season" = Some (Str (season_of_month (Calendar.month t))).
Proof.
  intros t r out.
  assert (Hrun : load_and_transform_data_from_source_add_additional_columns_from_date
                   Samples.with_gap = Ok out)
    by (apply ok_default; vm_compute; reflexivity).
  assert (Hcol : "Date" ∈ columns Samples.with_gap)
    by (apply has_column_true; vm_compute; reflexivity).
  assert (Hi : rows Samples.with_gap !! 0%nat = Some r)
    by (vm_compute; reflexivity).
  assert (Hd : r !! "Date" = Some (Date t)) by (vm_compute; reflexivity).
  assert (Hm : 1 <= Calendar.month t <= 12) by (cbn; lia).
  split; [exact Hrun|]. split; [exact Hcol|]. split; [exact Hi|].
  split; [exact Hd|]. split; [exact Hm|]. split; [vm_compute; reflexivity|].
  exact (enricher_season Samples.with_gap out 0 r t Hrun Hcol Hi Hd Hm).
Defined.

Lemma enricher_weekend_witness :
  let t := Calendar.mkTimestamp 2024 12 28 0 in
  let r := Samples.mk_row [("Date", Date t); ("Text", Str "market")] in
  let out :=
    match load_and_transform_data_from_source_add_additional_columns_from_date
            Samples.with_gap with
    | Ok out => out
    | Err _ => Samples.with_gap
    end in
  load_and_transform_data_from_source_add_additional_columns_from_date
    Samples.with_gap = Ok out ∧
  "Date" ∈ columns Samples.with_gap ∧
  rows Samples.with_gap !! 0%nat = Some r ∧
  r !! "Date" = Some (Date t) ∧
  Calendar.day_name (Calendar.dayofweek t) = "Saturday" ∧
  ∃ (r' : row) (weekday : string) (weekend : bool),
    rows out !! 0%nat = Some r' ∧
    r' !! "Weekday" = Some (Str weekday) ∧
    r' !! "IsWeekend" = Some (Bool weekend) ∧
    (weekend = true ↔ weekday = "Saturday" ∨ weekday = "Sunday").
Proof.
  intros t r out.
  assert (Hrun : load_and_transform_data_from_source_add_additional_columns_from_date
                   Samples.with_gap = Ok out)
    by (apply ok_default; vm_compute; reflexivity).
  assert (Hcol : "Date" ∈ columns Samples.with_gap)
    by (apply has_column_true; vm_compute; reflexivity).
  assert (Hi : rows Samples.with_gap !! 0%nat = Some r)
    by (vm_compute; reflexivity).
  assert (Hd : r !! "Date" = Some (Date t)) by (vm_compute; reflexivity).
  split; [exact Hrun|]. split; [exact Hcol|]. split; [exact Hi|].
  split; [exact Hd|]. split; [vm_compute; reflexivity|].
  exact (enricher_weekend Samples.with_gap out 0 r t Hrun Hcol Hi Hd).
Defined.

Lemma week_number_range_witness :
  let t := Calendar.mkTimestamp 2024 12 31 0 in
  let r := Samples.mk_row [("Date", Date t)] in
  let out :=
    match load_and_transform_data_from_source_add_additional_columns_from_date
            Samples.new_years_eve with
    | Ok out => out
    | Err _ => Samples.new_years_eve
    end in
  load_and_transform_data_from_source_add_additional_columns_from_date
    Samples.new_years_eve = Ok out ∧
  "Date" ∈ columns Samples.new_years_eve ∧
  rows Samples.new_years_eve !! 0%nat = Some r ∧
  r !! "Date" = Some (Date t) ∧
  Calendar.valid t ∧
  Calendar.iso_year t = 2025 ∧
  ∃ (r' : row) (w : Z),
    rows out !! 0%nat = Some r' ∧ r' !! "WeekNumber" = Some (Num w) ∧
    1 <= w <= 53 ∧
    Calendar.year t - 1 <= Calendar.iso_year t <= Calendar.year t + 1.
Proof.
  intros t r out.
  assert (Hrun : load_and_transform_data_from_source_add_additional_columns_from_date
                   Samples.new_years_eve = Ok out)
    by (apply ok_default; vm_compute; reflexivity).
  assert (Hcol : "Date" ∈ columns Samples.new_years_eve)
    by (apply has_column_true; vm_compute; reflexivity).
  assert (Hi : rows Samples.new_years_eve !! 0%nat = Some r)
    by (vm_compute; reflexivity).
  assert (Hd : r !! "Date" = Some (Date t)) by (vm_compute; reflexivity).
  assert (Hv : Calendar.valid t) by (vm_compute; intuition discriminate).
  split; [exact Hrun|]. split; [exact Hcol|]. split; [exact Hi|].
  split; [exact Hd|]. split; [exact Hv|]. split; [vm_compute; reflexivity|].
  exact (week_number_range Samples.new_years_eve out 0 r t
           Hrun Hcol Hi Hd Hv).
Defined.

Lemma enricher_quarter_label_witness :
  let t := Calendar.mkTimestamp 2024 12 28 0 in
  let r := Samples.mk_row [("Date", Date t); ("Text", Str "market")] in
  let out :=
    match load_and_transform_data_from_source_add_additional_columns_from_date
            Samples.with_gap with
    | Ok out => out
    | Err _ => Samples.with_gap
    end in
  load_and_transform_data_from_source_add_additional_columns_from_date
    Samples.with_gap = Ok out ∧
  "Date" ∈ columns Samples.with_gap ∧
  rows Samples.with_gap !! 0%nat = Some r ∧
  r !! "Date" = Some (Date t) ∧
  default ∅ (rows out !! 0%nat) !! "Quarter" = Some (Str "2024.0-Q4.0") ∧
  ∃ r' : row, rows out !! 0%nat = Some r' ∧
    ((∀ r0 : row, r0 ∈ rows Samples.with_gap → is_Some (r0 !! "Date")) →
     r' !! "Quarter"
     = Some (Str (pretty (Calendar.year t) ++ "-Q" ++
                  pretty (Calendar.quarter t)))) ∧
    ((∃ r0 : row, r0 ∈ rows Samples.with_gap ∧ r0 !! "Date" = None) →
     r' !! "Quarter"
     = Some (Str ((pretty (Calendar.year t) ++ ".0") ++ "-Q" ++
                  (pretty (Calendar.quarter t) ++ ".0")))).
Proof.
  intros t r out.
  assert (Hrun : load_and_transform_data_from_source_add_additional_columns_from_date
                   Samples.with_gap = Ok out)
    by (apply ok_default; vm_compute; reflexivity).
  assert (Hcol : "Date" ∈ columns Samples.with_gap)
    by (apply has_column_true; vm_compute; reflexivity).
  assert (Hi : rows Samples.with_gap !! 0%nat = Some r)
    by (vm_compute; reflexivity).
  assert (Hd : r !! "Date" = Some (Date t)) by (vm_compute; reflexivity).
  split; [exact Hrun|]. split; [exact Hcol|]. split; [exact Hi|].
  split; [exact Hd|]. split; [vm_compute; reflexivity|].
  exact (enricher_quarter_label Samples.with_gap out 0 r t Hrun Hcol Hi Hd).
Defined.

Lemma enricher_missing_date_witness :
  let r := Samples.mk_row [("Text", Str "pending")] in
  let out :=
    match load_and_transform_data_from_source_add_additional_columns_from_date
            Samples.with_gap with
    | Ok out => out
    | Err _ => Samples.with_gap
    end in
  load_and_transform_data_from_source_add_additional_columns_from_date
    Samples.with_gap = Ok out ∧
  "Date" ∈ columns Samples.with_gap ∧
  rows Samples.with_gap !! 1%nat = Some r ∧
  r !! "Date" = None ∧
  ∃ r' : row, rows out !! 1%nat = Some r' ∧
    r' !! "Quarter" = Some (Str "nan-Qnan") ∧
    r' !! "IsWeekend" = Some (Bool false) ∧
    r' !! "Season" = None ∧ r' !! "Weekday" = None ∧ r' !! "Year" = None.
Proof.
  intros r out.
  assert (Hrun : load_and_transform_data_from_source_add_additional_columns_from_date
                   Samples.with_gap = Ok out)
    by (apply ok_default; vm_compute; reflexivity).
  assert (Hcol : "Date" ∈ columns Samples.with_gap)
    by (apply has_column_true; vm_compute; reflexivity).
  assert (Hi : rows Samples.with_gap !! 1%nat = Some r)
    by (vm_compute; reflexivity).
  assert (Hd : r !! "Date" = None) by (vm_compute; reflexivity).
  split; [exact Hrun|]. split; [exact Hcol|]. split; [exact Hi|].
  split; [exact Hd|].
  exact (enricher_missing_date Samples.with_gap out 1 r Hrun Hcol Hi Hd).
Defined.

(** ** The Amount Classifier and the Cleaner *)

Lemma classifier_rows data out :
  load_and_transform_data_from_source_add_additional_columns_from_amount data
  = Ok out →
  "Amount" ∈ columns data →
  Forall2 (λ r r' : row,
             r' = <["Type" := type_by_sign (num_of (r !! "Amount"))]> r)
    (rows data) (rows out).
Proof.
  unfold load_and_transform_data_from_source_add_additional_columns_from_amount.
  intros Hrun Hcol. apply has_column_true in Hcol. rewrite Hcol in Hrun.
  cbn [negb] in Hrun. apply assignM_ok in Hrun as [_ HF].
  eapply Forall2_impl; [exact HF|]. cbv beta.
  intros r r' (v & Hv & ->).
  destruct (r !! "Amount") as [[s|x|b|t]|]; cbn in Hv;
    try discriminate Hv; injection Hv as <-; try reflexivity.
  destruct b; reflexivity.
Qed.

(** X10.  Where the table has an Amount column, the Amount Classifier
    leaves the rows in place and writes into each its Type: Income when
    the amount is above zero, Expense otherwise, also when the amount
    is zero or missing. *)
Theorem classifier_by_sign (data out : DataFrame) :
  load_and_transform_data_from_source_add_additional_columns_from_amount data
  = Ok out →
  "Amount" ∈ columns data →
  columns out = add_column "Type" (columns data) ∧
  Forall2 (λ r r' : row,
             r' = <["Type" := Str (if 0 <? num_of (r !! "Amount")
                                   then "Income" else "Expense")]> r)
    (rows data) (rows out).
Proof.
  intros Hrun Hcol. split.
  - now apply classifier_ok in Hrun as [Hc _].
  - exact (classifier_rows data out Hrun Hcol).
Qed.

Lemma Forall2_filter_both {A B} (R : A → B → Prop) (P : A → Prop)
    (Q : B → Prop) `{∀ x, Decision (P x)} `{∀ y, Decision (Q y)}
    (l : list A) (k : list B) :
  Forall2 R l k → (∀ x y, R x y → (P x ↔ Q y)) →
  Forall2 (λ x y, P x ∧ R x y) (filter P l) (filter Q k).
Proof.
  intros HF HPQ. induction HF as [|x y l k HR HF IH]; [constructor|].
  rewrite !filter_cons.
  destruct (decide (P x)) as [HP|HP]; destruct (decide (Q y)) as [HQ|HQ].
  - constructor; auto.
  - exfalso. apply HQ, (HPQ x y HR), HP.
  - exfalso. apply HP, (HPQ x y HR), HQ.
  - exact IH.
Qed.

Lemma Forall2_compose {A B C} (P : A → B → Prop) (Q : B → C → Prop)
    (l : list A) (k : list B) (m : list C) :
  Forall2 P l k → Forall2 Q k m → Forall2 (λ x z, ∃ y, P x y ∧ Q y z) l m.
Proof.
  intros HP. revert m. induction HP as [|x y l k HR HP IH]; intros m HQ.
  - inversion HQ. constructor.
  - inversion HQ as [|y' z k' m' HQ1 HQ2]; subst. constructor; eauto.
Qed.

Lemma cleaner_rows data out :
  load_and_transform_data_from_source_clean_data data = Ok out →
  Forall2 (λ r r' : row,
             (∀ k, k ≠ "Text" → r' !! k = r !! k) ∧
             ("Text" ∈ columns data →
              ∃ x, r !! "Text" = Some (Str x) ∧
                   r' !! "Text" = Some (Str (clean_text x))) ∧
             ("Text" ∉ columns data → r' = r))
    (filter (λ r : row, is_Some (r !! "Amount") ∧ is_Some (r !! "Date"))
       (rows data))
    (rows out).
Proof.
  unfold load_and_transform_data_from_source_clean_data. intros H.
  apply bind_ok in H as (d1 & H1 & H). apply bind_ok in H as (d2 & H2 & H).
  apply dropna_ok in H1 as (_ & Hc1 & Hr1).
  apply dropna_ok in H2 as (_ & Hc2 & Hr2).
  rewrite Hr1, list_filter_filter in Hr2. rewrite <- Hr2.
  destruct (has_column "Text" d2) eqn:E.
  - apply has_column_true in E. rewrite Hc2, Hc1 in E.
    apply assignM_ok in H as [_ HF].
    eapply Forall2_impl; [exact HF|]. cbv beta.
    intros r r' (v & Hv & ->).
    destruct (r !! "Text") as [[x| | |]|] eqn:Ex; try discriminate Hv.
    injection Hv as <-. split; [|split].
    + intros k Hk. now rewrite lookup_set_cell_ne.
    + intros _. exists x. split; [reflexivity|apply lookup_set_cell_eq].
    + intros Hn. contradiction.
  - apply has_column_false in E. rewrite Hc2, Hc1 in E.
    injection H as <-. apply Forall_Forall2_diag, Forall_forall.
    intros r _. split; [auto|]. split; [intros; contradiction|auto].
Qed.

(** X11.  The Cleaner keeps, in their order, exactly the rows that have
    a date and an amount; it changes no cell of them but the Text,
    which it replaces by the cleaned text. *)
Theorem cleaner_keeps_complete_rows (data out : DataFrame) :
  load_and_transform_data_from_source_clean_data data = Ok out →
  length (rows out)
  = length (filter (λ r : row, is_Some (r !! "Amount") ∧ is_Some (r !! "Date"))
              (rows data)) ∧
  Forall2 (λ r r' : row,
             (∀ k, k ≠ "Text" → r' !! k = r !! k) ∧
             ("Text" ∈ columns data →
              ∃ x, r !! "Text" = Some (Str x) ∧
                   r' !! "Text" = Some (Str (clean_text x))) ∧
             ("Text" ∉ columns data → r' = r))
    (filter (λ r : row, is_Some (r !! "Amount") ∧ is_Some (r !! "Date"))
       (rows data))
    (rows out).
Proof.
  intros Hrun. pose proof (cleaner_rows data out Hrun) as HF.
  split; [symmetry; exact (Forall2_length _ _ _ HF)|exact HF].
Qed.


(** ** The per-source pipeline *)

Lemma categorize_row_amount with_text in_row categorizations (r : row) :
  "" ∉ categorizations.*1 →
  categorize_row with_text in_row categorizations r !! "Amount"
  = r !! "Amount".
Proof.
  intros Hne. unfold categorize_row.
  rewrite expanded_row_amount.
  2:{ unfold all_categories. rewrite elem_of_app, list_elem_of_singleton.
      intros [?|?]; [contradiction|discriminate]. }
  unfold reclassified_row, filled_row.
  repeat match goal with
         | |- context [if ?b then _ else _] => destruct b
         end;
    rewrite ?lookup_insert_ne by done; try reflexivity.
  all: unfold categorized_row;
    destruct (written_category _ _ _);
    rewrite ?lookup_insert_ne by done; reflexivity.
Qed.

Section PipelineRows.

Context (read_csv read_excel : string → Z → result DataFrame).
Context (to_datetime : cell → option Calendar.Timestamp).

(** X13.  The table of a source has one row for each row of the mapped
    table that has a date and an amount, in the same order and with the
    same date; its amount is the mapped amount times the modifier. *)
Theorem pipeline_rows (source : Source)
    (source_types : gmap string SourceType)
    (categorizations : Categorizations) (out : DataFrame) :
  load_and_transform_data_from_source read_csv read_excel to_datetime
    source source_types categorizations = Ok out →
  "" ∉ categorizations.*1 →
  ∃ source' mapped,
    load_mapped read_csv read_excel to_datetime source source_types
    = Ok (source', mapped) ∧
    Forall2 (λ r0 r : row,
               r !! "Date" = r0 !! "Date" ∧
               r !! "Amount"
               = Some (Num (num_of (r0 !! "Amount") * modifier_of source')))
      (filter (λ r0 : row, is_Some (r0 !! "Amount") ∧ is_Some (r0 !! "Date"))
         (rows mapped))
      (rows out).
Proof.
  intros Hrun Hne.
  apply pipeline_ok in Hrun as (source' & mapped & prepared & Hm & Hp & Hc).
  exists source', mapped. split; [exact Hm|].
  unfold prepare in Hp.
  apply bind_ok in Hp as (d1 & H1 & H). apply bind_ok in H as (d2 & H2 & H).
  apply bind_ok in H as (d3 & H3 & H). apply bind_ok in H as (d4 & H4 & H).
  apply filter_amounts_ok in H as [-> _].
  pose proof (cleaner_ok _ _ H3) as (_ & Hamount & _).
  assert (Hamount1 : "Amount" ∈ columns d1).
  { destruct (decide ("Amount" ∈ columns d1)) as [|Hn]; [assumption|].
    exfalso. apply Hn. revert H2 Hamount.
    unfold load_and_transform_data_from_source_add_additional_columns_from_amount.
    rewrite (proj2 (has_column_false _ _) Hn). cbn. now intros [= <-]. }
  apply enricher_ok in H1 as (_ & _ & Hr1).
  pose proof (classifier_rows _ _ H2 Hamount1) as Hr2.
  pose proof (cleaner_rows _ _ H3) as Hr3.
  apply apply_modifier_ok in H4 as [_ Hr4].
  rewrite (categorize_rows _ _ _ Hc). apply Forall2_fmap_r.
  pose proof (Forall2_compose _ _ _ _ _ Hr1 Hr2) as H12.
  assert (H12' : Forall2 (λ r0 r2 : row,
                            r2 !! "Date" = r0 !! "Date" ∧
                            r2 !! "Amount" = r0 !! "Amount")
                   (rows mapped) (rows d2)).
  { eapply Forall2_impl; [exact H12|]. cbv beta.
    intros r0 r2 (r1 & Hrel & ->).
    rewrite !lookup_insert_ne by done.
    split; apply Hrel, not_calendar_column; rewrite !elem_of_cons; auto. }
  pose proof (Forall2_filter_both _
                (λ r0 : row, is_Some (r0 !! "Amount") ∧ is_Some (r0 !! "Date"))
                (λ r0 : row, is_Some (r0 !! "Amount") ∧ is_Some (r0 !! "Date"))
                _ _ H12') as Hf.
  cbv beta in Hf.
  assert (Hf' := Hf ltac:(intros x y [-> ->]; reflexivity)). clear Hf.
  pose proof (Forall2_compose _ _ _ _ _
                (Forall2_compose _ _ _ _ _ Hf' Hr3) Hr4) as Hall.
  eapply Forall2_impl; [exact Hall|]. cbv beta.
  intros r0 r4 (r3 & (r2 & ([Ha0 Hd0] & Hd2 & Ha2) & Hrel3 & _) & Hrel4).
  unfold compose.
  assert (Ha3 : r3 !! "Amount" = r0 !! "Amount")
    by (rewrite (Hrel3 "Amount") by done; exact Ha2).
  assert (Hd3 : r3 !! "Date" = r0 !! "Date")
    by (rewrite (Hrel3 "Date") by done; exact Hd2).
  rewrite Hrel4 by (rewrite Ha3; exact Ha0).
  split.
  - rewrite categorize_row_other;
      [| done | done | intros c Hc'; symmetry in Hc';
                       exact (amount_column_not_date c Hc')].
    rewrite lookup_insert_ne by done. exact Hd3.
  - rewrite categorize_row_amount by exact Hne.
    rewrite lookup_insert_eq, Ha3. reflexivity.
Qed.

End PipelineRows.

Lemma classifier_by_sign_witness :
  let data :=
    {| columns := ["Date"; "Amount"];
       rows := [ Samples.mk_row [("Date", Samples.on 2024 5 5);
                                 ("Amount", Num 500)];
                 Samples.mk_row [("Date", Samples.on 2024 5 6);
                                 ("Amount", Num 0)];
                 Samples.mk_row [("Date", Samples.on 2024 5 7)] ] |} in
  let out :=
    match load_and_transform_data_from_source_add_additional_columns_from_amount
            data with
    | Ok out => out
    | Err _ => data
    end in
  load_and_transform_data_from_source_add_additional_columns_from_amount data
  = Ok out ∧
  "Amount" ∈ columns data ∧
  (λ r : row, r !! "Type") <$> rows out
  = [Some (Str "Income"); Some (Str "Expense"); Some (Str "Expense")] ∧
  columns out = add_column "Type" (columns data) ∧
  Forall2 (λ r r' : row,
             r' = <["Type" := Str (if 0 <? num_of (r !! "Amount")
                                   then "Income" else "Expense")]> r)
    (rows data) (rows out).
Proof.
  intros data out.
  assert (Hrun : load_and_transform_data_from_source_add_additional_columns_from_amount
                   data = Ok out)
    by (apply ok_default; vm_compute; reflexivity).
  assert (Hcol : "Amount" ∈ columns data)
    by (apply has_column_true; vm_compute; reflexivity).
  split; [exact Hrun|]. split; [exact Hcol|].
  split; [vm_compute; reflexivity|].
  exact (classifier_by_sign data out Hrun Hcol).
Defined.

Lemma cleaner_keeps_complete_rows_witness :
  let data :=
    {| columns := ["Date"; "Amount"; "Text"];
       rows := [ Samples.mk_row [("Date", Samples.on 2024 5 5);
                                 ("Amount", Num (-109));
                                 ("Text", Str "  NETFLIX.COM M/24-05-05 ")];
                 Samples.mk_row [("Date", Samples.on 2024 5 6);
                                 ("Text", Str "Pending")];
                 Samples.mk_row [("Amount", Num 12); ("Text", Str "Undated")];
                 Samples.mk_row [("Date", Samples.on 2024 5 7);
                                 ("Amount", Num 500);
                                 ("Text", Str "Avanza Bank")] ] |} in
  let out :=
    match load_and_transform_data_from_source_clean_data data with
    | Ok out => out
    | Err _ => data
    end in
  load_and_transform_data_from_source_clean_data data = Ok out ∧
  (λ r : row, r !! "Text") <$> rows out
  = [Some (Str "netflix.com"); Some (Str "avanza bank")] ∧
  length (rows out)
  = length (filter (λ r : row, is_Some (r !! "Amount") ∧ is_Some (r !! "Date"))
              (rows data)) ∧
  Forall2 (λ r r' : row,
             (∀ k, k ≠ "Text" → r' !! k = r !! k) ∧
             ("Text" ∈ columns data →
              ∃ x, r !! "Text" = Some (Str x) ∧
                   r' !! "Text" = Some (Str (clean_text x))) ∧
             ("Text" ∉ columns data → r' = r))
    (filter (λ r : row, is_Some (r !! "Amount") ∧ is_Some (r !! "Date"))
       (rows data))
    (rows out).
Proof.
  intros data out.
  assert (Hrun : load_and_transform_data_from_source_clean_data data = Ok out)
    by (apply ok_default; vm_compute; reflexivity).
  split; [exact Hrun|]. split; [vm_compute; reflexivity|].
  exact (cleaner_keeps_complete_rows data out Hrun).
Defined.

Lemma pipeline_rows_witness :
  let source :=
    <["modifier" := PNum (-1)]> (Samples.source_of "card.xlsx" "bank") in
  let out :=
    match load_and_transform_data_from_source Samples.read_csv
            Samples.read_excel Samples.to_datetime source
            Samples.source_types Samples.rules with
    | Ok out => out
    | Err _ => Samples.card
    end in
  load_and_transform_data_from_source Samples.read_csv Samples.read_excel
    Samples.to_datetime source Samples.source_types Samples.rules = Ok out ∧
  ("" ∉ Samples.rules.*1) ∧
  (λ r : row, r !! "Amount") <$> rows out
  = [Some (Num 119); Some (Num 300)] ∧
  (λ r : row, r !! "Type") <$> rows out
  = [Some (Str "Expense"); Some (Str "Expense")] ∧
  ∃ source' mapped,
    load_mapped Samples.read_csv Samples.read_excel Samples.to_datetime
      source Samples.source_types = Ok (source', mapped) ∧
    Forall2 (λ r0 r : row,
               r !! "Date" = r0 !! "Date" ∧
               r !! "Amount"
               = Some (Num (num_of (r0 !! "Amount") * modifier_of source')))
      (filter (λ r0 : row, is_Some (r0 !! "Amount") ∧ is_Some (r0 !! "Date"))
         (rows mapped))
      (rows out).
Proof.
  intros source out.
  assert (Hrun : load_and_transform_data_from_source Samples.read_csv
                   Samples.read_excel Samples.to_datetime source
                   Samples.source_types Samples.rules = Ok out)
    by (apply ok_default; vm_compute; reflexivity).
  assert (Hne : "" ∉ Samples.rules.*1)
    by (apply (bool_decide_unpack _); vm_compute; exact I).
  split; [exact Hrun|]. split; [exact Hne|].
  split; [vm_compute; reflexivity|]. split; [vm_compute; reflexivity|].
  exact (pipeline_rows Samples.read_csv Samples.read_excel Samples.to_datetime
           source Samples.source_types Samples.rules out Hrun Hne).
Defined.

(** ** The Categorizer (bank.py, lines 168-185) *)

(** X14.  In a table that comes without a Category column, a row gets
    the last category of the rule map one of whose keywords occurs in
    its text, and [Uncategorized] when there is none; its text is left
    as it is. *)
Theorem categorizer_last_match (categorizations : Categorizations)
    (data out : DataFrame) (i : nat) (r : row) (t : string) :
  categorize categorizations data = Ok out →
  "Text" ∈ columns data → "Category" ∉ columns data →
  rows data !! i = Some r →
  r !! "Text" = Some (Str t) → r !! "Category" = None →
  ∃ r' : row,
    rows out !! i = Some r' ∧
    r' !! "Text" = Some (Str t) ∧
    r' !! "Category"
    = Some (Str (default "Uncategorized" (last_match t categorizations))).
Proof.
  intros Hrun Htext Hcat Hi Ht Hc.
  destruct (categorize_last_match _ _ _ _ _ _ Hrun Htext Hcat Hi Ht Hc)
    as (r' & Hr' & Hcat').
  exists r'. split; [exact Hr'|]. split; [|exact Hcat'].
  rewrite (categorize_rows _ _ _ Hrun), list_lookup_fmap, Hi in Hr'.
  injection Hr' as <-.
  rewrite categorize_row_other; [exact Ht|done|done|].
  intros c Hc'. unfold amount_column in Hc'. cbv [String.append] in Hc'.
  discriminate.
Qed.

(** X15.  In a table that comes with a Category column, only the first
    category of the rule map is tried: a row whose text holds one of
    its keywords gets it, and every other row keeps the category it
    came with, or gets [Uncategorized] when it came with none. *)
Theorem categorizer_with_category_column (category : string)
    (keywords : list string) (rest : Categorizations)
    (data out : DataFrame) (i : nat) (r : row) (t : string) :
  categorize ((category, keywords) :: rest) data = Ok out →
  "Text" ∈ columns data → "Category" ∈ columns data →
  rows data !! i = Some r →
  r !! "Text" = Some (Str t) →
  ∃ r' : row,
    rows out !! i = Some r' ∧
    r' !! "Category"
    = Some (if existsb (λ keyword, PyStr.contains keyword t) keywords
            then Str category
            else default (Str "Uncategorized") (r !! "Category")).
Proof.
  intros Hrun Htext Hcat Hi Ht.
  rewrite (categorize_rows _ _ _ Hrun), list_lookup_fmap, Hi.
  cbn [fmap option_fmap option_map].
  eexists; split; [reflexivity|].
  apply has_column_true in Htext. rewrite Htext.
  rewrite (bool_decide_eq_true_2 _ Hcat).
  unfold categorize_row. rewrite expanded_row_category.
  rewrite (proj1 (reclassified_row_spec _)).
  unfold filled_row. rewrite lookup_insert_eq.
  unfold categorized_row. rewrite Ht. cbn [written_category keyword_hit].
  destruct (existsb _ keywords).
  - now rewrite lookup_insert_eq.
  - reflexivity.
Qed.

Lemma scan_keywords_miss index (r : row) category keywords data t :
  r !! "Text" = Some (Str t) →
  existsb (λ keyword, PyStr.contains keyword t) keywords = false →
  scan_keywords index r category keywords data = Ok data.
Proof.
  intros Ht. induction keywords as [|keyword keywords IH]; [reflexivity|].
  cbn [existsb scan_keywords]. intros Hmiss.
  apply orb_false_iff in Hmiss as [H1 H2].
  rewrite Ht. cbn. rewrite H1. auto.
Qed.

Lemma last_match_none t categorizations :
  last_match t categorizations = None →
  Forall (λ rule : string * list string,
            existsb (λ keyword, PyStr.contains keyword t) rule.2 = false)
    categorizations.
Proof.
  induction categorizations as [|[category keywords] rest IH];
    [constructor|].
  cbn [last_match keyword_hit].
  destruct (last_match t rest); [discriminate|].
  destruct (existsb _ keywords) eqn:E; [discriminate|].
  intros _. constructor; [exact E|auto].
Qed.

Lemma scan_categories_miss index (r : row) row_columns categorizations data t :
  r !! "Text" = Some (Str t) →
  last_match t categorizations = None →
  scan_categories index r row_columns categorizations data = Ok data.
Proof.
  intros Ht Hnone. apply last_match_none in Hnone.
  induction Hnone as [|[category keywords] rest Hmiss _ IH]; [reflexivity|].
  cbn [scan_categories].
  rewrite (scan_keywords_miss _ _ _ _ _ _ Ht Hmiss). cbn.
  destruct (bool_decide _); [reflexivity|exact IH].
Qed.

Lemma iterrows_loop_miss snapshot categorizations :
  ∀ index row_columns data,
  Forall (λ r : row, ∃ t, r !! "Text" = Some (Str t) ∧
                          last_match t categorizations = None) snapshot →
  iterrows_loop index snapshot row_columns categorizations data = Ok data.
Proof.
  induction snapshot as [|r snapshot IH]; intros index row_columns data HF;
    [reflexivity|].
  inversion HF as [|? ? (t & Ht & Hnone) HF']; subst.
  cbn [iterrows_loop].
  rewrite (scan_categories_miss _ _ _ _ _ _ Ht Hnone). cbn.
  apply IH, HF'.
Qed.

(** X16.  Where no row gets a category, the Category column is never
    made, and line 185 raises a [KeyError]: so it is for a table
    without a Text column, for a table without rows, for an empty rule
    map, and whenever no keyword occurs in any text. *)
Theorem categorizer_without_match (categorizations : Categorizations)
    (data : DataFrame) :
  "Category" ∉ columns data →
  ("Text" ∈ columns data →
   ∀ r : row, r ∈ rows data →
     ∃ t, r !! "Text" = Some (Str t) ∧ last_match t categorizations = None) →
  categorize categorizations data = raise 185 (KeyError "Category").
Proof.
  intros Hcat Hrows. unfold categorize, apply_categories.
  assert (Happly : (if has_column "Text" data
                    then iterrows_loop 0 (rows data) (columns data)
                           categorizations data
                    else Ok data) = Ok data).
  { destruct (has_column "Text" data) eqn:E; [|reflexivity].
    apply iterrows_loop_miss, Forall_forall.
    apply Hrows. now apply has_column_true. }
  rewrite Happly. cbn [mbind result_bind].
  unfold fillna. rewrite (proj2 (has_column_false _ _) Hcat). reflexivity.
Qed.

Lemma categorizer_last_match_witness :
  let r := Samples.mk_row [("Date", Samples.on 2024 5 6);
                           ("Amount", Num (-250)); ("Text", Str "ica maxi");
                           ("Type", Str "Expense")] in
  let data := {| columns := ["Date"; "Amount"; "Text"; "Type"];
                 rows := [r] |} in
  let out :=
    match categorize Samples.overlapping_rules data with
    | Ok out => out
    | Err _ => data
    end in
  categorize Samples.overlapping_rules data = Ok out ∧
  "Text" ∈ columns data ∧ ("Category" ∉ columns data) ∧
  rows data !! 0%nat = Some r ∧
  r !! "Text" = Some (Str "ica maxi") ∧ r !! "Category" = None ∧
  first_match "ica maxi" Samples.overlapping_rules = Some "Groceries" ∧
  last_match "ica maxi" Samples.overlapping_rules = Some "Shopping" ∧
  ∃ r' : row,
    rows out !! 0%nat = Some r' ∧
    r' !! "Text" = Some (Str "ica maxi") ∧
    r' !! "Category"
    = Some (Str (default "Uncategorized"
                   (last_match "ica maxi" Samples.overlapping_rules))).
Proof.
  intros r data out.
  assert (Hrun : categorize Samples.overlapping_rules data = Ok out)
    by (apply ok_default; vm_compute; reflexivity).
  assert (Htext : "Text" ∈ columns data)
    by (apply has_column_true; vm_compute; reflexivity).
  assert (Hcat : "Category" ∉ columns data)
    by (apply has_column_false; vm_compute; reflexivity).
  assert (Hi : rows data !! 0%nat = Some r) by reflexivity.
  assert (Ht : r !! "Text" = Some (Str "ica maxi"))
    by (vm_compute; reflexivity).
  assert (Hc : r !! "Category" = None) by (vm_compute; reflexivity).
  split; [exact Hrun|]. split; [exact Htext|]. split; [exact Hcat|].
  split; [exact Hi|]. split; [exact Ht|]. split; [exact Hc|].
  split; [vm_compute; reflexivity|]. split; [vm_compute; reflexivity|].
  exact (categorizer_last_match Samples.overlapping_rules data out 0 r
           "ica maxi" Hrun Htext Hcat Hi Ht Hc).
Defined.

Lemma categorizer_with_category_column_witness :
  let r := Samples.mk_row [("Date", Samples.on 2024 5 6);
                           ("Amount", Num (-250)); ("Text", Str "maxi toys");
                           ("Type", Str "Expense")] in
  let data := {| columns := ["Date"; "Amount"; "Text"; "Type"; "Category"];
                 rows := [r] |} in
  let out :=
    match categorize Samples.overlapping_rules data with
    | Ok out => out
    | Err _ => data
    end in
  categorize (("Groceries", ["ica"]) :: [("Shopping", ["maxi"])]) data
  = Ok out ∧
  "Text" ∈ columns data ∧ "Category" ∈ columns data ∧
  rows data !! 0%nat = Some r ∧
  r !! "Text" = Some (Str "maxi toys") ∧
  last_match "maxi toys" Samples.overlapping_rules = Some "Shopping" ∧
  default ∅ (rows out !! 0%nat) !! "Category" = Some (Str "Uncategorized") ∧
  ∃ r' : row,
    rows out !! 0%nat = Some r' ∧
    r' !! "Category"
    = Some (if existsb (λ keyword, PyStr.contains keyword "maxi toys") ["ica"]
            then Str "Groceries"
            else default (Str "Uncategorized") (r !! "Category")).
Proof.
  intros r data out.
  assert (Hrun : categorize (("Groceries", ["ica"]) :: [("Shopping", ["maxi"])])
                   data = Ok out)
    by (apply ok_default; vm_compute; reflexivity).
  assert (Htext : "Text" ∈ columns data)
    by (apply has_column_true; vm_compute; reflexivity).
  assert (Hcat : "Category" ∈ columns data)
    by (apply has_column_true; vm_compute; reflexivity).
  assert (Hi : rows data !! 0%nat = Some r) by reflexivity.
  assert (Ht : r !! "Text" = Some (Str "maxi toys"))
    by (vm_compute; reflexivity).
  split; [exact Hrun|]. split; [exact Htext|]. split; [exact Hcat|].
  split; [exact Hi|]. split; [exact Ht|].
  split; [vm_compute; reflexivity|]. split; [vm_compute; reflexivity|].
  exact (categorizer_with_category_column "Groceries" ["ica"]
           [("Shopping", ["maxi"])] data out 0 r "maxi toys"
           Hrun Htext Hcat Hi Ht).
Defined.

Lemma categorizer_without_match_witness :
  let r := Samples.mk_row [("Date", Samples.on 2024 5 6);
                           ("Amount", Num (-250)); ("Text", Str "ica maxi");
                           ("Type", Str "Expense")] in
  let data := {| columns := ["Date"; "Amount"; "Text"; "Type"];
                 rows := [r] |} in
  ("Category" ∉ columns data) ∧
  ("Text" ∈ columns data →
   ∀ r0 : row, r0 ∈ rows data →
     ∃ t, r0 !! "Text" = Some (Str t) ∧
          last_match t Samples.travel_rules = None) ∧
  categorize Samples.travel_rules data = raise 185 (KeyError "Category").
Proof.
  intros r data.
  assert (Hcat : "Category" ∉ columns data)
    by (apply has_column_false; vm_compute; reflexivity).
  assert (Hrows : "Text" ∈ columns data →
                  ∀ r0 : row, r0 ∈ rows data →
                    ∃ t, r0 !! "Text" = Some (Str t) ∧
                         last_match t Samples.travel_rules = None).
  { intros _ r0 Hr0. apply list_elem_of_singleton in Hr0 as ->.
    exists "ica maxi". split; vm_compute; reflexivity. }
  split; [exact Hcat|]. split; [exact Hrows|].
  exact (categorizer_without_match Samples.travel_rules data Hcat Hrows).
Defined.

(** ** The Source Merger (bank.py, lines 212-232) *)

Section MergerErrors.

Context `{SortKind}.
Context (read_csv read_excel : string → Z → result DataFrame).
Context (to_datetime : cell → option Calendar.Timestamp).

Lemma merge_loop_err sources source sources' source_types categorizations
    tables e :
  Forall2 (λ source table,
             load_and_transform_data_from_source read_csv read_excel
               to_datetime source source_types categorizations = Ok table)
    sources tables →
  load_and_transform_data_from_source read_csv read_excel to_datetime
    source source_types categorizations = Err e →
  ∀ data,
    merge_loop read_csv read_excel to_datetime
      (sources ++ source :: sources') source_types categorizations data
    = Err e.
Proof.
  intros HF Herr. induction HF as [|s t l k Hs HF IH]; intros data.
  - cbn [app merge_loop]. now rewrite Herr.
  - cbn [app merge_loop]. rewrite Hs. cbn [mbind result_bind]. apply IH.
Qed.

(** X17.  The merger stops at the first source whose pipeline fails,
    with the error of that source: the sources after it are not
    loaded, and nothing is returned of the sources before it. *)
Theorem merger_fails_with_first_failing_source
    (sources : list Source) (source : Source) (sources' : list Source)
    (source_types : gmap string SourceType)
    (categorizations : Categorizations) (tables : list DataFrame)
    (e : error) :
  Forall2 (λ source table,
             load_and_transform_data_from_source read_csv read_excel
               to_datetime source source_types categorizations = Ok table)
    sources tables →
  load_and_transform_data_from_source read_csv read_excel to_datetime
    source source_types categorizations = Err e →
  load_and_transform_data_from_sources read_csv read_excel to_datetime
    (sources ++ source :: sources') source_types categorizations
  = Err e.
Proof.
  intros HF Herr. unfold load_and_transform_data_from_sources.
  now rewrite (merge_loop_err _ _ _ _ _ _ _ HF Herr).
Qed.

End MergerErrors.

Lemma merger_fails_with_first_failing_source_witness :
  let good := Samples.source_of "statement.csv" "bank" in
  let bad := Samples.source_of "statement.csv" "savings" in
  let missing := Samples.source_of "nowhere.csv" "bank" in
  let table :=
    match Samples.run "statement.csv" "bank" Samples.rules with
    | Ok table => table
    | Err _ => Samples.statement
    end in
  Forall2 (λ source table,
             load_and_transform_data_from_source Samples.read_csv
               Samples.read_excel Samples.to_datetime source
               Samples.source_types Samples.rules = Ok table)
    [good] [table] ∧
  load_and_transform_data_from_source Samples.read_csv Samples.read_excel
    Samples.to_datetime bad Samples.source_types Samples.rules
  = Err (Raise 120 (KeyError "savings")) ∧
  load_and_transform_data_from_sources (H := stable_kind) Samples.read_csv
    Samples.read_excel Samples.to_datetime
    ([good] ++ bad :: [missing]) Samples.source_types Samples.rules
  = Err (Raise 120 (KeyError "savings")).
Proof.
  intros good bad missing table.
  assert (Hgood : load_and_transform_data_from_source Samples.read_csv
                    Samples.read_excel Samples.to_datetime good
                    Samples.source_types Samples.rules = Ok table)
    by (apply ok_default; vm_compute; reflexivity).
  assert (HF : Forall2 (λ source table,
                          load_and_transform_data_from_source Samples.read_csv
                            Samples.read_excel Samples.to_datetime source
                            Samples.source_types Samples.rules = Ok table)
                 [good] [table])
    by (constructor; [exact Hgood|apply List.Forall2_nil]).
  assert (Hbad : load_and_transform_data_from_source Samples.read_csv
                   Samples.read_excel Samples.to_datetime bad
                   Samples.source_types Samples.rules
                 = Err (Raise 120 (KeyError "savings")))
    by (vm_compute; reflexivity).
  split; [exact HF|]. split; [exact Hbad|].
  exact (merger_fails_with_first_failing_source (H := stable_kind)
           Samples.read_csv Samples.read_excel Samples.to_datetime
           [good] bad [missing] Samples.source_types Samples.rules [table]
           (Raise 120 (KeyError "savings")) HF Hbad).
Defined.

(** ** The Aggregator (bank.py, lines 234-275) *)

Section AggregatorFacts.

Context `{SortKind}.
Context (groupby_agg : DataFrame → string → gmap string string
                       → result DataFrame).

(** X18.  The top-25 table holds the largest amounts: the rows of the
    full aggregate are those of the top-25 table and a rest, no row of
    the rest comes before a row of the top-25 table in the descending
    order of Amount, and the rest is empty when the aggregate has no
    more than 25 rows. *)
Theorem top25_holds_the_largest (title by_column : string)
    (aggregation_mappings : gmap string string)
    (data aggregated top_25_amounts : DataFrame) :
  aggregate_report groupby_agg title by_column aggregation_mappings data
  = Ok (aggregated, top_25_amounts) →
  ∃ rest : list row,
    rows aggregated ≡ₚ (rows top_25_amounts ++ rest)%list ∧
    length rest = (length (rows aggregated) - 25)%nat ∧
    ∀ r r' : row, r ∈ rows top_25_amounts → r' ∈ rest →
      desc_order "Amount" r r'.
Proof.
  unfold aggregate_report. intros Hrun.
  apply bind_ok in Hrun as (agg & _ & Hrun).
  apply bind_ok in Hrun as (largest & Hl & Hrun).
  apply bind_ok in Hrun as (top & Hs & Hrun). injection Hrun as <- <-.
  apply sort_values_ok in Hs as (_ & _ & Hperm & _).
  revert Hl. unfold nlargest.
  destruct (has_column "Amount" agg); [|discriminate]. cbn [negb].
  destruct (existsb _ _); [discriminate|]. intros [= <-].
  cbn [rows] in Hperm.
  set (sorted := if (length (rows agg) <=? 25)%nat then _ else _) in *.
  assert (Hsorted : sorted ≡ₚ List.filter (notnull "Amount") (rows agg) ∧
                    StronglySorted
                      (λ a b, key_of "Amount" b <= key_of "Amount" a) sorted).
  { subst sorted. destruct (length (rows agg) <=? 25)%nat.
    - split; [apply sort_desc_perm|apply sort_desc_sorted].
    - split; [apply (@sort_desc_perm stable_kind)
             |apply (@sort_desc_sorted stable_kind)]. }
  destruct Hsorted as [Hp Hso].
  destruct (desc_order_app "Amount" (rows agg) sorted Hp Hso) as [Hall Hord].
  set (whole := (sorted ++ List.filter (λ r, negb (notnull "Amount" r))
                             (rows agg))%list) in *.
  exists (skipn 25%nat whole). split; [|split].
  - rewrite Hperm, <- Hall. now rewrite take_drop.
  - rewrite length_drop. now rewrite (Permutation_length Hall).
  - intros r r' Hr Hr'. rewrite Hperm in Hr.
    rewrite <- (take_drop 25%nat whole) in Hord.
    exact (StronglySorted_app_1_elem_of _ _ _ _ _ Hord Hr Hr').
Qed.

(** X19.  An aggregate without an Amount column has no top 25: the
    report fails at line 255 with a [KeyError], after the aggregation
    and before any file is written. *)
Theorem report_needs_amount (title by_column : string)
    (aggregation_mappings : gmap string string)
    (data aggregated : DataFrame) :
  groupby_agg data by_column (delete by_column aggregation_mappings)
  = Ok aggregated →
  "Amount" ∉ columns aggregated →
  aggregate_report groupby_agg title by_column aggregation_mappings data
  = raise 255 (KeyError "Amount").
Proof.
  intros Hagg Hno. unfold aggregate_report. rewrite Hagg.
  cbn [mbind result_bind]. unfold nlargest.
  rewrite (proj2 (has_column_false _ _) Hno). reflexivity.
Qed.

End AggregatorFacts.

Lemma top25_holds_the_largest_witness :
  let data :=
    {| columns := ["Key"; "Amount"];
       rows := (λ n, Samples.mk_row [("Key", Num n);
                                     ("Amount", Num (n * 5 mod 27))])
               <$> seqZ 1 27 |} in
  let already_grouped (data : DataFrame) (by_column : string)
        (mappings : gmap string string) : result DataFrame := Ok data in
  let report :=
    match aggregate_report (H := stable_kind) already_grouped "a-byKey" "Key"
            (list_to_map [("Amount", "sum")]) data with
    | Ok report => report
    | Err _ => (data, data)
    end in
  aggregate_report (H := stable_kind) already_grouped "a-byKey" "Key"
    (list_to_map [("Amount", "sum")]) data
  = Ok (report.1, report.2) ∧
  length (rows report.1) = 27%nat ∧
  (λ r : row, r !! "Amount") <$> take 3 (rows report.2)
  = [Some (Num 26); Some (Num 25); Some (Num 24)] ∧
  ∃ rest : list row,
    rows report.1 ≡ₚ (rows report.2 ++ rest)%list ∧
    length rest = (length (rows report.1) - 25)%nat ∧
    ∀ r r' : row, r ∈ rows report.2 → r' ∈ rest →
      desc_order "Amount" r r'.
Proof.
  intros data already_grouped report.
  assert (Hrun : aggregate_report (H := stable_kind) already_grouped
                   "a-byKey" "Key" (list_to_map [("Amount", "sum")]) data
                 = Ok (report.1, report.2)).
  { rewrite <- surjective_pairing. apply ok_default.
    vm_compute. reflexivity. }
  split; [exact Hrun|]. split; [vm_compute; reflexivity|].
  split; [vm_compute; reflexivity|].
  exact (top25_holds_the_largest (H := stable_kind) already_grouped
           "a-byKey" "Key" (list_to_map [("Amount", "sum")]) data
           report.1 report.2 Hrun).
Defined.

Lemma report_needs_amount_witness :
  let already_grouped (data : DataFrame) (by_column : string)
        (mappings : gmap string string) : result DataFrame := Ok data in
  already_grouped Samples.with_gap "Text"
    (delete "Text" (list_to_map [("Date", "first")]))
  = Ok Samples.with_gap ∧
  ("Amount" ∉ columns Samples.with_gap) ∧
  aggregate_report (H := stable_kind) already_grouped "a-byText" "Text"
    (list_to_map [("Date", "first")]) Samples.with_gap
  = raise 255 (KeyError "Amount").
Proof.
  intros already_grouped.
  assert (Hagg : already_grouped Samples.with_gap "Text"
                   (delete "Text" (list_to_map [("Date", "first")]))
                 = Ok Samples.with_gap) by reflexivity.
  assert (Hno : "Amount" ∉ columns Samples.with_gap)
    by (apply has_column_false; vm_compute; reflexivity).
  split; [exact Hagg|]. split; [exact Hno|].
  exact (report_needs_amount (H := stable_kind) already_grouped "a-byText"
           "Text" (list_to_map [("Date", "first")]) Samples.with_gap
           Samples.with_gap Hagg Hno).
Defined.

(** ** The files of a report (bank.py, lines 237-245 and 257) *)

Lemma contains_slash_cons c s :
  PyStr.contains "/" (String c s) = Ascii.eqb c "/" || PyStr.contains "/" s.
Proof.
  cbn [PyStr.contains String.prefix].
  destruct (ascii_dec "/" c) as [<-|Hne].
  - destruct s; reflexivity.
  - assert (Ascii.eqb c "/" = false) as ->; [|reflexivity].
    apply Ascii.eqb_neq. congruence.
Qed.

Lemma split_slash_nonempty s : split_slash s ≠ [].
Proof.
  destruct s as [|c s]; [discriminate|]. cbn [split_slash].
  destruct (split_slash s); [discriminate|].
  destruct (Ascii.eqb c "/"); discriminate.
Qed.

Lemma split_slash_plain s :
  PyStr.contains "/" s = false → split_slash s = [s].
Proof.
  induction s as [|c s IH]; [reflexivity|].
  rewrite contains_slash_cons. intros Hs.
  apply orb_false_iff in Hs as [Hc Hs].
  cbn [split_slash]. rewrite (IH Hs), Hc. reflexivity.
Qed.

Lemma split_slash_app folder name :
  PyStr.contains "/" name = false →
  split_slash (folder ++ "/" ++ name) = (split_slash folder ++ [name])%list.
Proof.
  intros Hname. induction folder as [|c folder IH].
  - change ("" ++ "/" ++ name) with (String "/" name).
    cbn [split_slash]. now rewrite (split_slash_plain _ Hname).
  - change (String c folder ++ "/" ++ name)
      with (String c (folder ++ "/" ++ name)).
    cbn [split_slash]. rewrite IH.
    pose proof (split_slash_nonempty folder) as Hne.
    destruct (split_slash folder) as [|segment segments]; [contradiction|].
    cbn [app]. destruct (Ascii.eqb c "/"); reflexivity.
Qed.

Lemma join_split_slash s : join_slash (split_slash s) = s.
Proof.
  induction s as [|c s IH]; [reflexivity|].
  cbn [split_slash]. pose proof (split_slash_nonempty s) as Hne.
  destruct (split_slash s) as [|segment segments]; [contradiction|].
  destruct (Ascii.eqb c "/") eqn:Ec.
  - apply Ascii.eqb_eq in Ec as ->.
    change (join_slash ("" :: segment :: segments))
      with ("" ++ "/" ++ join_slash (segment :: segments)).
    now rewrite IH.
  - destruct segments as [|segment' segments].
    + cbn in IH |- *. now rewrite IH.
    + change (join_slash (String c segment :: segment' :: segments))
        with (String c (segment ++ "/" ++ join_slash (segment' :: segments))).
      change (join_slash (segment :: segment' :: segments))
        with (segment ++ "/" ++ join_slash (segment' :: segments)) in IH.
      now rewrite IH.
Qed.

Lemma contains_slash_app folder name :
  PyStr.contains "/" (folder ++ "/" ++ name) = true.
Proof.
  induction folder as [|c folder IH].
  - change ("" ++ "/" ++ name) with (String "/" name).
    now rewrite contains_slash_cons.
  - change (String c folder ++ "/" ++ name)
      with (String c (folder ++ "/" ++ name)).
    rewrite contains_slash_cons, IH. apply orb_true_r.
Qed.

Lemma replace_slash_app a b :
  replace_slash (a ++ b) = replace_slash a ++ replace_slash b.
Proof.
  induction a as [|c a IH]; [reflexivity|].
  change (String c a ++ b) with (String c (a ++ b)).
  cbn [replace_slash]. now rewrite IH.
Qed.

Lemma replace_slash_plain s :
  PyStr.contains "/" s = false → replace_slash s = s.
Proof.
  induction s as [|c s IH]; [reflexivity|].
  rewrite contains_slash_cons. intros Hs.
  apply orb_false_iff in Hs as [Hc Hs].
  cbn [replace_slash]. now rewrite Hc, (IH Hs).
Qed.

(** X20.  A report whose title is a folder, a slash and a name is
    written into that folder of [output], under a file name that
    repeats the folder, its slashes turned into dashes. *)
Theorem report_path_of_prefixed_title (folder name : string) :
  PyStr.contains "/" name = false →
  folder_path (folder ++ "/" ++ name) = folder ∧
  path_to (folder ++ "/" ++ name)
  = "output/" ++ folder ++ "/" ++ replace_slash folder ++ "-" ++ name.
Proof.
  intros Hname.
  assert (Hfolder : folder_path (folder ++ "/" ++ name) = folder).
  { unfold folder_path. rewrite contains_slash_app.
    rewrite (split_slash_app _ _ Hname), removelast_last.
    apply join_split_slash. }
  split; [exact Hfolder|].
  unfold path_to, file_name. rewrite Hfolder.
  rewrite !replace_slash_app, (replace_slash_plain _ Hname). reflexivity.
Qed.

Lemma report_path_of_prefixed_title_witness :
  PyStr.contains "/" "a-byDate" = false ∧
  path_to ("expenses/2024" ++ "/" ++ "a-byDate")
  = "output/expenses/2024/expenses-2024-a-byDate" ∧
  folder_path ("expenses/2024" ++ "/" ++ "a-byDate") = "expenses/2024" ∧
  path_to ("expenses/2024" ++ "/" ++ "a-byDate")
  = "output/" ++ "expenses/2024" ++ "/" ++ replace_slash "expenses/2024"
    ++ "-" ++ "a-byDate".
Proof.
  assert (Hname : PyStr.contains "/" "a-byDate" = false)
    by (vm_compute; reflexivity).
  split; [exact Hname|]. split; [vm_compute; reflexivity|].
  exact (report_path_of_prefixed_title "expenses/2024" "a-byDate" Hname).
Defined.

(** X21.  A report whose title has no slash is written under
    [output//], with an empty folder between two slashes. *)
Theorem report_path_of_plain_title (title : string) :
  PyStr.contains "/" title = false →
  folder_path title = "" ∧ path_to title = "output//" ++ title.
Proof.
  intros Htitle. unfold path_to, folder_path, file_name.
  rewrite Htitle, (replace_slash_plain _ Htitle). split; reflexivity.
Qed.

Lemma report_path_of_plain_title_witness :
  PyStr.contains "/" "a-byDate" = false ∧
  report_files "a-byDate"
  = ["output//a-byDate-dataAll.csv"; "output//a-byDate-dataTop25.csv";
     "output//a-byDate-diagramBar.png"] ∧
  folder_path "a-byDate" = "" ∧ path_to "a-byDate" = "output//" ++ "a-byDate".
Proof.
  assert (Htitle : PyStr.contains "/" "a-byDate" = false)
    by (vm_compute; reflexivity).
  split; [exact Htitle|]. split; [vm_compute; reflexivity|].
  exact (report_path_of_plain_title "a-byDate" Htitle).
Defined.

(** ** The reports (bank.py, lines 277-289 and 313-341) *)

Section ReportFacts.

Context `{SortKind}.
Context (group_rows : DataFrame → string → gmap string string
                      → result (list row)).

(** The columns of an aggregate are the grouping column and the keys of
    the mapping, the grouping column left out of them. *)
Lemma aggregate_report_columns title by_column mappings data aggregated top k :
  aggregate_report (groupby_agg_frame group_rows) title by_column mappings data
  = Ok (aggregated, top) →
  k ∈ columns aggregated → k = by_column ∨ is_Some (mappings !! k).
Proof.
  unfold aggregate_report. intros Hrun.
  apply bind_ok in Hrun as (agg & Hagg & Hrun).
  apply bind_ok in Hrun as (largest & _ & Hrun).
  apply bind_ok in Hrun as (top' & _ & Hrun). injection Hrun as <- <-.
  unfold groupby_agg_frame in Hagg.
  destruct (has_column by_column data); [|discriminate]. cbn [negb] in Hagg.
  apply bind_ok in Hagg as (groups & _ & Hagg). injection Hagg as <-.
  cbn [columns]. rewrite elem_of_cons. intros [->|Hk]; [auto|right].
  apply list_elem_of_fmap in Hk as ([k' v] & -> & Hk).
  apply elem_of_map_to_list in Hk. cbn.
  apply lookup_delete_Some in Hk as [_ Hk]. eauto.
Qed.

Lemma generate_reports_err data mappings prefix :
  mappings !! "Category" = None →
  ∃ e, generate_reports group_rows data mappings prefix = Err e.
Proof.
  intros Hnone. unfold generate_reports.
  destruct (aggregate_report _ (prefix ++ "a-byDate") _ _ _)
    as [[by_date top]|e] eqn:E1; [|eauto].
  cbn [mbind result_bind fst].
  assert (Hno : has_column "Category" by_date = false).
  { apply has_column_false. intros Hin.
    destruct (aggregate_report_columns _ _ _ _ _ _ _ E1 Hin) as [?|[v Hv]];
      congruence. }
  repeat match goal with
         | |- context [aggregate_report ?g ?t ?b ?m ?d ≫= _] =>
             lazymatch b with
             | "Category" => fail
             | _ => destruct (aggregate_report g t b m d) as [?|?];
                    [cbn [mbind result_bind]|eauto]
             end
         end.
  unfold aggregate_report at 1, groupby_agg_frame at 1.
  rewrite Hno. cbn. eauto.
Qed.

(** X22.  With a mapping that does not aggregate a column named
    Category, [generate_reports] never returns: the first aggregate
    then has no Category column, so that the ninth report, grouped by
    Category, raises a [KeyError] unless an earlier report failed. *)
Theorem generate_reports_fails (data : DataFrame)
    (aggregation_mappings : gmap string string) (prefix : string) :
  aggregation_mappings !! "Category" = None →
  ∃ e,
    generate_reports group_rows data aggregation_mappings prefix = Err e.
Proof. apply generate_reports_err. Qed.

Lemma lookup_foldl_insert (v : string) (l : list string)
    (m : gmap string string) (k : string) :
  k ∉ l → foldl (λ (m : gmap string string) c, <[c := v]> m) m l !! k = m !! k.
Proof.
  revert m. induction l as [|c l IH]; intros m Hk; [reflexivity|].
  cbn [foldl]. rewrite IH by (intros ?; apply Hk; now right).
  apply lookup_insert_ne. intros ->. apply Hk. now left.
Qed.

Lemma main_aggregation_mappings_category all_categories :
  main_aggregation_mappings all_categories !! "Category" = None.
Proof.
  unfold main_aggregation_mappings.
  rewrite !lookup_foldl_insert; [reflexivity| |].
  - rewrite elem_of_app, list_elem_of_singleton.
    intros [Hin|?]; [|discriminate].
    apply list_elem_of_fmap in Hin as (c & Hc & _).
    symmetry in Hc. exact (amount_column_not_category c Hc).
  - rewrite !elem_of_cons, elem_of_nil. intuition discriminate.
Qed.

(** X23.  The mapping [main] builds has no entry for Category, whatever
    the categories are: every call of [generate_reports] in [main]
    ends with an exception. *)
Theorem main_reports_fail (data : DataFrame) (all_categories : list string)
    (prefix : string) :
  main_aggregation_mappings all_categories !! "Category" = None ∧
  is_ok (generate_reports group_rows data
           (main_aggregation_mappings all_categories) prefix) = false.
Proof.
  split; [apply main_aggregation_mappings_category|].
  destruct (generate_reports_err data _ prefix
              (main_aggregation_mappings_category all_categories)) as [e ->].
  reflexivity.
Qed.

End ReportFacts.

Lemma generate_reports_fails_witness :
  let mappings :=
    main_aggregation_mappings
      ["Subscriptions"; "Shopping"; "Investments"; "Uncategorized";
       "Uncategorized"] in
  let data := match Samples.expenses with
              | Ok data => data
              | Err _ => Samples.statement
              end in
  mappings !! "Category" = None ∧
  is_ok (aggregate_report (H := stable_kind)
           (groupby_agg_frame Samples.group_rows) "expenses/a-byDate" "Date"
           mappings data) = true ∧
  generate_reports (H := stable_kind) Samples.group_rows data mappings
    "expenses/"
  = raise 252 (KeyError "Category") ∧
  ∃ e,
    generate_reports (H := stable_kind) Samples.group_rows data mappings
      "expenses/" = Err e.
Proof.
  intros mappings data.
  assert (Hnone : mappings !! "Category" = None) by (vm_compute; reflexivity).
  split; [exact Hnone|]. split; [vm_compute; reflexivity|].
  split; [vm_compute; reflexivity|].
  exact (generate_reports_fails (H := stable_kind) Samples.group_rows data
           mappings "expenses/" Hnone).
Defined.

(** ** The figure size of a chart (bank.py, lines 9-24) *)

(** X24.  With the default arguments a chart is 6 high and
    [10 + 0.075 n] wide for [n] groups, up to 533 groups; from 534
    groups on it is 50 wide. *)
Theorem default_figsize_capped (n : nat) :
  (fst (default_figsize n)
   == if (n <=? 533)%nat then 10 + (3 # 40) * inject_Z (Z.of_nat n) else 50)%Q
  ∧ snd (default_figsize n) = 6%Q.
Proof.
  split; [|reflexivity].
  unfold default_figsize, dynamic_figsize. cbn [fst].
  destruct (Qlt_le_dec _ _) as [Hlt|Hle];
    destruct (n <=? 533)%nat eqn:En;
    [apply Nat.leb_le in En|reflexivity| |apply Nat.leb_gt in En].
  - exfalso. revert Hlt. unfold Qlt, Qplus, Qmult, inject_Z. cbn. lia.
  - unfold Qeq, Qplus, Qmult, inject_Z. cbn. lia.
  - exfalso. revert Hle. unfold Qle, Qplus, Qmult, inject_Z. cbn. lia.
Qed.
